(** * Crypto breakout screener: indicator library, breakout analyzer,
      multi-timeframe aggregator, backtester, signal generator, optimizer.

    A shallow embedding of [technicalIndicators.js] (the indicator library),
    [breakout-detector.js] and [signal-generator.js], and of the conversion
    of hourly candles to four-hour candles in [cryptoCompareService.js].

    Numbers.  A JavaScript number is modelled by [num]: an exact rational, or
    one of the three special values [+Infinity], [-Infinity], [NaN].  The
    arithmetic is the IEEE-754 arithmetic of the source with the rounding
    left out: sums, products and quotients of finite values are exact, a
    division by zero yields an infinity or [NaN], and [NaN] makes every
    comparison false.  Overflow and the sign of zero are not represented.
    The result of an arithmetic operation is kept in lowest terms ([fin]), so
    that two results are equal as terms exactly when they are equal as
    rationals.  A value that the source computes can therefore differ from
    the model's in its last digits, and a comparison of two values that
    close can come out the other way.  The theorems are stated so as to
    hold of the rounded arithmetic too: they are about the shape of the
    results (lengths, nulls, integer scores, the branch taken at inputs away
    from a threshold), or they compare numbers that the source computes by
    the same operations, or they are made for numbers of ordinary size and
    leave a margin for the rounding.  A lemma that holds of the exact
    arithmetic only says so.

    Values.  [jsval] adds [null] and [undefined]; an array read outside its
    bounds yields [Undefined], which converts to [NaN] in arithmetic and to
    [false] in a condition, and [Null] converts to [0], as in the source
    language.

    [Math.sqrt] is a primitive of the platform: it is the section variable
    [sqrtQ], and every statement holds for each choice of it unless it says
    otherwise.  The time zone in which [Date] reads and sets its hours is
    the section variable [LocalTZA], and the generator of [Math.random] the
    section variable [random]. *)

From Stdlib Require Import ZArith QArith Qpower Qround Qabs Lqa Lia Bool String.
From stdpp Require Import base list.

Open Scope Q_scope.

(** ** Numbers *)

Module JS.

Inductive num : Type :=
| Fin (q : Q)
| PInf
| NInf
| NaN.

Inductive jsval : Type :=
| Undefined
| Null
| Num (x : num).

Definition Qlt_bool (a b : Q) : bool := negb (Qle_bool b a).

(** A finite result, in lowest terms. *)
Definition fin (q : Q) : num := Fin (Qred q).

Definition of_Z (z : Z) : num := Fin (inject_Z z).
Definition of_nat (n : nat) : num := of_Z (Z.of_nat n).

Definition neg (x : num) : num :=
  match x with
  | Fin a => fin (- a)
  | PInf => NInf
  | NInf => PInf
  | NaN => NaN
  end.

Definition add (x y : num) : num :=
  match x, y with
  | NaN, _ | _, NaN => NaN
  | Fin a, Fin b => fin (a + b)
  | PInf, NInf | NInf, PInf => NaN
  | PInf, _ | _, PInf => PInf
  | NInf, _ | _, NInf => NInf
  end.

Definition sub (x y : num) : num := add x (neg y).

(** The sign of a finite operand decides the sign of [Infinity * x];
    [Infinity * 0] is [NaN]. *)
Definition scale_inf (positive : bool) (a : Q) : num :=
  match a ?= 0 with
  | Eq => NaN
  | Gt => if positive then PInf else NInf
  | Lt => if positive then NInf else PInf
  end.

Definition mul (x y : num) : num :=
  match x, y with
  | NaN, _ | _, NaN => NaN
  | Fin a, Fin b => fin (a * b)
  | PInf, Fin a | Fin a, PInf => scale_inf true a
  | NInf, Fin a | Fin a, NInf => scale_inf false a
  | PInf, PInf | NInf, NInf => PInf
  | PInf, NInf | NInf, PInf => NInf
  end.

(** [x / 0] is an infinity of the sign of [x], and [0 / 0] is [NaN]. *)
Definition div (x y : num) : num :=
  match x, y with
  | NaN, _ | _, NaN => NaN
  | Fin a, Fin b =>
      if Qeq_bool b 0 then
        match a ?= 0 with Eq => NaN | Gt => PInf | Lt => NInf end
      else fin (a / b)
  | Fin _, (PInf | NInf) => Fin 0
  | (PInf | NInf), (PInf | NInf) => NaN
  | PInf, Fin b => if Qlt_bool b 0 then NInf else PInf
  | NInf, Fin b => if Qlt_bool b 0 then PInf else NInf
  end.

(** [Math.abs]. *)
Definition abs (x : num) : num :=
  match x with
  | Fin a => fin (Qabs a)
  | PInf | NInf => PInf
  | NaN => NaN
  end.

(** The relational operators [<], [<=], [>], [>=] and the strict equality
    [===] on numbers. *)
Definition lt (x y : num) : bool :=
  match x, y with
  | NaN, _ | _, NaN => false
  | Fin a, Fin b => Qlt_bool a b
  | _, NInf => false
  | NInf, _ => true
  | PInf, _ => false
  | _, PInf => true
  end.

Definition le (x y : num) : bool :=
  match x, y with
  | NaN, _ | _, NaN => false
  | Fin a, Fin b => Qle_bool a b
  | NInf, _ => true
  | _, PInf => true
  | _, NInf => false
  | PInf, _ => false
  end.

Definition gt (x y : num) : bool := lt y x.
Definition ge (x y : num) : bool := le y x.

Definition eq (x y : num) : bool :=
  match x, y with
  | Fin a, Fin b => Qeq_bool a b
  | PInf, PInf | NInf, NInf => true
  | _, _ => false
  end.

(** [Math.max] and [Math.min] of two arguments, and of an argument list:
    [Math.max()] is [-Infinity], [Math.min()] is [+Infinity], and a [NaN]
    argument makes the result [NaN]. *)
Definition max2 (x y : num) : num :=
  match x, y with
  | NaN, _ | _, NaN => NaN
  | _, _ => if le x y then y else x
  end.

Definition min2 (x y : num) : num :=
  match x, y with
  | NaN, _ | _, NaN => NaN
  | _, _ => if le x y then x else y
  end.

Definition max_list (l : list num) : num := foldl max2 NInf l.
Definition min_list (l : list num) : num := foldl min2 PInf l.

(** [Math.round]: the nearest integer, a tie going up. *)
Definition round (x : num) : num :=
  match x with
  | Fin a => of_Z (Qfloor (a + (1 # 2)))
  | _ => x
  end.

(** Conversion of a value to a number and to a condition. *)
Definition to_num (v : jsval) : num :=
  match v with
  | Undefined => NaN
  | Null => Fin 0
  | Num x => x
  end.

Definition truthy_num (x : num) : bool :=
  match x with
  | Fin a => negb (Qeq_bool a 0)
  | PInf | NInf => true
  | NaN => false
  end.

Definition truthy (v : jsval) : bool :=
  match v with
  | Num x => truthy_num x
  | Undefined | Null => false
  end.

(** [a || b] and [v !== null]. *)
Definition or_else (a b : jsval) : jsval := if truthy a then a else b.

Definition not_null (v : jsval) : bool :=
  match v with
  | Null => false
  | _ => true
  end.

(** An array read [a[i]]; the index is an integer that may fall outside,
    and the read is then [undefined] ([None] for an array of objects). *)
Definition nth_opt {A} (l : list A) (i : Z) : option A :=
  if (i <? 0)%Z then None else l !! Z.to_nat i.

Definition at_ (l : list num) (i : Z) : jsval :=
  match nth_opt l i with
  | Some x => Num x
  | None => Undefined
  end.

Definition at_val (l : list jsval) (i : Z) : jsval :=
  match nth_opt l i with
  | Some v => v
  | None => Undefined
  end.

(** [Array.prototype.slice]: a negative index counts from the end, and both
    ends are clamped to the array. *)
Definition rel_index (len : nat) (k : Z) : nat :=
  if (k <? 0)%Z then Z.to_nat (Z.max (Z.of_nat len + k) 0)
  else Z.to_nat (Z.min k (Z.of_nat len)).

Definition slice {A} (l : list A) (start stop : Z) : list A :=
  let s := rel_index (length l) start in
  let e := rel_index (length l) stop in
  take (e - s) (drop s l).

Definition slice_from {A} (l : list A) (start : Z) : list A :=
  drop (rel_index (length l) start) l.

(** [ToIntegerOrInfinity], as [slice] applies it to a numeric argument:
    truncation towards zero, [NaN] becoming [0]; an infinite argument is
    clamped by [slice] anyway, so it is sent beyond any array length. *)
Definition trunc (len : nat) (x : num) : Z :=
  match x with
  | Fin a => if Qlt_bool a 0 then (- Qfloor (- a))%Z else Qfloor a
  | PInf => Z.of_nat len
  | NInf => (- Z.of_nat len)%Z
  | NaN => 0%Z
  end.

End JS.

Declare Scope js_scope.
Delimit Scope js_scope with J.
Bind Scope js_scope with JS.num.
Infix "+" := JS.add : js_scope.
Infix "-" := JS.sub : js_scope.
Infix "*" := JS.mul : js_scope.
Infix "/" := JS.div : js_scope.
Infix "<?" := JS.lt : js_scope.
Infix "<=?" := JS.le : js_scope.
Infix ">?" := JS.gt : js_scope.
Infix ">=?" := JS.ge : js_scope.
Infix "===" := JS.eq (at level 70) : js_scope.

Abbreviation num := JS.num.
Abbreviation jsval := JS.jsval.
Abbreviation Fin := JS.Fin.
Abbreviation PInf := JS.PInf.
Abbreviation NInf := JS.NInf.
Abbreviation NaN := JS.NaN.
Abbreviation Undefined := JS.Undefined.
Abbreviation Null := JS.Null.
Abbreviation Num := JS.Num.

(** A call either returns or throws. *)
Inductive outcome (A : Type) : Type :=
| Returns (a : A)
| Throws (what : string).
Arguments Returns {A} a.
Arguments Throws {A} what.

(** ** The data model *)

(** A candle of the market-data provider. *)
Module Candle.
Record t : Type := {
  time : Z;
  open : num;
  high : num;
  low : num;
  close : num;
  volume : num
}.
End Candle.

(** An options object.  A numeric option is a number, [null] or absent
    ([Undefined]); the three indicator periods are counts; a flag is a
    boolean or absent. *)
Module Options.
Record t : Type := {
  consolidationPeriod : jsval;
  consolidationThreshold : jsval;
  rsiLowerThreshold : jsval;
  rsiUpperThreshold : jsval;
  volumeIncreaseThreshold : jsval;
  minBreakoutPercent : jsval;
  maxBreakoutPercent : jsval;
  bollingerPeriod : option nat;
  atrPeriod : option nat;
  lookbackPeriod : option nat;
  ema200Required : option bool;
  minMTFScore : jsval;
  minAlignmentScore : jsval;
  minDailyScore : jsval;
  requireEma200 : option bool;
  maxPrice : jsval;
  riskRewardRatio : jsval;
  maxStopLossPercent : jsval;
  minProfitPotential : option string
}.

(** The empty object [{}]. *)
Definition empty : t :=
  {| consolidationPeriod := Undefined; consolidationThreshold := Undefined;
     rsiLowerThreshold := Undefined; rsiUpperThreshold := Undefined;
     volumeIncreaseThreshold := Undefined; minBreakoutPercent := Undefined;
     maxBreakoutPercent := Undefined; bollingerPeriod := None;
     atrPeriod := None; lookbackPeriod := None; ema200Required := None;
     minMTFScore := Undefined; minAlignmentScore := Undefined;
     minDailyScore := Undefined; requireEma200 := None; maxPrice := Undefined;
     riskRewardRatio := Undefined; maxStopLossPercent := Undefined;
     minProfitPotential := None |}.
End Options.

(** [options.x || d] for a numeric option, for a period and for a string,
    and [options.x !== undefined ? options.x : d] for a flag. *)
Definition or_default (v : jsval) (d : num) : num :=
  JS.to_num (JS.or_else v (Num d)).

Definition or_default_nat (v : option nat) (d : nat) : nat :=
  match v with
  | Some n => if (n =? 0)%nat then d else n
  | None => d
  end.

Definition or_string (a b : string) : string :=
  if String.eqb a "" then b else a.

Definition or_default_string (v : option string) (d : string) : string :=
  match v with
  | Some s => or_string s d
  | None => d
  end.

Definition defined_or (v : option bool) (d : bool) : bool :=
  match v with
  | Some b => b
  | None => d
  end.

(** The [config] object of [analyzeBreakout]. *)
Module Config.
Record t : Type := {
  consolidationPeriod : num;
  consolidationThreshold : num;
  rsiLowerThreshold : num;
  rsiUpperThreshold : num;
  volumeIncreaseThreshold : num;
  minBreakoutPercent : num;
  maxBreakoutPercent : num;
  bollingerPeriod : nat;
  atrPeriod : nat;
  lookbackPeriod : nat;
  ema200Required : bool
}.
End Config.

Module Metrics.
Record t : Type := {
  rsi : jsval;
  bollingerWidth : jsval;
  bollingerPercent : jsval;
  atr : jsval;
  aboveEma200 : option bool;
  priceChangePercent : num;
  volumeChangePercent : num
}.
End Metrics.

(** The result of [analyzeBreakout].  [profitPotential] and [riskLevel] are
    the strings of the source; the two suggested levels are [Undefined]
    when the property is not set. *)
Module Analysis.
Record t : Type := {
  isBreakoutCandidate : bool;
  breakoutScore : Z;
  signals : list string;
  metrics : Metrics.t;
  profitPotential : string;
  riskLevel : string;
  suggestedStopLoss : jsval;
  suggestedTakeProfit : jsval
}.
End Analysis.

(** The result of [multiTimeframeAnalysis]. *)
Module MTF.
Record t : Type := {
  mtfScore : num;
  alignmentScore : Z;
  hourlyScore : Z;
  fourHourScore : Z;
  dailyScore : Z;
  isConfirmedBreakout : bool;
  combinedSignals : list string;
  profitPotential : string;
  riskLevel : string;
  suggestedStopLoss : jsval;
  suggestedTakeProfit : jsval
}.
End MTF.

(** A simulated trade; [exitPrice] and [exitType] start as [null]. *)
Module Trade.
Record t : Type := {
  entryBar : nat;
  entryPrice : num;
  stopLoss : jsval;
  takeProfit : jsval;
  exitPrice : jsval;
  exitType : option string;
  barsHeld : nat;
  pnl : num;
  date : Z
}.
End Trade.

(** The [results] object of the backtest; [expectancy] is set only when
    there was a trade. *)
Module Backtest.
Record t : Type := {
  totalTrades : nat;
  winningTrades : nat;
  losingTrades : nat;
  winRate : num;
  averageProfit : num;
  averageLoss : num;
  profitFactor : num;
  expectancy : jsval;
  trades : list Trade.t
}.

(** What [backtestBreakoutStrategy] returns: [{ error }] or the results. *)
Inductive outcome : Type :=
| Error (error : string)
| Results (results : t).
End Backtest.

(** The [config] object of [generateBreakoutSignal]. *)
Module SignalConfig.
Record t : Type := {
  consolidationPeriod : num;
  consolidationThreshold : num;
  rsiLowerThreshold : num;
  rsiUpperThreshold : num;
  volumeIncreaseThreshold : num;
  minBreakoutPercent : num;
  maxBreakoutPercent : num;
  minMTFScore : num;
  minAlignmentScore : num;
  minDailyScore : num;
  requireEma200 : bool;
  maxPrice : num;
  riskRewardRatio : num;
  maxStopLossPercent : num;
  minProfitPotential : string
}.
End SignalConfig.

(** The argument of [generateBreakoutSignal]; a timeframe may be missing. *)
Module CoinData.
Record t : Type := {
  hourlyData : option (list Candle.t);
  fourHourData : option (list Candle.t);
  dailyData : option (list Candle.t);
  symbol : string;
  exchange : option string
}.
End CoinData.

(** An emitted signal ([success: true]). *)
Module Signal.
Record scores : Type := {
  score : num;
  alignmentScore : Z;
  hourlyScore : Z;
  fourHourScore : Z;
  dailyScore : Z
}.

Record t : Type := {
  symbol : string;
  exchange : string;
  signalType : string;
  direction : string;
  confidence : num;
  entryPrice : num;
  stopLoss : jsval;
  takeProfit : jsval;
  riskRewardRatio : num;
  potentialProfitPercent : num;
  potentialLossPercent : num;
  timeframe : string;
  generatedAt : Z;
  expiresAt : Z;
  mtfAnalysis : scores;
  signals : list string;
  profitPotential : string;
  riskLevel : string;
  successProbability : num
}.

(** A rejection ([success: false]) with its diagnostics. *)
Inductive rejection : Type :=
| MissingData
| PriceAboveMaximum (price maxPrice : num)
| CriteriaNotMet (mtfScore : num) (alignmentScore dailyScore : Z) (profitPotential : string)
| StopLossTooHigh (stopLossPercent maxStopLossPercent : num)
| TooCloseToHigh (percentFromHigh : num)
| VolatilityTooHigh (normalizedVolatility : num).

Definition message (r : rejection) : string :=
  match r with
  | MissingData => "Missing required timeframe data"
  | PriceAboveMaximum _ _ => "Price above maximum threshold"
  | CriteriaNotMet _ _ _ _ => "Does not meet signal criteria"
  | StopLossTooHigh _ _ => "Stop loss percentage too high"
  | TooCloseToHigh _ => "Price too close to 20-day high"
  | VolatilityTooHigh _ => "Coin volatility too high"
  end.

Inductive result : Type :=
| Rejected (r : rejection)
| Emitted (s : t).
End Signal.

(** The parameter set of the optimizer. *)
Module Params.
Record t : Type := {
  consolidationPeriod : num;
  consolidationThreshold : num;
  rsiLowerThreshold : num;
  rsiUpperThreshold : num;
  volumeIncreaseThreshold : num;
  minBreakoutPercent : num;
  maxBreakoutPercent : num;
  riskRewardRatio : num;
  maxStopLossPercent : num
}.

(** The parameter object read as an options object. *)
Definition options (p : t) : Options.t :=
  {| Options.consolidationPeriod := Num (consolidationPeriod p);
     Options.consolidationThreshold := Num (consolidationThreshold p);
     Options.rsiLowerThreshold := Num (rsiLowerThreshold p);
     Options.rsiUpperThreshold := Num (rsiUpperThreshold p);
     Options.volumeIncreaseThreshold := Num (volumeIncreaseThreshold p);
     Options.minBreakoutPercent := Num (minBreakoutPercent p);
     Options.maxBreakoutPercent := Num (maxBreakoutPercent p);
     Options.bollingerPeriod := None;
     Options.atrPeriod := None;
     Options.lookbackPeriod := None;
     Options.ema200Required := None;
     Options.minMTFScore := Undefined;
     Options.minAlignmentScore := Undefined;
     Options.minDailyScore := Undefined;
     Options.requireEma200 := None;
     Options.maxPrice := Undefined;
     Options.riskRewardRatio := Num (riskRewardRatio p);
     Options.maxStopLossPercent := Num (maxStopLossPercent p);
     Options.minProfitPotential := None |}.
End Params.

(** What [optimizeParameters] returns. *)
Module Optimum.
Record t : Type := {
  parameters : Params.t;
  score : num;
  winRate : num
}.
End Optimum.

(** The options of [filterSignalsForHighAccuracy], and its merged
    [filters] object. *)
Module FilterOptions.
Record t : Type := {
  minConfidence : jsval;
  minSuccessProbability : jsval;
  minRiskRewardRatio : jsval;
  maxRiskLevel : option string;
  minMTFScore : jsval;
  minAlignmentScore : jsval
}.

Definition empty : t :=
  {| minConfidence := Undefined; minSuccessProbability := Undefined;
     minRiskRewardRatio := Undefined; maxRiskLevel := None;
     minMTFScore := Undefined; minAlignmentScore := Undefined |}.
End FilterOptions.

Module Filters.
Record t : Type := {
  minConfidence : num;
  minSuccessProbability : num;
  minRiskRewardRatio : num;
  maxRiskLevel : string;
  minMTFScore : num;
  minAlignmentScore : num
}.
End Filters.

Section Screener.

(** [Math.sqrt] on the non-negative rationals. *)
Variable sqrtQ : Q -> Q.

Definition sqrt (x : num) : num :=
  match x with
  | Fin a => if JS.Qlt_bool a 0 then NaN else JS.fin (sqrtQ a)
  | PInf => PInf
  | NInf | NaN => NaN
  end.

(** ** The indicator library ([technicalIndicators.js]) *)

Definition sum_list (l : list num) : num := foldl JS.add (Fin 0) l.

(** [data[i]] read as a number. *)
Definition get (data : list num) (i : Z) : num := JS.to_num (JS.at_ data i).

(** The inner loop of [calculateSMA]: [sum += data[i - j]] for [j] from [0]
    to [period - 1]. *)
Definition window_sum (data : list num) (i period : nat) : num :=
  foldl (fun sum j => (sum + get data (Z.of_nat i - Z.of_nat j))%J)
        (Fin 0) (seq 0 period).

Definition calculateSMA (data : list num) (period : nat) : list jsval :=
  if (length data <? period)%nat then replicate (length data) Null
  else
    map (fun i =>
           if (Z.of_nat i <? Z.of_nat period - 1)%Z then Null
           else Num (window_sum data i period / JS.of_nat period)%J)
        (seq 0 (length data)).

(** The loop of [calculateEMA] over the points after the seed. *)
Fixpoint ema_loop (multiplier ema : num) (rest : list num) : list jsval :=
  match rest with
  | [] => []
  | x :: rest' =>
      let ema' := ((x - ema) * multiplier + ema)%J in
      Num ema' :: ema_loop multiplier ema' rest'
  end.

(** What [calculateEMA] returns when it returns. *)
Definition ema_values (data : list num) (period : nat) : list jsval :=
  let multiplier := (Fin 2 / JS.of_nat (period + 1))%J in
  if (length data <? period)%nat then replicate (length data) Null
  else
    let ema := (sum_list (JS.slice data 0 (Z.of_nat period)) / JS.of_nat period)%J in
    replicate (period - 1) Null ++ Num ema :: ema_loop multiplier ema (drop period data).

(** [calculateEMA]: with [period = 0] the guard [data.length < period] never
    holds and [Array(period - 1)] is [Array(-1)], a [RangeError]. *)
Definition calculateEMA (data : list num) (period : nat) : outcome (list jsval) :=
  if (period =? 0)%nat then Throws "RangeError: Invalid array length"
  else Returns (ema_values data period).

(** [changes]: [0] at index [0], then [data[i] - data[i - 1]]. *)
Definition price_changes (data : list num) : list num :=
  map (fun i => if (i =? 0)%nat then Fin 0
                else (get data (Z.of_nat i) - get data (Z.of_nat i - 1))%J)
      (seq 0 (length data)).

(** The first loop of [calculateRSI], over [changes[1..period]]: its body
    on the pair of [gainSum] and [lossSum], and the loop. *)
Definition add_change (sums : num * num) (change : num) : num * num :=
  let '(gainSum, lossSum) := sums in
  if (change >? Fin 0)%J then ((gainSum + change)%J, lossSum)
  else (gainSum, (lossSum + JS.abs change)%J).

Definition initial_sums (changes : list num) : num * num :=
  foldl add_change (Fin 0, Fin 0) changes.

(** [rs = avgGain / (avgLoss === 0 ? 0.001 : avgLoss)] and
    [rsi = 100 - 100 / (1 + rs)]. *)
Definition rsi_of (avgGain avgLoss : num) : num :=
  let rs := (avgGain / (if (avgLoss === Fin 0)%J then Fin 0.001 else avgLoss))%J in
  (Fin 100 - Fin 100 / (Fin 1 + rs))%J.

Fixpoint rsi_loop (period : nat) (avgGain avgLoss : num) (changes : list num)
  : list jsval :=
  match changes with
  | [] => []
  | change :: rest =>
      let currentGain := if (change >? Fin 0)%J then change else Fin 0 in
      let currentLoss := if (change <? Fin 0)%J then JS.abs change else Fin 0 in
      let avgGain' :=
        ((avgGain * JS.of_Z (Z.of_nat period - 1) + currentGain) / JS.of_nat period)%J in
      let avgLoss' :=
        ((avgLoss * JS.of_Z (Z.of_nat period - 1) + currentLoss) / JS.of_nat period)%J in
      Num (rsi_of avgGain' avgLoss') :: rsi_loop period avgGain' avgLoss' rest
  end.

Definition calculateRSI (data : list num) (period : nat) : list jsval :=
  if (length data <? period + 1)%nat then replicate (length data) Null
  else
    let changes := price_changes data in
    let '(gainSum, lossSum) := initial_sums (take period (drop 1 changes)) in
    let avgGain := (gainSum / JS.of_nat period)%J in
    let avgLoss := (lossSum / JS.of_nat period)%J in
    replicate period Null
      ++ Num (rsi_of avgGain avgLoss)
      :: rsi_loop period avgGain avgLoss (drop (period + 1) changes).

(** [results[i] = v]: a negative index names a property and leaves the
    elements alone; an index past the end extends the array. *)
Definition assign (l : list jsval) (i : Z) (v : jsval) : list jsval :=
  if (i <? 0)%Z then l
  else
    let n := Z.to_nat i in
    if (n <? length l)%nat then <[n := v]> l
    else l ++ replicate (n - length l) Undefined ++ [v].

Definition true_ranges (highData lowData closeData : list num) : list num :=
  map (fun i =>
         let k := Z.of_nat i in
         if (i =? 0)%nat then (get highData 0 - get lowData 0)%J
         else
           let tr1 := (get highData k - get lowData k)%J in
           let tr2 := JS.abs (get highData k - get closeData (k - 1))%J in
           let tr3 := JS.abs (get lowData k - get closeData (k - 1))%J in
           JS.max_list [tr1; tr2; tr3])
      (seq 0 (length highData)).

Fixpoint atr_loop (period : nat) (atr : num) (trueRanges : list num) : list jsval :=
  match trueRanges with
  | [] => []
  | tr :: rest =>
      let atr' := ((atr * JS.of_Z (Z.of_nat period - 1) + tr) / JS.of_nat period)%J in
      Num atr' :: atr_loop period atr' rest
  end.

Definition calculateATR (highData lowData closeData : list num) (period : nat)
  : list jsval :=
  if (length highData <? 2)%nat
     || negb (length highData =? length lowData)%nat
     || negb (length lowData =? length closeData)%nat
  then replicate (length highData) Null
  else
    let trueRanges := true_ranges highData lowData closeData in
    let results := replicate period Null in
    if (period <=? length trueRanges)%nat then
      let atr := (sum_list (JS.slice trueRanges 0 (Z.of_nat period)) / JS.of_nat period)%J in
      assign results (Z.of_nat period - 1) (Num atr)
        ++ atr_loop period atr (drop period trueRanges)
    else results.

(** A Bollinger point; every field is [null] during the warm-up. *)
Record BollingerPoint : Type := {
  upper : jsval;
  middle : jsval;
  lower : jsval;
  width : jsval;
  percent : jsval
}.

Definition null_point : BollingerPoint :=
  {| upper := Null; middle := Null; lower := Null; width := Null; percent := Null |}.

(** [calculateBollingerBands(data, period)], [standardDeviations] being its
    default [2]. *)
Definition calculateBollingerBands (data : list num) (period : nat)
  : list BollingerPoint :=
  let standardDeviations := Fin 2 in
  if (length data <? period)%nat then replicate (length data) null_point
  else
    let sma := calculateSMA data period in
    map (fun i =>
           if (Z.of_nat i <? Z.of_nat period - 1)%Z then null_point
           else
             let sma_i := JS.to_num (JS.at_val sma (Z.of_nat i)) in
             let sum :=
               foldl (fun sum j =>
                        let d := (get data (Z.of_nat i - Z.of_nat j) - sma_i)%J in
                        (sum + d * d)%J)
                     (Fin 0) (seq 0 period) in
             let stdDev := sqrt (sum / JS.of_nat period)%J in
             let upper := (sma_i + standardDeviations * stdDev)%J in
             let lower := (sma_i - standardDeviations * stdDev)%J in
             let width := ((upper - lower) / sma_i)%J in
             let percent :=
               if JS.truthy (JS.at_ data (Z.of_nat i))
               then Num ((get data (Z.of_nat i) - lower) / (upper - lower))%J
               else Null in
             {| upper := Num upper; middle := Num sma_i; lower := Num lower;
                width := Num width; percent := percent |})
        (seq 0 (length data)).

(** The loop of [calculateOBV] from index [1] on; [prev] is [closeData[i - 1]]. *)
Fixpoint obv_loop (obv prev : num) (rest : list (num * num)) : list jsval :=
  match rest with
  | [] => []
  | (close, volume) :: rest' =>
      let obv' :=
        if (close >? prev)%J then (obv + volume)%J
        else if (close <? prev)%J then (obv - volume)%J
        else obv in
      Num obv' :: obv_loop obv' close rest'
  end.

Definition calculateOBV (closeData volumeData : list num) : list jsval :=
  if negb (length closeData =? length volumeData)%nat || (length closeData =? 0)%nat
  then replicate (length closeData) Null
  else
    match closeData, volumeData with
    | close0 :: closes, volume0 :: volumes =>
        Num volume0 :: obv_loop volume0 close0 (zip closes volumes)
    | _, _ => []
    end.

(** A MACD point. *)
Record MACDPoint : Type := {
  macd : jsval;
  signal : jsval;
  histogram : jsval
}.

Definition null_macd : MACDPoint :=
  {| macd := Null; signal := Null; histogram := Null |}.

(** The non-null entries of a series, in order. *)
Definition valid_values (l : list jsval) : list num :=
  omap (fun v => match v with Num x => Some x | _ => None end) l.

(** [calculateMACD(data)], the three periods being their defaults [12],
    [26], [9]: the analyzer, its only caller, passes the data alone.  The
    periods are positive, so each [calculateEMA] call returns
    ([calculateEMA_returns]). *)
Definition calculateMACD (data : list num) : list MACDPoint :=
  let fastPeriod := 12%nat in
  let slowPeriod := 26%nat in
  let signalPeriod := 9%nat in
  if (length data <? Nat.max fastPeriod slowPeriod + signalPeriod)%nat
  then replicate (length data) null_macd
  else
    let fastEMA := ema_values data fastPeriod in
    let slowEMA := ema_values data slowPeriod in
    let macdLine :=
      zip_with (fun fast slow =>
                  if negb (JS.not_null fast) || negb (JS.not_null slow) then Null
                  else Num (JS.to_num fast - JS.to_num slow)%J)
               fastEMA slowEMA in
    let validMacdValues := valid_values macdLine in
    let signalLine :=
      if (signalPeriod <=? length validMacdValues)%nat then
        let padding := (length macdLine - length validMacdValues)%nat in
        replicate padding Null ++ ema_values validMacdValues signalPeriod
      else replicate (length macdLine) Null in
    zip_with (fun m s =>
                if negb (JS.not_null m) || negb (JS.not_null s) then null_macd
                else {| macd := m; signal := s;
                        histogram := Num (JS.to_num m - JS.to_num s)%J |})
             macdLine signalLine.

(** [isPriceConsolidating(data, period, threshold)].  The period is a
    number, not a count: the optimizer hands over fractional ones, which
    [slice] truncates. *)
Definition isPriceConsolidating (data : list num) (period threshold : num) : bool :=
  if (JS.of_nat (length data) <? period)%J then false
  else
    let recentData := JS.slice_from data (- JS.trunc (length data) period)%Z in
    let max := JS.max_list recentData in
    let min := JS.min_list recentData in
    let range := ((max - min) / max)%J in
    (range <=? threshold)%J.

Definition isVolumeIncreasing (volumeData : list num) (threshold : num) : bool :=
  if (length volumeData <? 2)%nat then false
  else
    let n := Z.of_nat (length volumeData) in
    let currentVolume := get volumeData (n - 1) in
    let previousVolume := get volumeData (n - 2) in
    ((currentVolume - previousVolume) / previousVolume >? threshold)%J.

(** [bb[i].upper]; the two reads below stay inside the ten-element slice,
    so the case of a missing object does not arise. *)
Definition upper_at (bb : list BollingerPoint) (i : Z) : jsval :=
  match JS.nth_opt bb i with
  | Some p => upper p
  | None => Undefined
  end.

(** [detectBollingerBreakout(priceData, bbData)], [lookbackPeriod] being its
    default [10]. *)
Definition detectBollingerBreakout (priceData : list num) (bbData : list BollingerPoint)
  : bool :=
  let lookbackPeriod := 10%nat in
  if (length priceData <? lookbackPeriod)%nat || (length bbData <? lookbackPeriod)%nat
  then false
  else
    let recentPrices := JS.slice_from priceData (- Z.of_nat lookbackPeriod)%Z in
    let recentBB := JS.slice_from bbData (- Z.of_nat lookbackPeriod)%Z in
    let n := Z.of_nat (length recentPrices) in
    let m := Z.of_nat (length recentBB) in
    (get recentPrices (n - 2) <=? JS.to_num (upper_at recentBB (m - 2)))%J
    && (get recentPrices (n - 1) >? JS.to_num (upper_at recentBB (m - 1)))%J.

(** The test of the divergence scan: [recentPrices[i]] is at most the
    minimum of the five points before and the five after. *)
Definition is_local_low (recentPrices : list num) (i : nat) : bool :=
  let k := Z.of_nat i in
  let current := get recentPrices k in
  let previousFive := JS.slice recentPrices (k - 5) k in
  let nextFive := JS.slice recentPrices (k + 1) (k + 6) in
  (current <=? JS.min_list (previousFive ++ nextFive))%J.

(** The scan itself: the first two local lows, the loop breaking at the
    second. *)
Fixpoint find_lows (recentPrices : list num) (indices : list nat) (first : option nat)
  : option nat * option nat :=
  match indices with
  | [] => (first, None)
  | i :: rest =>
      if is_local_low recentPrices i then
        match first with
        | None => find_lows recentPrices rest (Some i)
        | Some _ => (first, Some i)
        end
      else find_lows recentPrices rest first
  end.

Definition detectPositiveRSIDivergence
  (priceData : list num) (rsiData : list jsval) (lookbackPeriod : nat) : bool :=
  if (length priceData <? lookbackPeriod)%nat || (length rsiData <? lookbackPeriod)%nat
  then false
  else
    let recentPrices := JS.slice_from priceData (- Z.of_nat lookbackPeriod)%Z in
    let recentRSI := JS.slice_from rsiData (- Z.of_nat lookbackPeriod)%Z in
    match find_lows recentPrices (seq 5 (length recentPrices - 10)) None with
    | (Some firstPriceLowIndex, Some secondPriceLowIndex) =>
        let firstPriceLow := get recentPrices (Z.of_nat firstPriceLowIndex) in
        let secondPriceLow := get recentPrices (Z.of_nat secondPriceLowIndex) in
        let firstRSILow := JS.to_num (JS.at_val recentRSI (Z.of_nat firstPriceLowIndex)) in
        let secondRSILow := JS.to_num (JS.at_val recentRSI (Z.of_nat secondPriceLowIndex)) in
        (secondPriceLow <? firstPriceLow)%J && (secondRSILow >? firstRSILow)%J
    | _ => false
    end.

(** ** The breakout analyzer ([breakout-detector.js]) *)

(** [a[a.length - 1]]. *)
Definition last_obj {A} (l : list A) : option A :=
  JS.nth_opt l (Z.of_nat (length l) - 1).

Definition last_val (l : list jsval) : jsval :=
  JS.at_val l (Z.of_nat (length l) - 1).

Definition last_num (l : list num) : num :=
  get l (Z.of_nat (length l) - 1).

Definition calculateProfitPotential
  (closeData : list num) (atrData : list jsval) (bbData : list BollingerPoint)
  (breakoutScore : Z) : string :=
  if (length closeData <? 20)%nat || negb (JS.not_null (last_val atrData))
  then "Unknown"
  else
    let currentPrice := last_num closeData in
    let currentATR := JS.to_num (last_val atrData) in
    let atrPercentage := (currentATR / currentPrice * Fin 100)%J in
    if (atrPercentage >? Fin 5)%J && (85 <? breakoutScore)%Z then "Very High"
    else if (atrPercentage >? Fin 3)%J && (75 <? breakoutScore)%Z then "High"
    else if (atrPercentage >? Fin 2)%J && (65 <? breakoutScore)%Z then "Medium"
    else "Low".

Definition calculateRiskLevel
  (closeData : list num) (atrData : list jsval) (breakoutScore : Z) : string :=
  if (length closeData <? 20)%nat || negb (JS.not_null (last_val atrData))
  then "Unknown"
  else
    let currentPrice := last_num closeData in
    let currentATR := JS.to_num (last_val atrData) in
    let atrPercentage := (currentATR / currentPrice * Fin 100)%J in
    if (atrPercentage >? Fin 8)%J then "Very High"
    else if (atrPercentage >? Fin 5)%J then "High"
    else if (atrPercentage >? Fin 3)%J then "Medium"
    else "Low".

Definition merge_config (options : Options.t) : Config.t :=
  {| Config.consolidationPeriod := or_default (Options.consolidationPeriod options) (Fin 6);
     Config.consolidationThreshold := or_default (Options.consolidationThreshold options) (Fin 0.15);
     Config.rsiLowerThreshold := or_default (Options.rsiLowerThreshold options) (Fin 50);
     Config.rsiUpperThreshold := or_default (Options.rsiUpperThreshold options) (Fin 75);
     Config.volumeIncreaseThreshold := or_default (Options.volumeIncreaseThreshold options) (Fin 0.10);
     Config.minBreakoutPercent := or_default (Options.minBreakoutPercent options) (Fin 0.01);
     Config.maxBreakoutPercent := or_default (Options.maxBreakoutPercent options) (Fin 0.20);
     Config.bollingerPeriod := or_default_nat (Options.bollingerPeriod options) 20;
     Config.atrPeriod := or_default_nat (Options.atrPeriod options) 14;
     Config.lookbackPeriod := or_default_nat (Options.lookbackPeriod options) 20;
     Config.ema200Required := defined_or (Options.ema200Required options) true |}.

(** [if (cond) { score += weight; results.signals.push(label); }] on the
    pair of the running score and the signals pushed so far. *)
Definition check (cond : bool) (weight : Z) (label : string)
  (state : Z * list string) : Z * list string :=
  if cond then ((fst state + weight)%Z, snd state ++ [label]) else state.

(** [Math.round(x * 10000) / 10000]. *)
Definition round4 (x : num) : num := (JS.round (x * Fin 10000) / Fin 10000)%J.

(** The conditions 2, 3, 5, 8, 9 and 10 of [analyzeBreakout], which the
    source writes in place. *)
Definition rsi_in_range (config : Config.t) (rsiData : list jsval) : bool :=
  let currentRSI := last_val rsiData in
  JS.not_null currentRSI
  && (JS.to_num currentRSI >=? Config.rsiLowerThreshold config)%J
  && (JS.to_num currentRSI <=? Config.rsiUpperThreshold config)%J.

Definition bollinger_compressed (bbData : list BollingerPoint) : bool :=
  match last_obj bbData with
  | Some currentBB =>
      JS.not_null (width currentBB) && (JS.to_num (width currentBB) <=? Fin 1)%J
  | None => false
  end.

Definition above_ema200 (closeData : list num) (ema200 : list jsval) : bool :=
  let currentEMA200 := last_val ema200 in
  JS.not_null currentEMA200 && (last_num closeData >? JS.to_num currentEMA200)%J.

Definition macd_crossover (macdData : list MACDPoint) : bool :=
  match last_obj macdData, JS.nth_opt macdData (Z.of_nat (length macdData) - 2) with
  | Some currentMACD, Some previousMACD =>
      (JS.to_num (histogram previousMACD) <=? Fin 0)%J
      && (JS.to_num (histogram currentMACD) >? Fin 0)%J
  | _, _ => false
  end.

Definition obv_accumulation (obvData : list jsval) : bool :=
  let currentOBV := JS.to_num (last_val obvData) in
  let previousOBV := JS.to_num (JS.at_val obvData (Z.of_nat (length obvData) - 5)) in
  (currentOBV >? previousOBV)%J
  && (currentOBV - previousOBV >? Fin 0.05 * previousOBV)%J.

Definition ideal_breakout (config : Config.t) (closeData : list num) : bool :=
  let n := Z.of_nat (length closeData) in
  let priceChange :=
    ((last_num closeData - get closeData (n - 2)) / get closeData (n - 2))%J in
  (priceChange >=? Config.minBreakoutPercent config)%J
  && (priceChange <=? Config.maxBreakoutPercent config)%J.

(** The scoring sequence of [analyzeBreakout]: the score and the signals
    after the ten conditions, in the order of the source. *)
Definition score_signals (config : Config.t)
  (closeData volumeData : list num) (rsiData : list jsval)
  (bbData : list BollingerPoint) (ema200 obvData : list jsval)
  (macdData : list MACDPoint) : Z * list string :=
  let state := (0%Z, []) in
  let isConsolidating :=
    isPriceConsolidating closeData (Config.consolidationPeriod config)
                         (Config.consolidationThreshold config) in
  let state := check isConsolidating 20 "Price consolidation detected" state in
  let state := check (rsi_in_range config rsiData) 15 "RSI in optimal range" state in
  let state := check (bollinger_compressed bbData) 15 "Bollinger Band compression" state in
  let bbBreakout := detectBollingerBreakout closeData bbData in
  let state := check bbBreakout 20 "Bollinger Band breakout" state in
  let state :=
    if Config.ema200Required config
    then check (above_ema200 closeData ema200) 10 "Price above EMA200" state
    else ((fst state + 10)%Z, snd state) in
  let isVolIncreasing :=
    isVolumeIncreasing volumeData (Config.volumeIncreaseThreshold config) in
  let state := check isVolIncreasing 15 "Volume increasing" state in
  let rsiDivergence :=
    detectPositiveRSIDivergence closeData rsiData (Config.lookbackPeriod config) in
  let state := check rsiDivergence 15 "Positive RSI divergence" state in
  let state := check (macd_crossover macdData) 15 "MACD bullish crossover" state in
  let state := check (obv_accumulation obvData) 10 "OBV accumulation" state in
  check (ideal_breakout config closeData) 15 "Ideal breakout percentage" state.

Definition analyzeBreakout (data : list Candle.t) (options : Options.t) : Analysis.t :=
  let config := merge_config options in
  let closeData := map Candle.close data in
  let highData := map Candle.high data in
  let lowData := map Candle.low data in
  let volumeData := map Candle.volume data in
  let rsiData := calculateRSI closeData 14 in
  let bbData := calculateBollingerBands closeData (Config.bollingerPeriod config) in
  let ema200 := ema_values closeData 200 in
  let atrData := calculateATR highData lowData closeData (Config.atrPeriod config) in
  let obvData := calculateOBV closeData volumeData in
  let macdData := calculateMACD closeData in
  let n := Z.of_nat (length closeData) in
  let metrics :=
    {| Metrics.rsi := last_val rsiData;
       Metrics.bollingerWidth :=
         match last_obj bbData with
         | Some p => JS.or_else (width p) Null
         | None => Null
         end;
       Metrics.bollingerPercent :=
         match last_obj bbData with
         | Some p => JS.or_else (percent p) Null
         | None => Null
         end;
       Metrics.atr := last_val atrData;
       Metrics.aboveEma200 :=
         if JS.not_null (last_val ema200)
         then Some (last_num closeData >? JS.to_num (last_val ema200))%J
         else None;
       Metrics.priceChangePercent :=
         ((last_num closeData - get closeData (n - 2)) / get closeData (n - 2) * Fin 100)%J;
       Metrics.volumeChangePercent :=
         ((last_num volumeData - get volumeData (Z.of_nat (length volumeData) - 2))
          / get volumeData (Z.of_nat (length volumeData) - 2) * Fin 100)%J |} in
  let state :=
    score_signals config closeData volumeData rsiData bbData ema200 obvData macdData in
  let breakoutScore := Z.min 100 (fst state) in
  let isBreakoutCandidate := (70 <=? breakoutScore)%Z in
  let profitPotential := calculateProfitPotential closeData atrData bbData breakoutScore in
  let riskLevel := calculateRiskLevel closeData atrData breakoutScore in
  let currentPrice := last_num closeData in
  let currentATR := last_val atrData in
  let suggestedStopLoss := round4 (currentPrice - JS.to_num currentATR)%J in
  let risk := (currentPrice - suggestedStopLoss)%J in
  let suggestedTakeProfit := round4 (currentPrice + risk * Fin 3)%J in
  let levels := isBreakoutCandidate && JS.not_null currentATR in
  {| Analysis.isBreakoutCandidate := isBreakoutCandidate;
     Analysis.breakoutScore := breakoutScore;
     Analysis.signals := snd state;
     Analysis.metrics := metrics;
     Analysis.profitPotential := profitPotential;
     Analysis.riskLevel := riskLevel;
     Analysis.suggestedStopLoss := if levels then Num suggestedStopLoss else Undefined;
     Analysis.suggestedTakeProfit := if levels then Num suggestedTakeProfit else Undefined |}.

(** ** The multi-timeframe aggregator *)

Definition multiTimeframeAnalysis
  (hourlyData fourHourData dailyData : list Candle.t) (options : Options.t) : MTF.t :=
  let hourlyResults := analyzeBreakout hourlyData options in
  let fourHourResults := analyzeBreakout fourHourData options in
  let dailyResults := analyzeBreakout dailyData options in
  let alignmentScore :=
    ((if Analysis.isBreakoutCandidate hourlyResults then 1 else 0)
     + (if Analysis.isBreakoutCandidate fourHourResults then 2 else 0)
     + (if Analysis.isBreakoutCandidate dailyResults then 3 else 0))%Z in
  let combinedSignals :=
    map (String.append "1H: ") (Analysis.signals hourlyResults)
    ++ map (String.append "4H: ") (Analysis.signals fourHourResults)
    ++ map (String.append "1D: ") (Analysis.signals dailyResults) in
  let weightedScore :=
    (JS.of_Z (Analysis.breakoutScore hourlyResults) * Fin 0.2
     + JS.of_Z (Analysis.breakoutScore fourHourResults) * Fin 0.3
     + JS.of_Z (Analysis.breakoutScore dailyResults) * Fin 0.5)%J in
  {| MTF.mtfScore := JS.round weightedScore;
     MTF.alignmentScore := alignmentScore;
     MTF.hourlyScore := Analysis.breakoutScore hourlyResults;
     MTF.fourHourScore := Analysis.breakoutScore fourHourResults;
     MTF.dailyScore := Analysis.breakoutScore dailyResults;
     MTF.isConfirmedBreakout := (4 <=? alignmentScore)%Z && (weightedScore >=? Fin 75)%J;
     MTF.combinedSignals := combinedSignals;
     MTF.profitPotential :=
       or_string (Analysis.profitPotential dailyResults)
                 (Analysis.profitPotential fourHourResults);
     MTF.riskLevel :=
       or_string (Analysis.riskLevel dailyResults) (Analysis.riskLevel fourHourResults);
     MTF.suggestedStopLoss :=
       JS.or_else (Analysis.suggestedStopLoss fourHourResults)
                  (Analysis.suggestedStopLoss hourlyResults);
     MTF.suggestedTakeProfit :=
       JS.or_else (Analysis.suggestedTakeProfit fourHourResults)
                  (Analysis.suggestedTakeProfit hourlyResults) |}.

(** ** The backtester *)

(** The running totals of the simulation loop: the [results] object as far
    as the loop fills it, and the two sums. *)
Record Tally : Type := {
  tally_trades : list Trade.t;
  tally_totalTrades : nat;
  tally_winningTrades : nat;
  tally_losingTrades : nat;
  tally_totalProfit : num;
  tally_totalLoss : num
}.

Definition empty_tally : Tally :=
  {| tally_trades := []; tally_totalTrades := 0; tally_winningTrades := 0;
     tally_losingTrades := 0; tally_totalProfit := Fin 0; tally_totalLoss := Fin 0 |}.

(** The inner loop: [j] runs over the bars after the entry, [bars] pairs
    each [j] with [historicalData[j]].  The result is the exit price, the
    exit type and the bars held. *)
Fixpoint look_forward (timeExitBar : nat) (stopLoss takeProfit : jsval)
  (bars : list (nat * Candle.t))
  (exitPrice : jsval) (exitType : option string) (barsHeld : nat)
  : jsval * option string * nat :=
  match bars with
  | [] => (exitPrice, exitType, barsHeld)
  | (j, currentBar) :: rest =>
      let barsHeld := S barsHeld in
      if (Candle.low currentBar <=? JS.to_num stopLoss)%J
      then (stopLoss, Some "Stop Loss"%string, barsHeld)
      else if (Candle.high currentBar >=? JS.to_num takeProfit)%J
      then (takeProfit, Some "Take Profit"%string, barsHeld)
      else if (j =? timeExitBar)%nat
      then look_forward timeExitBar stopLoss takeProfit rest
             (Num (Candle.close currentBar)) (Some "Time Exit"%string) barsHeld
      else look_forward timeExitBar stopLoss takeProfit rest exitPrice exitType barsHeld
  end.

(** The body of the outer loop at bar [i], whose candle is [bar]: the
    tally after it and the bars held ([0] when no trade was opened). *)
Definition simulate_bar (historicalData : list Candle.t) (options : Options.t)
  (i : nat) (bar : Candle.t) (tally : Tally) : Tally * nat :=
  let dataSlice := JS.slice historicalData 0 (Z.of_nat i) in
  let analysis := analyzeBreakout dataSlice options in
  if Analysis.isBreakoutCandidate analysis then
    let entryPrice := Candle.close bar in
    let stopLoss := Analysis.suggestedStopLoss analysis in
    let takeProfit := Analysis.suggestedTakeProfit analysis in
    let len := length historicalData in
    let stop := Nat.min (i + 20) len in
    let '(exitPrice, exitType, barsHeld) :=
      look_forward (Nat.min (i + 19) (len - 1)) stopLoss takeProfit
        (zip (seq (i + 1) (stop - (i + 1)))
             (JS.slice historicalData (Z.of_nat (i + 1)) (Z.of_nat stop)))
        Null None 0 in
    let pnl := ((JS.to_num exitPrice - entryPrice) / entryPrice * Fin 100)%J in
    let trade :=
      {| Trade.entryBar := i; Trade.entryPrice := entryPrice;
         Trade.stopLoss := stopLoss; Trade.takeProfit := takeProfit;
         Trade.exitPrice := exitPrice; Trade.exitType := exitType;
         Trade.barsHeld := barsHeld; Trade.pnl := pnl;
         Trade.date := Candle.time bar |} in
    let won := (pnl >? Fin 0)%J in
    ({| tally_trades := tally_trades tally ++ [trade];
        tally_totalTrades := S (tally_totalTrades tally);
        tally_winningTrades :=
          if won then S (tally_winningTrades tally) else tally_winningTrades tally;
        tally_losingTrades :=
          if won then tally_losingTrades tally else S (tally_losingTrades tally);
        tally_totalProfit :=
          if won then (tally_totalProfit tally + pnl)%J else tally_totalProfit tally;
        tally_totalLoss :=
          if won then tally_totalLoss tally
          else (tally_totalLoss tally + JS.abs pnl)%J |},
     barsHeld)
  else (tally, 0%nat).

(** The outer loop [for (let i = 200; i < historicalData.length - 20; i++)],
    whose body also advances [i] by the bars held.  [fuel] bounds the number
    of iterations; [None] means that it ran out, or that
    [historicalData[i]] was read outside the array, which the loop
    condition excludes ([backtest_loop_returns]). *)
Fixpoint backtest_loop (historicalData : list Candle.t) (options : Options.t)
  (fuel : nat) (i : nat) (tally : Tally) : option Tally :=
  if (Z.of_nat i <? Z.of_nat (length historicalData) - 20)%Z then
    match fuel, historicalData !! i with
    | S fuel', Some bar =>
        let '(tally', barsHeld) := simulate_bar historicalData options i bar tally in
        backtest_loop historicalData options fuel' (i + barsHeld + 1) tally'
    | _, _ => None
    end
  else Some tally.

(** The statistics computed after the loop. *)
Definition statistics (tally : Tally) : Backtest.t :=
  let totalTrades := tally_totalTrades tally in
  let winningTrades := tally_winningTrades tally in
  let losingTrades := tally_losingTrades tally in
  if (0 <? totalTrades)%nat then
    let winRate := (JS.of_nat winningTrades / JS.of_nat totalTrades * Fin 100)%J in
    let averageProfit :=
      if (0 <? winningTrades)%nat
      then (tally_totalProfit tally / JS.of_nat winningTrades)%J else Fin 0 in
    let averageLoss :=
      if (0 <? losingTrades)%nat
      then (tally_totalLoss tally / JS.of_nat losingTrades)%J else Fin 0 in
    let profitFactor :=
      if (averageLoss >? Fin 0)%J then (averageProfit / averageLoss)%J else Fin 0 in
    {| Backtest.totalTrades := totalTrades;
       Backtest.winningTrades := winningTrades;
       Backtest.losingTrades := losingTrades;
       Backtest.winRate := winRate;
       Backtest.averageProfit := averageProfit;
       Backtest.averageLoss := averageLoss;
       Backtest.profitFactor := profitFactor;
       Backtest.expectancy :=
         Num (winRate / Fin 100 * averageProfit
              - (Fin 100 - winRate) / Fin 100 * averageLoss)%J;
       Backtest.trades := tally_trades tally |}
  else
    {| Backtest.totalTrades := totalTrades;
       Backtest.winningTrades := winningTrades;
       Backtest.losingTrades := losingTrades;
       Backtest.winRate := Fin 0;
       Backtest.averageProfit := Fin 0;
       Backtest.averageLoss := Fin 0;
       Backtest.profitFactor := Fin 0;
       Backtest.expectancy := Undefined;
       Backtest.trades := tally_trades tally |}.

(** [backtestBreakoutStrategy].  The loop is given one unit of fuel per
    candle, which is enough ([backtest_loop_returns]); the last branch is
    therefore never taken. *)
Definition backtestBreakoutStrategy (historicalData : list Candle.t) (options : Options.t)
  : Backtest.outcome :=
  if (length historicalData <? 250)%nat
  then Backtest.Error "Not enough historical data for backtest"
  else
    match backtest_loop historicalData options (length historicalData) 200 empty_tally with
    | Some tally => Backtest.Results (statistics tally)
    | None => Backtest.Results (statistics empty_tally)
    end.

(** ** The signal generator ([signal-generator.js]) *)

Definition signal_config (options : Options.t) : SignalConfig.t :=
  {| SignalConfig.consolidationPeriod := or_default (Options.consolidationPeriod options) (Fin 6);
     SignalConfig.consolidationThreshold := or_default (Options.consolidationThreshold options) (Fin 0.15);
     SignalConfig.rsiLowerThreshold := or_default (Options.rsiLowerThreshold options) (Fin 50);
     SignalConfig.rsiUpperThreshold := or_default (Options.rsiUpperThreshold options) (Fin 75);
     SignalConfig.volumeIncreaseThreshold := or_default (Options.volumeIncreaseThreshold options) (Fin 0.10);
     SignalConfig.minBreakoutPercent := or_default (Options.minBreakoutPercent options) (Fin 0.01);
     SignalConfig.maxBreakoutPercent := or_default (Options.maxBreakoutPercent options) (Fin 0.20);
     SignalConfig.minMTFScore := or_default (Options.minMTFScore options) (Fin 75);
     SignalConfig.minAlignmentScore := or_default (Options.minAlignmentScore options) (Fin 4);
     SignalConfig.minDailyScore := or_default (Options.minDailyScore options) (Fin 65);
     SignalConfig.requireEma200 := defined_or (Options.requireEma200 options) true;
     SignalConfig.maxPrice := or_default (Options.maxPrice options) (Fin 1.0);
     SignalConfig.riskRewardRatio := or_default (Options.riskRewardRatio options) (Fin 3.0);
     SignalConfig.maxStopLossPercent := or_default (Options.maxStopLossPercent options) (Fin 5);
     SignalConfig.minProfitPotential :=
       or_default_string (Options.minProfitPotential options) "Medium" |}.

(** The options object that [generateBreakoutSignal] hands to the
    aggregator. *)
Definition analysis_options (config : SignalConfig.t) : Options.t :=
  {| Options.consolidationPeriod := Num (SignalConfig.consolidationPeriod config);
     Options.consolidationThreshold := Num (SignalConfig.consolidationThreshold config);
     Options.rsiLowerThreshold := Num (SignalConfig.rsiLowerThreshold config);
     Options.rsiUpperThreshold := Num (SignalConfig.rsiUpperThreshold config);
     Options.volumeIncreaseThreshold := Num (SignalConfig.volumeIncreaseThreshold config);
     Options.minBreakoutPercent := Num (SignalConfig.minBreakoutPercent config);
     Options.maxBreakoutPercent := Num (SignalConfig.maxBreakoutPercent config);
     Options.bollingerPeriod := None;
     Options.atrPeriod := None;
     Options.lookbackPeriod := None;
     Options.ema200Required := Some (SignalConfig.requireEma200 config);
     Options.minMTFScore := Undefined;
     Options.minAlignmentScore := Undefined;
     Options.minDailyScore := Undefined;
     Options.requireEma200 := None;
     Options.maxPrice := Undefined;
     Options.riskRewardRatio := Undefined;
     Options.maxStopLossPercent := Undefined;
     Options.minProfitPotential := None |}.

Definition calculateConfidenceScore (mtfAnalysis : MTF.t) : num :=
  let score := (MTF.mtfScore mtfAnalysis / Fin 10)%J in
  let score :=
    if (6 <=? MTF.alignmentScore mtfAnalysis)%Z then (score + Fin 1)%J
    else if (4 <=? MTF.alignmentScore mtfAnalysis)%Z then (score + Fin 0.5)%J
    else score in
  let score :=
    if String.eqb (MTF.profitPotential mtfAnalysis) "Very High" then (score + Fin 1)%J
    else if String.eqb (MTF.profitPotential mtfAnalysis) "High" then (score + Fin 0.5)%J
    else score in
  JS.min2 (Fin 10) (JS.round (score * Fin 10) / Fin 10)%J.

(** The time zone of the platform, as the language definition has it:
    [LocalTZA t isUTC] is the offset of local time from UTC in milliseconds,
    at the instant [t] when [isUTC] holds and at the local time [t]
    otherwise.  It is a section variable like [sqrtQ]. *)
Variable LocalTZA : Z -> bool -> Z.

Definition LocalTime (t : Z) : Z := (t + LocalTZA t true)%Z.

Definition UTC (t : Z) : Z := (t - LocalTZA t false)%Z.

(** [getExpirationTime], in milliseconds.  [setHours(getHours() + 24)]
    works on the local time of the reading of the clock: an hour field of
    [h + 24] moves the local time on by twenty-four hours, and the result
    is that local time read back as an instant.  Across a change of the
    offset the two instants are twenty-three or twenty-five hours apart. *)
Definition getExpirationTime (now : Z) : Z :=
  UTC (LocalTime now + 24 * 3600 * 1000).

Definition estimateSuccessProbability
  (mtfScore : num) (alignmentScore : Z) (profitPotential : string) (stopLossPercent : num)
  : num :=
  let probability := (mtfScore * Fin 0.8)%J in
  let probability :=
    if (6 <=? alignmentScore)%Z then (probability + Fin 10)%J
    else if (4 <=? alignmentScore)%Z then (probability + Fin 5)%J
    else probability in
  let probability :=
    if String.eqb profitPotential "Very High" then (probability + Fin 5)%J
    else if String.eqb profitPotential "High" then (probability + Fin 3)%J
    else if String.eqb profitPotential "Medium" then (probability + Fin 1)%J
    else probability in
  let probability :=
    if (stopLossPercent <? Fin 2)%J then (probability - Fin 5)%J
    else if (stopLossPercent >? Fin 4)%J then (probability - Fin 3)%J
    else probability in
  JS.min2 (Fin 95) (JS.max2 (Fin 60) (JS.round probability)).

(** [generateBreakoutSignal].  [clock] holds the two readings of the clock,
    for [generatedAt] and inside [getExpirationTime].  An empty
    [hourlyData] makes the read of its last candle's [close] a
    [TypeError]. *)
Definition generateBreakoutSignal
  (clock : Z * Z) (coinData : CoinData.t) (options : Options.t)
  : outcome Signal.result :=
  let config := signal_config options in
  match CoinData.hourlyData coinData, CoinData.fourHourData coinData,
        CoinData.dailyData coinData with
  | Some hourlyData, Some fourHourData, Some dailyData =>
      match last_obj hourlyData with
      | None => Throws "TypeError: Cannot read properties of undefined (reading 'close')"
      | Some lastHourly =>
          let currentPrice := Candle.close lastHourly in
          if (currentPrice >? SignalConfig.maxPrice config)%J then
            Returns (Signal.Rejected
                       (Signal.PriceAboveMaximum currentPrice (SignalConfig.maxPrice config)))
          else
            let mtfAnalysis :=
              multiTimeframeAnalysis hourlyData fourHourData dailyData
                                     (analysis_options config) in
            let profitPotential := MTF.profitPotential mtfAnalysis in
            let isValidSignal :=
              (MTF.mtfScore mtfAnalysis >=? SignalConfig.minMTFScore config)%J
              && (JS.of_Z (MTF.alignmentScore mtfAnalysis)
                  >=? SignalConfig.minAlignmentScore config)%J
              && (JS.of_Z (MTF.dailyScore mtfAnalysis)
                  >=? SignalConfig.minDailyScore config)%J
              && (String.eqb profitPotential "High"
                  || String.eqb profitPotential "Very High"
                  || (String.eqb profitPotential "Medium"
                      && (MTF.mtfScore mtfAnalysis >? Fin 85)%J)) in
            if negb isValidSignal then
              Returns (Signal.Rejected
                         (Signal.CriteriaNotMet
                            (MTF.mtfScore mtfAnalysis) (MTF.alignmentScore mtfAnalysis)
                            (MTF.dailyScore mtfAnalysis) profitPotential))
            else
              let stopLoss := MTF.suggestedStopLoss mtfAnalysis in
              let takeProfit := MTF.suggestedTakeProfit mtfAnalysis in
              let stopLossPercent :=
                ((currentPrice - JS.to_num stopLoss) / currentPrice * Fin 100)%J in
              if (stopLossPercent >? SignalConfig.maxStopLossPercent config)%J then
                Returns (Signal.Rejected
                           (Signal.StopLossTooHigh
                              stopLossPercent (SignalConfig.maxStopLossPercent config)))
              else
                let recentDailyData := JS.slice_from dailyData (-20) in
                let twentyDayHigh := JS.max_list (map Candle.high recentDailyData) in
                let twentyDayLow := JS.min_list (map Candle.low recentDailyData) in
                let percentFromHigh :=
                  ((twentyDayHigh - currentPrice) / currentPrice * Fin 100)%J in
                if (percentFromHigh <? Fin 3)%J then
                  Returns (Signal.Rejected (Signal.TooCloseToHigh percentFromHigh))
                else
                  let priceRange := (twentyDayHigh - twentyDayLow)%J in
                  let normalizedVolatility := (priceRange / twentyDayLow)%J in
                  if (normalizedVolatility >? Fin 0.5)%J then
                    Returns (Signal.Rejected (Signal.VolatilityTooHigh normalizedVolatility))
                  else
                    Returns (Signal.Emitted
                      {| Signal.symbol := CoinData.symbol coinData;
                         Signal.exchange :=
                           or_default_string (CoinData.exchange coinData) "ByDFi";
                         Signal.signalType := "Breakout";
                         Signal.direction := "Long";
                         Signal.confidence := calculateConfidenceScore mtfAnalysis;
                         Signal.entryPrice := currentPrice;
                         Signal.stopLoss := stopLoss;
                         Signal.takeProfit := takeProfit;
                         Signal.riskRewardRatio :=
                           ((JS.to_num takeProfit - currentPrice)
                            / (currentPrice - JS.to_num stopLoss))%J;
                         Signal.potentialProfitPercent :=
                           ((JS.to_num takeProfit - currentPrice) / currentPrice * Fin 100)%J;
                         Signal.potentialLossPercent := stopLossPercent;
                         Signal.timeframe := "Multi-Timeframe";
                         Signal.generatedAt := fst clock;
                         Signal.expiresAt := getExpirationTime (snd clock);
                         Signal.mtfAnalysis :=
                           {| Signal.score := MTF.mtfScore mtfAnalysis;
                              Signal.alignmentScore := MTF.alignmentScore mtfAnalysis;
                              Signal.hourlyScore := MTF.hourlyScore mtfAnalysis;
                              Signal.fourHourScore := MTF.fourHourScore mtfAnalysis;
                              Signal.dailyScore := MTF.dailyScore mtfAnalysis |};
                         Signal.signals := MTF.combinedSignals mtfAnalysis;
                         Signal.profitPotential := profitPotential;
                         Signal.riskLevel := MTF.riskLevel mtfAnalysis;
                         Signal.successProbability :=
                           estimateSuccessProbability
                             (MTF.mtfScore mtfAnalysis) (MTF.alignmentScore mtfAnalysis)
                             profitPotential stopLossPercent |})
      end
  | _, _, _ => Returns (Signal.Rejected Signal.MissingData)
  end.

(** ** The parameter optimizer *)

(** [random k] is the value of the [k]-th call of [Math.random]; a
    computation that draws takes the number of draws made so far and
    returns it advanced. *)
Variable random : nat -> num.

Definition randomAdjust (value amount min max : num) (k : nat) : num * nat :=
  let adjustment := ((random k * Fin 2 - Fin 1) * amount)%J in
  let newValue := (value + adjustment)%J in
  (JS.max2 min (JS.min2 max newValue), S k).

(** One element of [variations]: the nine properties are evaluated in the
    order in which they are written. *)
Definition variation (baseParams : Params.t) (k : nat) : Params.t * nat :=
  let '(consolidationPeriod, k) :=
    randomAdjust (Params.consolidationPeriod baseParams) (Fin 1) (Fin 4) (Fin 10) k in
  let '(consolidationThreshold, k) :=
    randomAdjust (Params.consolidationThreshold baseParams) (Fin 0.05) (Fin 0.05) (Fin 0.30) k in
  let '(rsiLowerThreshold, k) :=
    randomAdjust (Params.rsiLowerThreshold baseParams) (Fin 5) (Fin 40) (Fin 60) k in
  let '(rsiUpperThreshold, k) :=
    randomAdjust (Params.rsiUpperThreshold baseParams) (Fin 5) (Fin 70) (Fin 85) k in
  let '(volumeIncreaseThreshold, k) :=
    randomAdjust (Params.volumeIncreaseThreshold baseParams) (Fin 0.05) (Fin 0.05) (Fin 0.30) k in
  let '(minBreakoutPercent, k) :=
    randomAdjust (Params.minBreakoutPercent baseParams) (Fin 0.005) (Fin 0.005) (Fin 0.05) k in
  let '(maxBreakoutPercent, k) :=
    randomAdjust (Params.maxBreakoutPercent baseParams) (Fin 0.05) (Fin 0.10) (Fin 0.40) k in
  let '(riskRewardRatio, k) :=
    randomAdjust (Params.riskRewardRatio baseParams) (Fin 0.5) (Fin 2.0) (Fin 5.0) k in
  let '(maxStopLossPercent, k) :=
    randomAdjust (Params.maxStopLossPercent baseParams) (Fin 1) (Fin 3) (Fin 8) k in
  ({| Params.consolidationPeriod := consolidationPeriod;
      Params.consolidationThreshold := consolidationThreshold;
      Params.rsiLowerThreshold := rsiLowerThreshold;
      Params.rsiUpperThreshold := rsiUpperThreshold;
      Params.volumeIncreaseThreshold := volumeIncreaseThreshold;
      Params.minBreakoutPercent := minBreakoutPercent;
      Params.maxBreakoutPercent := maxBreakoutPercent;
      Params.riskRewardRatio := riskRewardRatio;
      Params.maxStopLossPercent := maxStopLossPercent |}, k).

Fixpoint variations (count : nat) (baseParams : Params.t) (k : nat)
  : list Params.t * nat :=
  match count with
  | O => ([], k)
  | S count' =>
      let '(params, k) := variation baseParams k in
      let '(rest, k) := variations count' baseParams k in
      (params :: rest, k)
  end.

Definition generateParameterVariations (baseParams : Params.t) (k : nat)
  : list Params.t * nat :=
  variations 10 baseParams k.

Definition evaluateParameters (historicalData : list Candle.t) (params : Params.t) : num :=
  match backtestBreakoutStrategy historicalData (Params.options params) with
  | Backtest.Error _ => Fin 0
  | Backtest.Results backtest =>
      if (Backtest.totalTrades backtest <? 10)%nat then Fin 0
      else
        let winRateScore := (Backtest.winRate backtest * Fin 0.6)%J in
        let profitFactorScore :=
          JS.min2 (Backtest.profitFactor backtest * Fin 10)%J (Fin 30) in
        let tradesScore :=
          (JS.min2 (JS.of_nat (Backtest.totalTrades backtest)) (Fin 100) / Fin 10)%J in
        (winRateScore + profitFactorScore + tradesScore)%J
  end.

Definition calculateWinRate (historicalData : list Candle.t) (params : Params.t) : num :=
  match backtestBreakoutStrategy historicalData (Params.options params) with
  | Backtest.Error _ => Fin 0
  | Backtest.Results backtest =>
      if (Backtest.totalTrades backtest =? 0)%nat then Fin 0
      else Backtest.winRate backtest
  end.

(** The default-merged starting point of the search. *)
Definition initial_params (initialParams : Options.t) : Params.t :=
  {| Params.consolidationPeriod := or_default (Options.consolidationPeriod initialParams) (Fin 6);
     Params.consolidationThreshold := or_default (Options.consolidationThreshold initialParams) (Fin 0.15);
     Params.rsiLowerThreshold := or_default (Options.rsiLowerThreshold initialParams) (Fin 50);
     Params.rsiUpperThreshold := or_default (Options.rsiUpperThreshold initialParams) (Fin 75);
     Params.volumeIncreaseThreshold := or_default (Options.volumeIncreaseThreshold initialParams) (Fin 0.10);
     Params.minBreakoutPercent := or_default (Options.minBreakoutPercent initialParams) (Fin 0.01);
     Params.maxBreakoutPercent := or_default (Options.maxBreakoutPercent initialParams) (Fin 0.20);
     Params.riskRewardRatio := or_default (Options.riskRewardRatio initialParams) (Fin 3.0);
     Params.maxStopLossPercent := or_default (Options.maxStopLossPercent initialParams) (Fin 5) |}.

(** The body of the inner loop: a strictly better candidate replaces the
    best pair. *)
Definition consider (historicalData : list Candle.t)
  (best : Params.t * num) (params : Params.t) : Params.t * num :=
  let score := evaluateParameters historicalData params in
  if (score >? snd best)%J then (params, score) else best.

Fixpoint optimize_loop (historicalData : list Candle.t) (generations : nat)
  (best : Params.t * num) (k : nat) : (Params.t * num) * nat :=
  match generations with
  | O => (best, k)
  | S generations' =>
      let '(paramVariations, k) := generateParameterVariations (fst best) k in
      optimize_loop historicalData generations'
                    (foldl (consider historicalData) best paramVariations) k
  end.

(** [optimizeParameters], started after [k] draws. *)
Definition optimizeParameters
  (historicalData : list Candle.t) (initialParams : Options.t) (generations : nat)
  (k : nat) : Optimum.t :=
  let bestParams := initial_params initialParams in
  let bestScore := evaluateParameters historicalData bestParams in
  let '((bestParams, bestScore), _) :=
    optimize_loop historicalData generations (bestParams, bestScore) k in
  {| Optimum.parameters := bestParams;
     Optimum.score := bestScore;
     Optimum.winRate := calculateWinRate historicalData bestParams |}.

(** ** The high-accuracy filter ([signal-generator.js]) *)

Definition filter_config (options : FilterOptions.t) : Filters.t :=
  {| Filters.minConfidence := or_default (FilterOptions.minConfidence options) (Fin 7.5);
     Filters.minSuccessProbability :=
       or_default (FilterOptions.minSuccessProbability options) (Fin 80);
     Filters.minRiskRewardRatio :=
       or_default (FilterOptions.minRiskRewardRatio options) (Fin 2.5);
     Filters.maxRiskLevel :=
       or_default_string (FilterOptions.maxRiskLevel options) "Medium";
     Filters.minMTFScore := or_default (FilterOptions.minMTFScore options) (Fin 75);
     Filters.minAlignmentScore :=
       or_default (FilterOptions.minAlignmentScore options) (Fin 4) |}.

(** The callback of [signals.filter]. *)
Definition passes_filters (filters : Filters.t) (signal : Signal.t) : bool :=
  (Signal.confidence signal >=? Filters.minConfidence filters)%J
  && (Signal.successProbability signal >=? Filters.minSuccessProbability filters)%J
  && (Signal.riskRewardRatio signal >=? Filters.minRiskRewardRatio filters)%J
  && (String.eqb (Signal.riskLevel signal) "Low"
      || String.eqb (Signal.riskLevel signal) "Medium"
      || (String.eqb (Signal.riskLevel signal) "High"
          && (Signal.confidence signal >? Fin 8.5)%J))
  && (Signal.score (Signal.mtfAnalysis signal) >=? Filters.minMTFScore filters)%J
  && (JS.of_Z (Signal.alignmentScore (Signal.mtfAnalysis signal))
      >=? Filters.minAlignmentScore filters)%J.

Definition filterSignalsForHighAccuracy
  (signals : list Signal.t) (options : FilterOptions.t) : list Signal.t :=
  List.filter (passes_filters (filter_config options)) signals.

(** ** The four-hour candles ([cryptoCompareService.js])

    The callback of [getMultiTimeframeData] that converts the hourly
    candles to four-hour candles: the loop takes the candles four by four
    and drops an incomplete last group. *)

Definition four_hour_candle (c0 c1 c2 c3 : Candle.t) : Candle.t :=
  let chunk := [c0; c1; c2; c3] in
  {| Candle.time := Candle.time c0;
     Candle.open := Candle.open c0;
     Candle.high := JS.max_list (map Candle.high chunk);
     Candle.low := JS.min_list (map Candle.low chunk);
     Candle.close := Candle.close c3;
     Candle.volume := foldl (fun sum c => (sum + Candle.volume c)%J) (Fin 0) chunk |}.

Fixpoint convertHourlyToFourHour (data : list Candle.t) : list Candle.t :=
  match data with
  | c0 :: c1 :: c2 :: c3 :: rest =>
      four_hour_candle c0 c1 c2 c3 :: convertHourlyToFourHour rest
  | _ => []
  end.

(** ** Properties stated by the specification *)

(** Recorded trades do not overlap: each one is entered no earlier than the
    bar at which the one before it was closed. *)
Definition no_overlap (trades : list Trade.t) : Prop :=
  forall n t1 t2,
    trades !! n = Some t1 ->
    trades !! S n = Some t2 ->
    (Trade.entryBar t1 + Trade.barsHeld t1 <= Trade.entryBar t2)%nat.

(** The invariant of the simulation loop at bar [i]: the trades recorded so
    far do not overlap and the last of them was closed before [i]. *)
Definition settled (i : nat) (tally : Tally) : Prop :=
  no_overlap (tally_trades tally)
  /\ forall t, last (tally_trades tally) = Some t ->
               (Trade.entryBar t + Trade.barsHeld t < i)%nat.

(** The numeric options that [generateBreakoutSignal] reads, with the
    reading and the writing of one of them in an options object. *)
Inductive numeric_option : Type :=
| ConsolidationPeriod
| ConsolidationThreshold
| RsiLowerThreshold
| RsiUpperThreshold
| VolumeIncreaseThreshold
| MinBreakoutPercent
| MaxBreakoutPercent
| MinMTFScore
| MinAlignmentScore
| MinDailyScore
| MaxPrice
| RiskRewardRatio
| MaxStopLossPercent.

#[local] Instance numeric_option_eq_dec : EqDecision numeric_option.
Proof. solve_decision. Defined.

Definition numeric (options : Options.t) (f : numeric_option) : jsval :=
  match f with
  | ConsolidationPeriod => Options.consolidationPeriod options
  | ConsolidationThreshold => Options.consolidationThreshold options
  | RsiLowerThreshold => Options.rsiLowerThreshold options
  | RsiUpperThreshold => Options.rsiUpperThreshold options
  | VolumeIncreaseThreshold => Options.volumeIncreaseThreshold options
  | MinBreakoutPercent => Options.minBreakoutPercent options
  | MaxBreakoutPercent => Options.maxBreakoutPercent options
  | MinMTFScore => Options.minMTFScore options
  | MinAlignmentScore => Options.minAlignmentScore options
  | MinDailyScore => Options.minDailyScore options
  | MaxPrice => Options.maxPrice options
  | RiskRewardRatio => Options.riskRewardRatio options
  | MaxStopLossPercent => Options.maxStopLossPercent options
  end.

Definition with_numeric (options : Options.t) (g : numeric_option -> jsval) : Options.t :=
  {| Options.consolidationPeriod := g ConsolidationPeriod;
     Options.consolidationThreshold := g ConsolidationThreshold;
     Options.rsiLowerThreshold := g RsiLowerThreshold;
     Options.rsiUpperThreshold := g RsiUpperThreshold;
     Options.volumeIncreaseThreshold := g VolumeIncreaseThreshold;
     Options.minBreakoutPercent := g MinBreakoutPercent;
     Options.maxBreakoutPercent := g MaxBreakoutPercent;
     Options.bollingerPeriod := Options.bollingerPeriod options;
     Options.atrPeriod := Options.atrPeriod options;
     Options.lookbackPeriod := Options.lookbackPeriod options;
     Options.ema200Required := Options.ema200Required options;
     Options.minMTFScore := g MinMTFScore;
     Options.minAlignmentScore := g MinAlignmentScore;
     Options.minDailyScore := g MinDailyScore;
     Options.requireEma200 := Options.requireEma200 options;
     Options.maxPrice := g MaxPrice;
     Options.riskRewardRatio := g RiskRewardRatio;
     Options.maxStopLossPercent := g MaxStopLossPercent;
     Options.minProfitPotential := Options.minProfitPotential options |}.

(** [{ ...options, f: v }]; with [v = Undefined] the option is omitted. *)
Definition set_option (f : numeric_option) (v : jsval) (options : Options.t) : Options.t :=
  with_numeric options (fun f' => if decide (f' = f) then v else numeric options f').

(** The fallback as the specification words it: the first value that is
    there, among the daily, the four-hour and the hourly one. *)
Definition present (v : jsval) : bool :=
  match v with
  | Num _ => true
  | Undefined | Null => false
  end.

Definition first_present (daily fourHour hourly : jsval) : jsval :=
  if present daily then daily
  else if present fourHour then fourHour
  else hourly.

(** The fields that the optimizer perturbs, with, for each, the arguments
    of its [randomAdjust] call and its place in the order of the draws. *)
Inductive param_field : Type :=
| PConsolidationPeriod
| PConsolidationThreshold
| PRsiLowerThreshold
| PRsiUpperThreshold
| PVolumeIncreaseThreshold
| PMinBreakoutPercent
| PMaxBreakoutPercent
| PRiskRewardRatio
| PMaxStopLossPercent.

Definition param (f : param_field) (p : Params.t) : num :=
  match f with
  | PConsolidationPeriod => Params.consolidationPeriod p
  | PConsolidationThreshold => Params.consolidationThreshold p
  | PRsiLowerThreshold => Params.rsiLowerThreshold p
  | PRsiUpperThreshold => Params.rsiUpperThreshold p
  | PVolumeIncreaseThreshold => Params.volumeIncreaseThreshold p
  | PMinBreakoutPercent => Params.minBreakoutPercent p
  | PMaxBreakoutPercent => Params.maxBreakoutPercent p
  | PRiskRewardRatio => Params.riskRewardRatio p
  | PMaxStopLossPercent => Params.maxStopLossPercent p
  end.

Definition draw_index (f : param_field) : nat :=
  match f with
  | PConsolidationPeriod => 0
  | PConsolidationThreshold => 1
  | PRsiLowerThreshold => 2
  | PRsiUpperThreshold => 3
  | PVolumeIncreaseThreshold => 4
  | PMinBreakoutPercent => 5
  | PMaxBreakoutPercent => 6
  | PRiskRewardRatio => 7
  | PMaxStopLossPercent => 8
  end.

Definition amount (f : param_field) : Q :=
  match f with
  | PConsolidationPeriod => 1
  | PConsolidationThreshold => 0.05
  | PRsiLowerThreshold => 5
  | PRsiUpperThreshold => 5
  | PVolumeIncreaseThreshold => 0.05
  | PMinBreakoutPercent => 0.005
  | PMaxBreakoutPercent => 0.05
  | PRiskRewardRatio => 0.5
  | PMaxStopLossPercent => 1
  end.

(** The bounds in the source. *)
Definition code_range (f : param_field) : Q * Q :=
  match f with
  | PConsolidationPeriod => (4, 10)
  | PConsolidationThreshold => (0.05, 0.30)
  | PRsiLowerThreshold => (40, 60)
  | PRsiUpperThreshold => (70, 85)
  | PVolumeIncreaseThreshold => (0.05, 0.30)
  | PMinBreakoutPercent => (0.005, 0.05)
  | PMaxBreakoutPercent => (0.10, 0.40)
  | PRiskRewardRatio => (2.0, 5.0)
  | PMaxStopLossPercent => (3, 8)
  end.

(** The bracketed ranges of section 6 of the specification. *)
Definition spec_range (f : param_field) : Q * Q :=
  match f with
  | PConsolidationPeriod => (3, 20)
  | PConsolidationThreshold => (0.05, 0.30)
  | PRsiLowerThreshold => (40, 60)
  | PRsiUpperThreshold => (70, 85)
  | PVolumeIncreaseThreshold => (0.05, 0.30)
  | PMinBreakoutPercent => (0.005, 0.05)
  | PMaxBreakoutPercent => (0.10, 0.40)
  | PRiskRewardRatio => (2.0, 5.0)
  | PMaxStopLossPercent => (3, 8)
  end.

(** [max(lo, min(hi, base + delta))] with [delta] the uniform draw [r]
    scaled to [[-amount, amount)]. *)
Definition clamped (range : Q * Q) (amount : Q) (base r : num) : num :=
  JS.max2 (Fin (fst range))
          (JS.min2 (Fin (snd range)) (base + (r * Fin 2 - Fin 1) * Fin amount)%J).

(** The shape of an indicator series: [null] at every index before a
    boundary, a number at every index from it on. *)
Definition is_number (v : jsval) : Prop := exists x, v = Num x.

Definition null_before (result : list jsval) (boundary : nat) : Prop :=
  forall i, (i < boundary)%nat -> (i < length result)%nat -> result !! i = Some Null.

Definition number_from (result : list jsval) (boundary : nat) : Prop :=
  forall i, (boundary <= i)%nat -> (i < length result)%nat ->
            exists x, result !! i = Some (Num x).

(** The warm-up as the specification states it for all four indicators:
    the length of the input, [null] at every index before [period], and
    numbers after the warm-up when the input has [period + 5] points. *)
Definition warm_up_as_stated (result : list jsval) (n period : nat) : Prop :=
  length result = n
  /\ null_before result period
  /\ ((period + 5 <= n)%nat -> number_from result period).

(** The invariant of the search: the best pair holds a parameter set with
    its own score, and that score is the initial one or greater. *)
Definition improves (historicalData : list Candle.t) (initial : num)
  (best : Params.t * num) : Prop :=
  snd best = evaluateParameters historicalData (fst best)
  /\ (snd best = initial \/ (snd best >? initial)%J = true).

(** [is_fin x q]: the number [x] is finite and its value is the rational
    [q]. *)
Definition is_fin (x : num) (q : Q) : Prop := exists a, x = Fin a /\ a == q.

(** The series scaled by the constant [k]. *)
Definition scaled (k : num) (data : list num) : list num := map (JS.mul k) data.

(** [scaled_by k x y]: [x] is a finite number and [y] is [k] times it. *)
Definition scaled_by (k : Q) (x y : num) : Prop :=
  exists q, is_fin x q /\ is_fin y (k * q).

(** The factors and the prices for which the source scales a series
    without rounding: a power of two between [2 ^ (-100)] and [2 ^ 100], and
    a price that is zero or of a magnitude between those two.  On at most
    500 such prices no average of the RSI leaves the range in which a
    multiplication by such a factor is exact in binary64. *)
Definition binary_factor (k : Q) : Prop :=
  exists e : Z, (-100 <= e <= 100)%Z /\ k == 2 ^ e.

Definition binary_price (q : Q) : Prop :=
  q == 0 \/ 2 ^ (-100) <= Qabs q <= 2 ^ 100.

(** A series of changes holds a loss: a negative finite change. *)
Definition has_loss (changes : list num) : Prop :=
  Exists (fun change => exists d, is_fin change d /\ d < 0) changes.

(** A strictly flat series without volume: every close, high and low is
    the constant [c] and every volume is zero. *)
Definition flat (c : Q) (data : list Candle.t) : Prop :=
  Forall (fun bar => Candle.close bar = Fin c /\ Candle.high bar = Fin c
                     /\ Candle.low bar = Fin c /\ Candle.volume bar = Fin 0)
         data.

(** A series value that is [null] or a finite number of value zero. *)
Definition null_or_zero (v : jsval) : Prop :=
  v = Null \/ exists r, v = Num r /\ is_fin r 0.

(** The claim on the four levels as the specification states it: each is
    the daily value, else the four-hour one, else the hourly one. *)
Definition levels_as_stated (hourly fourHour daily : Analysis.t) (mtf : MTF.t) : Prop :=
  MTF.profitPotential mtf = Analysis.profitPotential daily
  /\ MTF.riskLevel mtf = Analysis.riskLevel daily
  /\ MTF.suggestedStopLoss mtf
     = first_present (Analysis.suggestedStopLoss daily)
                     (Analysis.suggestedStopLoss fourHour)
                     (Analysis.suggestedStopLoss hourly)
  /\ MTF.suggestedTakeProfit mtf
     = first_present (Analysis.suggestedTakeProfit daily)
                     (Analysis.suggestedTakeProfit fourHour)
                     (Analysis.suggestedTakeProfit hourly).

(** ** Sample inputs *)

(** A square root to six decimals, for evaluating the model. *)
Definition sqrt_approx (q : Q) : Q :=
  inject_Z (Z.sqrt (Qfloor (q * 1000000000000))) / 1000000.

(** A candle around the close [c / 1000], with a range of [0.004] on each
    side. *)
Definition sample_bar (t c v : Z) : Candle.t :=
  {| Candle.time := t;
     Candle.open := Fin (inject_Z c / 1000);
     Candle.high := Fin (inject_Z (c + 4) / 1000);
     Candle.low := Fin (inject_Z (c - 4) / 1000);
     Candle.close := Fin (inject_Z c / 1000);
     Candle.volume := Fin (inject_Z v) |}.

(** A quiet range that ends in a rise of three percent on a volume half as
    large again: twenty-four candles, and its last sixteen. *)
Definition breakout_series : list Candle.t :=
  imap (fun i c => sample_bar (Z.of_nat i) c (if (i =? 23)%nat then 1500 else 1000))
       [100; 101; 100; 101; 100; 101; 100; 101; 100; 101; 100; 101;
        100; 101; 100; 101; 100; 101; 100; 101; 100; 101; 100; 103]%Z.

Definition short_breakout_series : list Candle.t :=
  imap (fun i c => sample_bar (Z.of_nat i) c (if (i =? 15)%nat then 1500 else 1000))
       [100; 101; 100; 101; 100; 101; 100; 101;
        100; 101; 100; 101; 100; 101; 100; 103]%Z.

(** Sixteen candles at one close. *)
Definition quiet_series : list Candle.t :=
  imap (fun i c => sample_bar (Z.of_nat i) c 1000) (replicate 16 100%Z).

(** Options that do not require the 200-period EMA and accept a stop of up
    to ten percent. *)
Definition sample_options : Options.t :=
  {| Options.consolidationPeriod := Undefined;
     Options.consolidationThreshold := Undefined;
     Options.rsiLowerThreshold := Undefined;
     Options.rsiUpperThreshold := Undefined;
     Options.volumeIncreaseThreshold := Undefined;
     Options.minBreakoutPercent := Undefined;
     Options.maxBreakoutPercent := Undefined;
     Options.bollingerPeriod := None;
     Options.atrPeriod := None;
     Options.lookbackPeriod := None;
     Options.ema200Required := Some false;
     Options.minMTFScore := Undefined;
     Options.minAlignmentScore := Undefined;
     Options.minDailyScore := Undefined;
     Options.requireEma200 := Some false;
     Options.maxPrice := Undefined;
     Options.riskRewardRatio := Undefined;
     Options.maxStopLossPercent := Num (Fin 10);
     Options.minProfitPotential := None |}.

Definition sample_coin : CoinData.t :=
  {| CoinData.hourlyData := Some breakout_series;
     CoinData.fourHourData := Some breakout_series;
     CoinData.dailyData := Some breakout_series;
     CoinData.symbol := "DOGE";
     CoinData.exchange := None |}.

(** A flat candle without volume, and two hundred and fifty of them. *)
Definition flat_bar : Candle.t :=
  {| Candle.time := 0; Candle.open := Fin 1; Candle.high := Fin 1;
     Candle.low := Fin 1; Candle.close := Fin 1; Candle.volume := Fin 0 |}.

Definition flat_series : list Candle.t := replicate 250 flat_bar.

(** The prices 1, 2, ..., 16, which never fall, and the same with a fall
    at the third. *)
Definition rising_prices : list Q := map (fun n => inject_Z (Z.of_nat n)) (seq 1 16).

Definition dipping_prices : list Q :=
  [10; 11; 9; 12; 13; 14; 15; 16; 17; 18; 19; 20; 21; 22; 23; 24].

(** The default parameters but for a consolidation period of 4, and a
    generator whose every draw is [0.25]. *)
Definition sample_params : Params.t :=
  {| Params.consolidationPeriod := Fin 4;
     Params.consolidationThreshold := Fin 0.15;
     Params.rsiLowerThreshold := Fin 50;
     Params.rsiUpperThreshold := Fin 75;
     Params.volumeIncreaseThreshold := Fin 0.10;
     Params.minBreakoutPercent := Fin 0.01;
     Params.maxBreakoutPercent := Fin 0.20;
     Params.riskRewardRatio := Fin 3.0;
     Params.maxStopLossPercent := Fin 5 |}.

Definition quarter_draws : nat -> num := fun _ => Fin 0.25.

(** Two hundred and sixty candles for the backtest: a flat range at the
    close 1.000 for 199 bars; then nineteen rises of about three percent on
    a volume half as large again, each followed by a quiet bar at the new
    close; then a fall of five percent that lasts to the end. *)
Definition trading_series : list Candle.t :=
  imap (fun i '(c, v) => sample_bar (Z.of_nat i) c v)
       (replicate 199 (1000, 1000)%Z
        ++ flat_map (fun c => [(c, 1500); (c, 1000)]%Z)
                    [1030; 1061; 1093; 1126; 1160; 1195; 1231; 1268; 1306; 1345;
                     1385; 1427; 1470; 1514; 1559; 1606; 1654; 1704; 1755]%Z
        ++ replicate 23 (1667, 1000)%Z).

(** The default parameters of the optimizer, read as options. *)
Definition default_options : Options.t := Params.options (initial_params Options.empty).

(** The bar of entry, the bars held and the exit of a trade. *)
Definition trade_summary (trade : Trade.t) : nat * nat * option string :=
  (Trade.entryBar trade, Trade.barsHeld trade, Trade.exitType trade).

(** Two time zones: one without an offset, and the Eastern time of the
    United States around the start of its daylight-saving time on 10 March
    2024, five hours behind UTC before 07:00 UTC of that day (03:00 of the
    local clock) and four hours behind from then on. *)
Definition utc_zone : Z -> bool -> Z := fun _ _ => 0%Z.

Definition eastern_zone : Z -> bool -> Z :=
  fun t isUTC =>
    let change := if isUTC then 1710054000000%Z else 1710039600000%Z in
    if (t <? change)%Z then (-5 * 3600 * 1000)%Z else (-4 * 3600 * 1000)%Z.

(** ** Further properties of the code *)

(** [{ ...options, maxRiskLevel: level }]. *)
Definition with_maxRiskLevel (level : option string) (options : FilterOptions.t)
  : FilterOptions.t :=
  {| FilterOptions.minConfidence := FilterOptions.minConfidence options;
     FilterOptions.minSuccessProbability := FilterOptions.minSuccessProbability options;
     FilterOptions.minRiskRewardRatio := FilterOptions.minRiskRewardRatio options;
     FilterOptions.maxRiskLevel := level;
     FilterOptions.minMTFScore := FilterOptions.minMTFScore options;
     FilterOptions.minAlignmentScore := FilterOptions.minAlignmentScore options |}.

(** A signal of the given risk level, confidence and success probability,
    with a reward of three times the risk and full alignment. *)
Definition sample_signal (riskLevel : string) (confidence probability : Q) : Signal.t :=
  {| Signal.symbol := "DOGE"; Signal.exchange := "ByDFi";
     Signal.signalType := "Breakout"; Signal.direction := "Long";
     Signal.confidence := Fin confidence;
     Signal.entryPrice := Fin 0.1;
     Signal.stopLoss := Num (Fin 0.096);
     Signal.takeProfit := Num (Fin 0.112);
     Signal.riskRewardRatio := Fin 3;
     Signal.potentialProfitPercent := Fin 12;
     Signal.potentialLossPercent := Fin 4;
     Signal.timeframe := "Multi-Timeframe";
     Signal.generatedAt := 0; Signal.expiresAt := 86400000;
     Signal.mtfAnalysis :=
       {| Signal.score := Fin 90; Signal.alignmentScore := 6; Signal.hourlyScore := 90;
          Signal.fourHourScore := 90; Signal.dailyScore := 90 |};
     Signal.signals := [];
     Signal.profitPotential := "High";
     Signal.riskLevel := riskLevel;
     Signal.successProbability := Fin probability |}.

(** Four signals: of medium risk, of high risk at a confidence of 9 and of
    8, and of very high risk. *)
Definition sample_signals : list Signal.t :=
  [sample_signal "Medium" 8 85; sample_signal "High" 9 85;
   sample_signal "High" 8 85; sample_signal "Very High" 9.5 90].

(** The weight that [analyzeBreakout] adds to the score with each signal
    that it reports. *)
Definition signal_weight (label : string) : Z :=
  if String.eqb label "Price consolidation detected" then 20
  else if String.eqb label "RSI in optimal range" then 15
  else if String.eqb label "Bollinger Band compression" then 15
  else if String.eqb label "Bollinger Band breakout" then 20
  else if String.eqb label "Price above EMA200" then 10
  else if String.eqb label "Volume increasing" then 15
  else if String.eqb label "Positive RSI divergence" then 15
  else if String.eqb label "MACD bullish crossover" then 15
  else if String.eqb label "OBV accumulation" then 10
  else if String.eqb label "Ideal breakout percentage" then 15
  else 0.

Definition total_weight (signals : list string) : Z :=
  foldr (fun label sum => (signal_weight label + sum)%Z) 0%Z signals.

(** The number of candles that the condition behind a signal needs before
    it can hold: the RSI of period 14 has its first value at index 14, the
    EMA of period 200 at index 199, the MACD histogram at index 33 of at
    least 35 points, and so on. *)
Definition min_history (config : Config.t) (label : string) : nat :=
  if String.eqb label "Price consolidation detected" then 1
  else if String.eqb label "RSI in optimal range" then 15
  else if String.eqb label "Bollinger Band compression" then Config.bollingerPeriod config
  else if String.eqb label "Bollinger Band breakout" then 10
  else if String.eqb label "Price above EMA200" then 200
  else if String.eqb label "Volume increasing" then 2
  else if String.eqb label "Positive RSI divergence"
       then Nat.max 12 (Config.lookbackPeriod config)
  else if String.eqb label "MACD bullish crossover" then 35
  else if String.eqb label "OBV accumulation" then 5
  else if String.eqb label "Ideal breakout percentage" then 2
  else 0.

(** A trade as the simulation records it on [historicalData]: entered at
    the close of a bar from 200 on that leaves twenty bars after it, held
    for one to nineteen bars, and closed at its stop loss, at its take
    profit or, after nineteen bars, at the close of the nineteenth. *)
Definition recorded_trade (historicalData : list Candle.t) (trade : Trade.t) : Prop :=
  (200 <= Trade.entryBar trade)%nat
  /\ (Trade.entryBar trade + 20 < length historicalData)%nat
  /\ (1 <= Trade.barsHeld trade <= 19)%nat
  /\ (exists bar,
        historicalData !! Trade.entryBar trade = Some bar
        /\ Trade.entryPrice trade = Candle.close bar
        /\ Trade.date trade = Candle.time bar)
  /\ Trade.pnl trade
     = ((JS.to_num (Trade.exitPrice trade) - Trade.entryPrice trade)
        / Trade.entryPrice trade * Fin 100)%J
  /\ ((Trade.exitType trade = Some "Stop Loss"%string
       /\ Trade.exitPrice trade = Trade.stopLoss trade)
      \/ (Trade.exitType trade = Some "Take Profit"%string
          /\ Trade.exitPrice trade = Trade.takeProfit trade)
      \/ (Trade.exitType trade = Some "Time Exit"%string
          /\ Trade.barsHeld trade = 19%nat
          /\ exists bar,
               historicalData !! (Trade.entryBar trade + 19)%nat = Some bar
               /\ Trade.exitPrice trade = Num (Candle.close bar))).

(** The counters of the tally agree with its list of trades. *)
Definition counted (tally : Tally) : Prop :=
  tally_totalTrades tally = length (tally_trades tally)
  /\ (tally_winningTrades tally + tally_losingTrades tally)%nat
     = tally_totalTrades tally.

(** [{ ...options, minProfitPotential: level }]. *)
Definition with_minProfitPotential (level : option string) (options : Options.t)
  : Options.t :=
  {| Options.consolidationPeriod := Options.consolidationPeriod options;
     Options.consolidationThreshold := Options.consolidationThreshold options;
     Options.rsiLowerThreshold := Options.rsiLowerThreshold options;
     Options.rsiUpperThreshold := Options.rsiUpperThreshold options;
     Options.volumeIncreaseThreshold := Options.volumeIncreaseThreshold options;
     Options.minBreakoutPercent := Options.minBreakoutPercent options;
     Options.maxBreakoutPercent := Options.maxBreakoutPercent options;
     Options.bollingerPeriod := Options.bollingerPeriod options;
     Options.atrPeriod := Options.atrPeriod options;
     Options.lookbackPeriod := Options.lookbackPeriod options;
     Options.ema200Required := Options.ema200Required options;
     Options.minMTFScore := Options.minMTFScore options;
     Options.minAlignmentScore := Options.minAlignmentScore options;
     Options.minDailyScore := Options.minDailyScore options;
     Options.requireEma200 := Options.requireEma200 options;
     Options.maxPrice := Options.maxPrice options;
     Options.riskRewardRatio := Options.riskRewardRatio options;
     Options.maxStopLossPercent := Options.maxStopLossPercent options;
     Options.minProfitPotential := level |}.

(** A coin whose hourly series is there and empty. *)
Definition empty_hourly_coin : CoinData.t :=
  {| CoinData.hourlyData := Some [];
     CoinData.fourHourData := Some breakout_series;
     CoinData.dailyData := Some breakout_series;
     CoinData.symbol := "DOGE";
     CoinData.exchange := None |}.

(** Numbers of ordinary size.  The source computes in binary64, which
    rounds and which overflows beyond about 1.8e308; the sums, products and
    squares that the indicators form of numbers of a magnitude of at most
    [10 ^ 100] stay far below that.  The statements below on the values of
    the indicators are made for such numbers, and where the rounding of the
    source could tip a bound they leave it a margin. *)
Definition ordinary (q : Q) : Prop := Qabs q <= 10 ^ 100.

(** A positive number of ordinary size, neither too large nor too small. *)
Definition ordinary_price (q : Q) : Prop := 10 ^ (-100) <= q <= 10 ^ 100.

(** The margin: one part in a billion. *)
Definition margin : Q := 1 # 1000000000.

(** A finite number, and a finite number that is not negative. *)
Definition finite (x : num) : Prop := exists q, is_fin x q.

Definition finite_nonneg (x : num) : Prop := exists q, is_fin x q /\ 0 <= q.

(** The thirty-six prices 1, 2, ..., 36. *)
Definition thirty_six_prices : list num :=
  map (fun n => Fin (inject_Z (Z.of_nat n))) (seq 1 36).

(** The sum of a list of rationals. *)
Definition Qsum (l : list Q) : Q := foldr Qplus 0 l.

(** A finite number between two bounds. *)
Definition between (lo hi : Q) (x : num) : Prop :=
  exists q, is_fin x q /\ lo <= q <= hi.




(** * Proofs *)

(** ** Finite numbers

    An operation on finite numbers is the operation on their values, in
    lowest terms. *)

#[local] Instance fin_proper : Proper (Qeq ==> Logic.eq) JS.fin.
Proof. intros p q Hpq. unfold JS.fin. f_equal. by apply Qred_complete. Qed.

#[local] Instance Qlt_bool_proper : Proper (Qeq ==> Qeq ==> Logic.eq) JS.Qlt_bool.
Proof. intros p p' Hp q q' Hq. unfold JS.Qlt_bool. by rewrite Hp, Hq. Qed.

Lemma Fin_is q : is_fin (Fin q) q.
Proof. by exists q. Qed.

Lemma fin_is q : is_fin (JS.fin q) q.
Proof. exists (Qred q). split; [done | apply Qred_correct]. Qed.

Lemma of_Z_is z : is_fin (JS.of_Z z) (inject_Z z).
Proof. apply Fin_is. Qed.

Lemma is_fin_eq x p q : is_fin x p -> p == q -> is_fin x q.
Proof. intros (a & -> & Ha) Hpq. exists a. split; [done | by rewrite Ha]. Qed.

Lemma add_fin x y p q : is_fin x p -> is_fin y q -> (x + y)%J = JS.fin (p + q).
Proof.
  intros (a & -> & Ha) (b & -> & Hb).
  change (JS.fin (a + b) = JS.fin (p + q)). by rewrite Ha, Hb.
Qed.

Lemma neg_fin x p : is_fin x p -> JS.neg x = JS.fin (- p).
Proof. intros (a & -> & Ha). change (JS.fin (- a) = JS.fin (- p)). by rewrite Ha. Qed.

Lemma sub_fin x y p q : is_fin x p -> is_fin y q -> (x - y)%J = JS.fin (p - q).
Proof.
  intros Hx Hy. unfold JS.sub. rewrite (neg_fin y q Hy).
  rewrite (add_fin x _ p (- q) Hx (fin_is _)). done.
Qed.

Lemma mul_fin x y p q : is_fin x p -> is_fin y q -> (x * y)%J = JS.fin (p * q).
Proof.
  intros (a & -> & Ha) (b & -> & Hb).
  change (JS.fin (a * b) = JS.fin (p * q)). by rewrite Ha, Hb.
Qed.

Lemma div_fin x y p q :
  is_fin x p -> is_fin y q -> ~ q == 0 -> (x / y)%J = JS.fin (p / q).
Proof.
  intros (a & -> & Ha) (b & -> & Hb) Hq. unfold JS.div.
  destruct (Qeq_bool b 0) eqn:E.
  - apply Qeq_bool_eq in E. rewrite Hb in E. done.
  - by rewrite Ha, Hb.
Qed.

Lemma abs_fin x p : is_fin x p -> JS.abs x = JS.fin (Qabs p).
Proof. intros (a & -> & Ha). change (JS.fin (Qabs a) = JS.fin (Qabs p)). by rewrite Ha. Qed.

Lemma round_fin x p : is_fin x p -> JS.round x = JS.of_Z (Qfloor (p + (1 # 2))).
Proof. intros (a & -> & Ha). unfold JS.round. by rewrite Ha. Qed.

Lemma lt_fin x y p q : is_fin x p -> is_fin y q -> (x <? y)%J = JS.Qlt_bool p q.
Proof. intros (a & -> & Ha) (b & -> & Hb). unfold JS.lt. by rewrite Ha, Hb. Qed.

Lemma le_fin x y p q : is_fin x p -> is_fin y q -> (x <=? y)%J = Qle_bool p q.
Proof. intros (a & -> & Ha) (b & -> & Hb). unfold JS.le. by rewrite Ha, Hb. Qed.

Lemma eq_fin x y p q : is_fin x p -> is_fin y q -> (x === y)%J = Qeq_bool p q.
Proof. intros (a & -> & Ha) (b & -> & Hb). unfold JS.eq. by rewrite Ha, Hb. Qed.

Lemma add_is_fin x y p q : is_fin x p -> is_fin y q -> is_fin (x + y)%J (p + q).
Proof. intros Hx Hy. rewrite (add_fin x y p q Hx Hy). apply fin_is. Qed.

Lemma sub_is_fin x y p q : is_fin x p -> is_fin y q -> is_fin (x - y)%J (p - q).
Proof. intros Hx Hy. rewrite (sub_fin x y p q Hx Hy). apply fin_is. Qed.

Lemma mul_is_fin x y p q : is_fin x p -> is_fin y q -> is_fin (x * y)%J (p * q).
Proof. intros Hx Hy. rewrite (mul_fin x y p q Hx Hy). apply fin_is. Qed.

Lemma div_is_fin x y p q :
  is_fin x p -> is_fin y q -> ~ q == 0 -> is_fin (x / y)%J (p / q).
Proof. intros Hx Hy Hq. rewrite (div_fin x y p q Hx Hy Hq). apply fin_is. Qed.

Lemma abs_is_fin x p : is_fin x p -> is_fin (JS.abs x) (Qabs p).
Proof. intros Hx. rewrite (abs_fin x p Hx). apply fin_is. Qed.

Lemma round_is_fin x p :
  is_fin x p -> is_fin (JS.round x) (inject_Z (Qfloor (p + (1 # 2)))).
Proof. intros Hx. rewrite (round_fin x p Hx). apply of_Z_is. Qed.

(** Two finite numbers in lowest terms with one value are one term. *)
Lemma fin_unique p q : p == q -> JS.fin p = JS.fin q.
Proof. intros H. by rewrite H. Qed.

Lemma Qlt_bool_false a b : JS.Qlt_bool a b = false <-> b <= a.
Proof.
  unfold JS.Qlt_bool. rewrite negb_false_iff. apply Qle_bool_iff.
Qed.

Lemma Qle_bool_false a b : Qle_bool a b = false <-> b < a.
Proof.
  destruct (Qle_bool a b) eqn:E.
  - apply Qle_bool_iff in E. split; [done | intros H; exfalso; lra].
  - split; [intros _ | done].
    destruct (Qlt_le_dec b a) as [H | H]; [done |].
    apply Qle_bool_iff in H. congruence.
Qed.


(** ** The backtester *)

Lemma simulate_bar_trades historicalData options i bar tally tally' held :
  simulate_bar historicalData options i bar tally = (tally', held) ->
  (tally' = tally /\ held = 0%nat)
  \/ exists trade,
       tally_trades tally' = tally_trades tally ++ [trade]
       /\ Trade.entryBar trade = i
       /\ Trade.barsHeld trade = held.
Proof.
  unfold simulate_bar.
  destruct (Analysis.isBreakoutCandidate _); [| intros [= <- <-]; by left].
  destruct (look_forward _ _ _ _ _ _ _) as [[exitPrice exitType] barsHeld].
  intros [= <- <-]. right. eexists. by cbn.
Qed.

Lemma no_overlap_snoc trades trade i :
  no_overlap trades ->
  (forall t, last trades = Some t -> (Trade.entryBar t + Trade.barsHeld t < i)%nat) ->
  Trade.entryBar trade = i ->
  no_overlap (trades ++ [trade]).
Proof.
  intros Hno Hlast Hentry n t1 t2 H1 H2.
  destruct (decide (S n < length trades)%nat) as [Hlt | Hge].
  - rewrite lookup_app_l in H1 by lia. rewrite lookup_app_l in H2 by lia. eauto.
  - assert (S n = length trades) as Hn.
    { apply lookup_lt_Some in H2. rewrite length_app in H2. cbn in H2. lia. }
    rewrite lookup_app_l in H1 by lia.
    rewrite lookup_app_r in H2 by lia.
    replace (S n - length trades)%nat with 0%nat in H2 by lia.
    cbn in H2. injection H2 as <-.
    assert (last trades = Some t1) as Hl.
    { rewrite last_lookup. rewrite <- Hn. exact H1. }
    specialize (Hlast _ Hl). lia.
Qed.

Lemma simulate_bar_settled historicalData options i bar tally tally' held :
  simulate_bar historicalData options i bar tally = (tally', held) ->
  settled i tally ->
  settled (i + held + 1) tally'.
Proof.
  intros Hsim [Hno Hlast].
  destruct (simulate_bar_trades _ _ _ _ _ _ _ Hsim)
    as [[-> ->] | (trade & Htrades & Hentry & Hheld)].
  - split; [done |]. intros t Ht. specialize (Hlast _ Ht). lia.
  - split.
    + rewrite Htrades. by eapply no_overlap_snoc.
    + intros t. rewrite Htrades, last_snoc. intros [= <-]. lia.
Qed.

(** The loop returns when it has a unit of fuel for each bar left, and
    keeps the invariant. *)
Lemma backtest_loop_returns historicalData options fuel :
  forall i tally,
    (length historicalData <= i + fuel)%nat ->
    settled i tally ->
    exists tally',
      backtest_loop historicalData options fuel i tally = Some tally'
      /\ no_overlap (tally_trades tally').
Proof.
  induction fuel as [| fuel IH]; intros i tally Hfuel Hinv.
  - exists tally. cbn.
    destruct (Z.ltb_spec (Z.of_nat i) (Z.of_nat (length historicalData) - 20)); [lia |].
    split; [done | apply Hinv].
  - cbn [backtest_loop].
    destruct (Z.ltb_spec (Z.of_nat i) (Z.of_nat (length historicalData) - 20))
      as [Hlt | Hge]; [| exists tally; split; [done | apply Hinv]].
    destruct (lookup_lt_is_Some_2 historicalData i) as [bar Hbar]; [lia |].
    rewrite Hbar.
    destruct (simulate_bar historicalData options i bar tally) as [tally1 held] eqn:Hsim.
    apply IH; [lia |].
    by eapply simulate_bar_settled.
Qed.

Lemma settled_empty i : settled i empty_tally.
Proof. split; [intros n t1 t2 H; by cbn in H | intros t H; by cbn in H]. Qed.

(** C4. With fewer than 250 candles [backtestBreakoutStrategy] returns the
    object [{ error: 'Not enough historical data for backtest' }], whatever
    the options: a result that is not a results object, so that it has no
    [trades] and cannot be taken for a run without trades; the call returns
    (it does not throw). *)
Theorem backtest_short_input_is_error
  (historicalData : list Candle.t) (options : Options.t) :
  (length historicalData < 250)%nat ->
  backtestBreakoutStrategy historicalData options
  = Backtest.Error "Not enough historical data for backtest"
  /\ forall results,
       backtestBreakoutStrategy historicalData options <> Backtest.Results results.
Proof.
  intros Hshort. unfold backtestBreakoutStrategy.
  destruct (Nat.ltb_spec (length historicalData) 250); [| lia].
  split; [reflexivity | intros results; discriminate].
Qed.

(** C2. With at least 250 candles the simulation loop returns, the result
    of [backtestBreakoutStrategy] is the results object built from its
    tally, and the trades in it do not overlap: each trade is entered at or
    after the entry bar of the previous one plus the bars it was held. *)
Theorem backtest_trades_never_overlap
  (historicalData : list Candle.t) (options : Options.t) :
  (250 <= length historicalData)%nat ->
  exists tally,
    backtest_loop historicalData options (length historicalData) 200 empty_tally
    = Some tally
    /\ backtestBreakoutStrategy historicalData options
       = Backtest.Results (statistics tally)
    /\ no_overlap (Backtest.trades (statistics tally)).
Proof.
  intros Hlong.
  destruct (backtest_loop_returns historicalData options (length historicalData)
              200 empty_tally) as (tally & Hloop & Hno);
    [lia | apply settled_empty |].
  exists tally. split; [exact Hloop |]. split.
  - unfold backtestBreakoutStrategy.
    destruct (Nat.ltb_spec (length historicalData) 250); [lia |].
    by rewrite Hloop.
  - unfold statistics. by destruct (0 <? tally_totalTrades tally)%nat.
Qed.

(** ** The optimizer *)

Lemma Qlt_bool_iff a b : JS.Qlt_bool a b = true <-> a < b.
Proof.
  unfold JS.Qlt_bool. rewrite negb_true_iff.
  destruct (Qle_bool b a) eqn:E.
  - apply Qle_bool_iff in E. split; [done | intros H; exfalso; lra].
  - split; [intros _ | done].
    destruct (Qlt_le_dec a b) as [H | H]; [done |].
    apply Qle_bool_iff in H. congruence.
Qed.

Lemma lt_trans x y z : (x <? y)%J = true -> (y <? z)%J = true -> (x <? z)%J = true.
Proof.
  destruct x as [a | | |], y as [b | | |], z as [c | | |]; cbn; try done.
  rewrite !Qlt_bool_iff. apply Qlt_trans.
Qed.

Lemma lt_le x y : (x <? y)%J = true -> (x <=? y)%J = true.
Proof.
  destruct x as [a | | |], y as [b | | |]; cbn; try done.
  rewrite Qlt_bool_iff, Qle_bool_iff. apply Qlt_le_weak.
Qed.

Lemma le_refl x : x <> NaN -> (x <=? x)%J = true.
Proof.
  destruct x as [a | | |]; cbn; try done.
  intros _. apply Qle_bool_iff, Qle_refl.
Qed.

Lemma consider_improves historicalData initial best params :
  improves historicalData initial best ->
  improves historicalData initial (consider historicalData best params).
Proof.
  intros [Hscore Hbetter]. unfold consider.
  destruct (_ >? snd best)%J eqn:Hgt; [| done].
  split; [done |]. right. cbn [snd].
  destruct Hbetter as [<- | Hgt0]; [done |].
  unfold JS.gt in *. by eapply lt_trans.
Qed.

Lemma foldl_consider_improves historicalData initial candidates :
  forall best,
    improves historicalData initial best ->
    improves historicalData initial (foldl (consider historicalData) best candidates).
Proof.
  induction candidates as [| params candidates IH]; intros best Hbest; [done |].
  cbn. apply IH. by apply consider_improves.
Qed.

Lemma optimize_loop_improves historicalData initial generations :
  forall best k,
    improves historicalData initial best ->
    improves historicalData initial
             (fst (optimize_loop historicalData generations best k)).
Proof.
  induction generations as [| generations IH]; intros best k Hbest; [done |].
  cbn [optimize_loop].
  destruct (generateParameterVariations (fst best) k) as [candidates k'].
  apply IH. by apply foldl_consider_improves.
Qed.

(** C10. For every data set, initial parameter object, number of
    generations and sequence of draws, the score that [optimizeParameters]
    returns is the score of the default-merged initial parameters or is
    greater than it (so it is [>=] it whenever that score is a number and
    not [NaN]), and it is the score that [evaluateParameters] gives to the
    returned parameters. *)
Theorem optimizer_score_never_below_initial
  (historicalData : list Candle.t) (initialParams : Options.t)
  (generations k : nat) :
  let initial := evaluateParameters historicalData (initial_params initialParams) in
  let best := optimizeParameters historicalData initialParams generations k in
  (Optimum.score best = initial \/ (Optimum.score best >? initial)%J = true)
  /\ (initial <> NaN -> (Optimum.score best >=? initial)%J = true)
  /\ Optimum.score best = evaluateParameters historicalData (Optimum.parameters best).
Proof.
  intros initial best.
  pose proof (optimize_loop_improves historicalData initial generations
                (initial_params initialParams, initial) k) as Hinv.
  subst best. unfold optimizeParameters. fold initial.
  destruct (optimize_loop historicalData generations
              (initial_params initialParams, initial) k)
    as [[bestParams bestScore] k'].
  cbn [Optimum.score Optimum.parameters].
  destruct Hinv as [Hscore Hbetter]; [split; [done | by left] |].
  cbn [fst snd] in *.
  split; [done |]. split; [| done].
  intros Hnan. unfold JS.ge.
  destruct Hbetter as [-> | Hgt]; [by apply le_refl | by apply lt_le].
Qed.

(** ** Default merging in the signal generator *)

Lemma or_default_zero d : or_default (Num (Fin 0)) d = d.
Proof. reflexivity. Qed.

Lemma or_default_undefined d : or_default Undefined d = d.
Proof. reflexivity. Qed.

Lemma signal_config_zero f options :
  signal_config (set_option f (Num (Fin 0)) options)
  = signal_config (set_option f Undefined options).
Proof. by destruct f. Qed.

Lemma merge_config_zero f options :
  merge_config (set_option f (Num (Fin 0)) options)
  = merge_config (set_option f Undefined options).
Proof. by destruct f. Qed.

Lemma signal_config_maxPrice_zero options :
  signal_config (set_option MaxPrice (Num (Fin 0)) options)
  = signal_config (set_option MaxPrice (Num (Fin 1.0)) options).
Proof. reflexivity. Qed.

(** With [maxPrice: 0] the price gate compares the close of the last
    hourly candle with [1.0]: above it the coin is rejected for its price,
    and otherwise it is not, whatever the later gates decide. *)
Lemma price_gate_at_zero clock coinData options hourlyData lastHourly :
  CoinData.hourlyData coinData = Some hourlyData ->
  CoinData.fourHourData coinData <> None ->
  CoinData.dailyData coinData <> None ->
  last_obj hourlyData = Some lastHourly ->
  let result :=
    generateBreakoutSignal clock coinData (set_option MaxPrice (Num (Fin 0)) options) in
  if (Candle.close lastHourly >? Fin 1.0)%J
  then result
       = Returns (Signal.Rejected
                    (Signal.PriceAboveMaximum (Candle.close lastHourly) (Fin 1.0)))
  else forall price maximum,
         result <> Returns (Signal.Rejected (Signal.PriceAboveMaximum price maximum)).
Proof.
  intros Hhourly Hfour Hdaily Hlast. cbv zeta. unfold generateBreakoutSignal.
  rewrite Hhourly.
  destruct (CoinData.fourHourData coinData) as [fourHourData |]; [| done].
  destruct (CoinData.dailyData coinData) as [dailyData |]; [| done].
  rewrite Hlast.
  change (SignalConfig.maxPrice (signal_config (set_option MaxPrice (Num (Fin 0)) options)))
    with (Fin 1.0).
  destruct (Candle.close lastHourly >? Fin 1.0)%J; [reflexivity |].
  intros price maximum.
  repeat match goal with
         | |- (if ?c then _ else _) <> _ => destruct c; [discriminate |]
         end.
  match goal with
  | |- Returns (Signal.Emitted ?r) <> _ => set (signal := r)
  end.
  discriminate.
Qed.

(** C9. Setting any numeric option of [generateBreakoutSignal] to [0] gives
    the result of omitting it, for every coin and every other option: the
    merged configuration is the same, the default standing in for the [0].
    The analyzer merges its options in the same way.  In particular
    [maxPrice: 0] gives the result of [maxPrice: 1.0]: a coin whose last
    hourly close is above [1.0] is rejected for its price, and one whose
    close is not above it is not rejected for its price. *)
Theorem zero_option_behaves_as_omitted
  (clock : Z * Z) (coinData : CoinData.t) (data : list Candle.t)
  (options : Options.t) (f : numeric_option) :
  generateBreakoutSignal clock coinData (set_option f (Num (Fin 0)) options)
  = generateBreakoutSignal clock coinData (set_option f Undefined options)
  /\ analyzeBreakout data (set_option f (Num (Fin 0)) options)
     = analyzeBreakout data (set_option f Undefined options)
  /\ SignalConfig.maxPrice (signal_config (set_option MaxPrice (Num (Fin 0)) options))
     = Fin 1.0
  /\ generateBreakoutSignal clock coinData (set_option MaxPrice (Num (Fin 0)) options)
     = generateBreakoutSignal clock coinData (set_option MaxPrice (Num (Fin 1.0)) options)
  /\ forall hourlyData lastHourly,
       CoinData.hourlyData coinData = Some hourlyData ->
       CoinData.fourHourData coinData <> None ->
       CoinData.dailyData coinData <> None ->
       last_obj hourlyData = Some lastHourly ->
       let result :=
         generateBreakoutSignal clock coinData
                                (set_option MaxPrice (Num (Fin 0)) options) in
       if (Candle.close lastHourly >? Fin 1.0)%J
       then result
            = Returns (Signal.Rejected
                         (Signal.PriceAboveMaximum (Candle.close lastHourly) (Fin 1.0)))
       else forall price maximum,
              result
              <> Returns (Signal.Rejected (Signal.PriceAboveMaximum price maximum)).
Proof.
  split; [| split; [| split; [reflexivity | split]]].
  - unfold generateBreakoutSignal. by rewrite signal_config_zero.
  - unfold analyzeBreakout. by rewrite merge_config_zero.
  - unfold generateBreakoutSignal. by rewrite signal_config_maxPrice_zero.
  - intros hourlyData lastHourly. apply price_gate_at_zero.
Qed.

(** ** The aggregator's levels *)

Lemma or_string_nonempty a b : a <> ""%string -> or_string a b = a.
Proof.
  intros Ha. unfold or_string.
  destruct (String.eqb_spec a ""); [done | reflexivity].
Qed.

Lemma calculateProfitPotential_nonempty closeData atrData bbData breakoutScore :
  calculateProfitPotential closeData atrData bbData breakoutScore <> ""%string.
Proof.
  unfold calculateProfitPotential.
  repeat match goal with |- context [if ?c then _ else _] => destruct c end; done.
Qed.

Lemma calculateRiskLevel_nonempty closeData atrData breakoutScore :
  calculateRiskLevel closeData atrData breakoutScore <> ""%string.
Proof.
  unfold calculateRiskLevel.
  repeat match goal with |- context [if ?c then _ else _] => destruct c end; done.
Qed.

Lemma mtf_profit_potential_is_daily hourlyData fourHourData dailyData options :
  MTF.profitPotential
    (multiTimeframeAnalysis hourlyData fourHourData dailyData options)
  = Analysis.profitPotential (analyzeBreakout dailyData options).
Proof.
  unfold multiTimeframeAnalysis. cbn [MTF.profitPotential].
  apply or_string_nonempty. unfold analyzeBreakout. cbn [Analysis.profitPotential].
  apply calculateProfitPotential_nonempty.
Qed.

Lemma mtf_risk_level_is_daily hourlyData fourHourData dailyData options :
  MTF.riskLevel (multiTimeframeAnalysis hourlyData fourHourData dailyData options)
  = Analysis.riskLevel (analyzeBreakout dailyData options).
Proof.
  unfold multiTimeframeAnalysis. cbn [MTF.riskLevel].
  apply or_string_nonempty. unfold analyzeBreakout. cbn [Analysis.riskLevel].
  apply calculateRiskLevel_nonempty.
Qed.

(** C3, as the code has it.  [profitPotential] and [riskLevel] are those of
    the daily analysis (a non-empty string, so that the fallback written
    after [||] is never taken).  [suggestedStopLoss] and
    [suggestedTakeProfit] are those of the four-hour analysis when that
    value is truthy (set, and neither [0] nor [NaN]), and otherwise those
    of the hourly analysis; the daily analysis is not consulted for them. *)
Theorem mtf_levels_come_from
  (hourlyData fourHourData dailyData : list Candle.t) (options : Options.t) :
  let hourly := analyzeBreakout hourlyData options in
  let fourHour := analyzeBreakout fourHourData options in
  let daily := analyzeBreakout dailyData options in
  let mtf := multiTimeframeAnalysis hourlyData fourHourData dailyData options in
  MTF.profitPotential mtf = Analysis.profitPotential daily
  /\ MTF.riskLevel mtf = Analysis.riskLevel daily
  /\ MTF.suggestedStopLoss mtf
     = (if JS.truthy (Analysis.suggestedStopLoss fourHour)
        then Analysis.suggestedStopLoss fourHour
        else Analysis.suggestedStopLoss hourly)
  /\ MTF.suggestedTakeProfit mtf
     = (if JS.truthy (Analysis.suggestedTakeProfit fourHour)
        then Analysis.suggestedTakeProfit fourHour
        else Analysis.suggestedTakeProfit hourly).
Proof.
  cbv zeta.
  split; [apply mtf_profit_potential_is_daily |].
  split; [apply mtf_risk_level_is_daily |].
  split; reflexivity.
Qed.

(** ** The perturbation step *)

Lemma variation_next baseParams k : snd (variation baseParams k) = (k + 9)%nat.
Proof. unfold variation, randomAdjust. cbn. lia. Qed.

Lemma variation_field baseParams k f :
  param f (fst (variation baseParams k))
  = clamped (code_range f) (amount f) (param f baseParams) (random (k + draw_index f)).
Proof.
  destruct f; cbn [draw_index]; rewrite (Nat.add_comm k); reflexivity.
Qed.

Lemma variations_lookup count baseParams :
  forall k j candidate,
    fst (variations count baseParams k) !! j = Some candidate ->
    candidate = fst (variation baseParams (k + 9 * j)).
Proof.
  induction count as [| count IH]; intros k j candidate; [done |].
  cbn [variations].
  pose proof (variation_next baseParams k) as Hnext.
  destruct (variation baseParams k) as [params k1] eqn:Hvar. cbn in Hnext. subst k1.
  destruct (variations count baseParams (k + 9)) as [rest k2] eqn:Hrest.
  destruct j as [| j]; intros Hj; cbn in Hj.
  - injection Hj as <-. replace (k + 9 * 0)%nat with k by lia. by rewrite Hvar.
  - specialize (IH (k + 9)%nat j candidate). rewrite Hrest in IH.
    rewrite (IH Hj). do 2 f_equal. lia.
Qed.

(** C6, as the code has it.  The field [f] of the [j]-th candidate is
    [max(lo, min(hi, base + delta))], where [delta] is the draw numbered
    [9 j + draw_index f] scaled to the amount of [f], and [(lo, hi)] is the
    range written in the source.  That range is the one of section 6 for
    every field but [consolidationPeriod], whose range is [[4, 10]]. *)
Theorem perturbation_clamps_to_source_ranges
  (baseParams candidate : Params.t) (k j : nat) (f : param_field) :
  fst (generateParameterVariations baseParams k) !! j = Some candidate ->
  param f candidate
  = clamped (code_range f) (amount f) (param f baseParams)
            (random (k + 9 * j + draw_index f))
  /\ (f <> PConsolidationPeriod -> code_range f = spec_range f)
  /\ code_range PConsolidationPeriod = (4, 10).
Proof.
  intros Hj. split; [| split; [by destruct f | reflexivity]].
  apply variations_lookup in Hj. subst candidate. apply variation_field.
Qed.

(** ** The warm-up of the indicators *)

Lemma lookup_map_seq {A} (f : nat -> A) n i :
  (i < n)%nat -> map f (seq 0 n) !! i = Some (f i).
Proof.
  intros Hi. change (map f (seq 0 n)) with (f <$> seq 0 n).
  by rewrite list_lookup_fmap, lookup_seq_lt.
Qed.

(** A block of [null]s followed by numbers. *)
Lemma warm_up_app boundary (numbers : list jsval) :
  Forall is_number numbers ->
  null_before (replicate boundary Null ++ numbers) boundary
  /\ number_from (replicate boundary Null ++ numbers) boundary.
Proof.
  intros Hnum. split.
  - intros i Hi _. rewrite lookup_app_l by (by rewrite length_replicate).
    by apply lookup_replicate_2.
  - intros i Hi Hlen. rewrite length_app, length_replicate in Hlen.
    rewrite lookup_app_r by (rewrite length_replicate; lia).
    rewrite length_replicate.
    destruct (lookup_lt_is_Some_2 numbers (i - boundary)) as [v Hv]; [lia |].
    destruct (Forall_lookup_1 _ _ _ _ Hnum Hv) as [x ->]. eauto.
Qed.

Lemma null_before_replicate n boundary : null_before (replicate n Null) boundary.
Proof.
  intros i _ Hi. rewrite length_replicate in Hi. by apply lookup_replicate_2.
Qed.

Lemma ema_loop_numbers multiplier rest :
  forall ema,
    Forall is_number (ema_loop multiplier ema rest)
    /\ length (ema_loop multiplier ema rest) = length rest.
Proof.
  induction rest as [| x rest IH]; intros ema; cbn; [done |].
  destruct (IH ((x - ema) * multiplier + ema)%J) as [Hnum Hlen].
  split; [constructor; [by eexists | done] | by rewrite Hlen].
Qed.

Lemma rsi_loop_numbers period changes :
  forall avgGain avgLoss,
    Forall is_number (rsi_loop period avgGain avgLoss changes)
    /\ length (rsi_loop period avgGain avgLoss changes) = length changes.
Proof.
  induction changes as [| change changes IH]; intros avgGain avgLoss; cbn; [done |].
  match goal with
  | |- context [rsi_loop period ?g ?l changes] => destruct (IH g l) as [Hnum Hlen]
  end.
  split; [constructor; [by eexists | done] | by rewrite Hlen].
Qed.

Lemma atr_loop_numbers period trueRanges :
  forall atr,
    Forall is_number (atr_loop period atr trueRanges)
    /\ length (atr_loop period atr trueRanges) = length trueRanges.
Proof.
  induction trueRanges as [| tr trueRanges IH]; intros atr; cbn; [done |].
  match goal with
  | |- context [atr_loop period ?a trueRanges] => destruct (IH a) as [Hnum Hlen]
  end.
  split; [constructor; [by eexists | done] | by rewrite Hlen].
Qed.

Lemma calculateSMA_warm_up data period :
  length (calculateSMA data period) = length data
  /\ null_before (calculateSMA data period) (period - 1)
  /\ ((period <= length data)%nat -> number_from (calculateSMA data period) (period - 1)).
Proof.
  unfold calculateSMA.
  destruct (Nat.ltb_spec (length data) period) as [Hshort | Hlong].
  - split; [by rewrite length_replicate |].
    split; [apply null_before_replicate | lia].
  - split; [by rewrite length_map, length_seq |]. split.
    + intros i Hi Hlen. rewrite length_map, length_seq in Hlen.
      rewrite lookup_map_seq by done.
      destruct (Z.ltb_spec (Z.of_nat i) (Z.of_nat period - 1)); [done | lia].
    + intros _ i Hi Hlen. rewrite length_map, length_seq in Hlen.
      rewrite lookup_map_seq by done.
      destruct (Z.ltb_spec (Z.of_nat i) (Z.of_nat period - 1)); [lia | eauto].
Qed.

Lemma ema_values_warm_up data period :
  (1 <= period)%nat ->
  length (ema_values data period) = length data
  /\ null_before (ema_values data period) (period - 1)
  /\ ((period <= length data)%nat -> number_from (ema_values data period) (period - 1)).
Proof.
  intros Hpos. unfold ema_values.
  destruct (Nat.ltb_spec (length data) period) as [Hshort | Hlong].
  - split; [by rewrite length_replicate |].
    split; [apply null_before_replicate | lia].
  - match goal with
    | |- context [ema_loop ?m ?e ?rest] =>
        destruct (ema_loop_numbers m rest e) as [Hnum Hlen];
        destruct (warm_up_app (period - 1) (Num e :: ema_loop m e rest)) as [Hnull Hfrom];
        [constructor; [by eexists | done] |]
    end.
    split; [| by split].
    rewrite length_app, length_replicate. cbn [length].
    rewrite Hlen, length_drop. lia.
Qed.

Lemma calculateEMA_returns data period :
  period <> 0%nat -> calculateEMA data period = Returns (ema_values data period).
Proof. intros Hp. unfold calculateEMA. by destruct (Nat.eqb_spec period 0). Qed.

Lemma length_price_changes data : length (price_changes data) = length data.
Proof. unfold price_changes. by rewrite length_map, length_seq. Qed.

Lemma calculateRSI_warm_up data period :
  length (calculateRSI data period) = length data
  /\ null_before (calculateRSI data period) period
  /\ ((period + 1 <= length data)%nat -> number_from (calculateRSI data period) period).
Proof.
  unfold calculateRSI.
  destruct (Nat.ltb_spec (length data) (period + 1)) as [Hshort | Hlong].
  - split; [by rewrite length_replicate |].
    split; [apply null_before_replicate | lia].
  - destruct (initial_sums _) as [gainSum lossSum].
    match goal with
    | |- context [Num ?r :: rsi_loop period ?g ?l ?rest] =>
        destruct (rsi_loop_numbers period rest g l) as [Hnum Hlen];
        destruct (warm_up_app period (Num r :: rsi_loop period g l rest)) as [Hnull Hfrom];
        [constructor; [by eexists | done] |]
    end.
    split; [| by split].
    rewrite length_app, length_replicate. cbn [length].
    rewrite Hlen, length_drop, length_price_changes. lia.
Qed.

Lemma length_true_ranges highData lowData closeData :
  length (true_ranges highData lowData closeData) = length highData.
Proof. unfold true_ranges. by rewrite length_map, length_seq. Qed.

Lemma assign_first_atr period v :
  (1 <= period)%nat ->
  assign (replicate period Null) (Z.of_nat period - 1) v
  = replicate (period - 1) Null ++ [v].
Proof.
  intros Hpos. unfold assign.
  destruct (Z.ltb_spec (Z.of_nat period - 1) 0); [lia |].
  rewrite length_replicate.
  replace (Z.to_nat (Z.of_nat period - 1)) with (period - 1)%nat by lia.
  destruct (Nat.ltb_spec (period - 1) period); [| lia].
  rewrite insert_replicate_lt by lia.
  by replace (period - S (period - 1))%nat with 0%nat by lia.
Qed.

Lemma calculateATR_warm_up highData lowData closeData period :
  (1 <= period)%nat ->
  ((period <= length highData)%nat ->
   length (calculateATR highData lowData closeData period) = length highData)
  /\ null_before (calculateATR highData lowData closeData period) (period - 1)
  /\ (length highData = length lowData -> length lowData = length closeData ->
      (2 <= length highData)%nat -> (period <= length highData)%nat ->
      number_from (calculateATR highData lowData closeData period) (period - 1)).
Proof.
  intros Hpos. unfold calculateATR.
  destruct (Nat.ltb_spec (length highData) 2) as [Hshort | Hlong]; cbn [orb].
  { split; [by rewrite length_replicate |].
    split; [apply null_before_replicate | lia]. }
  destruct (Nat.eqb_spec (length highData) (length lowData)) as [Hhl | Hhl]; cbn [negb orb];
    [| split; [by rewrite length_replicate |];
       split; [apply null_before_replicate | done]].
  destruct (Nat.eqb_spec (length lowData) (length closeData)) as [Hlc | Hlc]; cbn [negb];
    [| split; [by rewrite length_replicate |];
       split; [apply null_before_replicate | done]].
  rewrite length_true_ranges.
  destruct (Nat.leb_spec period (length highData)) as [Hle | Hgt].
  - rewrite assign_first_atr by done. rewrite <- app_assoc. cbn [app].
    match goal with
    | |- context [Num ?a :: atr_loop period ?a0 ?rest] =>
        destruct (atr_loop_numbers period rest a0) as [Hnum Hlen];
        destruct (warm_up_app (period - 1) (Num a :: atr_loop period a0 rest))
          as [Hnull Hfrom];
        [constructor; [by eexists | done] |]
    end.
    split; [| by split].
    intros _. rewrite length_app, length_replicate. cbn [length].
    rewrite Hlen, length_drop, length_true_ranges. lia.
  - split; [lia |]. split; [apply null_before_replicate | lia].
Qed.

(** The two cases that the statement below leaves out: with a period of
    zero [calculateEMA] throws, and on an input shorter than the period
    [calculateATR] returns [period] nulls, not as many as the input has
    points. *)
Lemma calculateEMA_zero_throws data :
  calculateEMA data 0 = Throws "RangeError: Invalid array length".
Proof. reflexivity. Qed.

Lemma calculateATR_short_input highData lowData closeData period :
  (2 <= length highData)%nat ->
  length highData = length lowData -> length lowData = length closeData ->
  (length highData < period)%nat ->
  calculateATR highData lowData closeData period = replicate period Null.
Proof.
  intros Hlen Hhl Hlc Hshort. unfold calculateATR.
  destruct (Nat.ltb_spec (length highData) 2); [lia |].
  rewrite <- Hlc, <- Hhl, Nat.eqb_refl. cbn [negb orb].
  rewrite length_true_ranges.
  by destruct (Nat.leb_spec period (length highData)); [lia |].
Qed.

(** C1, as the code has it.  For a period of at least one: [calculateSMA],
    [calculateEMA] and [calculateRSI] return a series of the length of
    their input, and so does [calculateATR] when its input has at least
    [period] points.  [calculateRSI] holds [null] at every index before
    [period], the three others at every index before [period - 1].  When the
    input has [period + 5] points (for [calculateATR], three arrays of that
    one length), every index from [period] on for [calculateRSI], and from
    [period - 1] on for the three others, holds a number. *)
Theorem indicator_warm_up
  (data highData lowData closeData : list num) (period : nat) :
  (1 <= period)%nat ->
  (length (calculateSMA data period) = length data
   /\ null_before (calculateSMA data period) (period - 1)
   /\ ((period + 5 <= length data)%nat ->
       number_from (calculateSMA data period) (period - 1)))
  /\ (exists ema,
        calculateEMA data period = Returns ema
        /\ length ema = length data
        /\ null_before ema (period - 1)
        /\ ((period + 5 <= length data)%nat -> number_from ema (period - 1)))
  /\ (length (calculateRSI data period) = length data
      /\ null_before (calculateRSI data period) period
      /\ ((period + 5 <= length data)%nat ->
          number_from (calculateRSI data period) period))
  /\ (((period <= length highData)%nat ->
       length (calculateATR highData lowData closeData period) = length highData)
      /\ null_before (calculateATR highData lowData closeData period) (period - 1)
      /\ (length highData = length lowData -> length lowData = length closeData ->
          (period + 5 <= length highData)%nat ->
          number_from (calculateATR highData lowData closeData period) (period - 1))).
Proof.
  intros Hpos.
  destruct (calculateSMA_warm_up data period) as (Hs1 & Hs2 & Hs3).
  destruct (ema_values_warm_up data period Hpos) as (He1 & He2 & He3).
  destruct (calculateRSI_warm_up data period) as (Hr1 & Hr2 & Hr3).
  destruct (calculateATR_warm_up highData lowData closeData period Hpos)
    as (Ha1 & Ha2 & Ha3).
  repeat split; try done.
  - intros Hn. apply Hs3. lia.
  - exists (ema_values data period). unfold calculateEMA.
    destruct (Nat.eqb_spec period 0); [lia |].
    repeat split; try done. intros Hn. apply He3. lia.
  - intros Hn. apply Hr3. lia.
  - intros Hhl Hlc Hn. apply Ha3; try done; lia.
Qed.

(** ** The ranges of the signal's scores *)

Lemma fst_check cond weight label state :
  fst (check cond weight label state) = (fst state + if cond then weight else 0)%Z.
Proof. unfold check. destruct cond; cbn; lia. Qed.

Lemma score_signals_range config closeData volumeData rsiData bbData ema200 obvData macdData :
  (0 <= fst (score_signals config closeData volumeData rsiData bbData ema200
                           obvData macdData))%Z.
Proof.
  unfold score_signals. cbv zeta.
  destruct (Config.ema200Required config);
    rewrite ?fst_check; cbn [fst]; rewrite ?fst_check; cbn [fst];
    repeat match goal with
           | |- context [if ?c then ?w else 0%Z] =>
               let z := fresh "z" in
               set (z := if c then w else 0%Z);
               assert (0 <= z)%Z by (subst z; destruct c; lia);
               clearbody z
           end; lia.
Qed.

Lemma analyze_score_range data options :
  (0 <= Analysis.breakoutScore (analyzeBreakout data options) <= 100)%Z.
Proof.
  unfold analyzeBreakout. cbn [Analysis.breakoutScore].
  match goal with |- context [score_signals ?a ?b ?c ?d ?e ?f ?g ?h] =>
    pose proof (score_signals_range a b c d e f g h) end.
  lia.
Qed.

Lemma profit_potential_score closeData atrData bbData breakoutScore :
  let potential := calculateProfitPotential closeData atrData bbData breakoutScore in
  (potential = "Very High"%string -> (85 < breakoutScore)%Z)
  /\ (potential = "High"%string -> (75 < breakoutScore)%Z)
  /\ (potential = "Medium"%string -> (65 < breakoutScore)%Z).
Proof.
  unfold calculateProfitPotential.
  destruct (_ || _); [done |].
  set (pct := (_ * Fin 100)%J).
  destruct (pct >? Fin 5)%J, (Z.ltb_spec 85 breakoutScore); cbn [andb];
    try (repeat split; try done; intros _; lia);
  destruct (pct >? Fin 3)%J, (Z.ltb_spec 75 breakoutScore); cbn [andb];
    try (repeat split; try done; intros _; lia);
  destruct (pct >? Fin 2)%J, (Z.ltb_spec 65 breakoutScore); cbn [andb];
    repeat split; try done; intros _; lia.
Qed.

Lemma mtf_score_value hourlyData fourHourData dailyData options :
  let mtf := multiTimeframeAnalysis hourlyData fourHourData dailyData options in
  exists m,
    MTF.mtfScore mtf = JS.of_Z m
    /\ (0 <= m <= 100)%Z
    /\ (MTF.dailyScore mtf <= 2 * m)%Z.
Proof.
  unfold multiTimeframeAnalysis. cbn [MTF.mtfScore MTF.dailyScore].
  pose proof (analyze_score_range hourlyData options) as Hh.
  pose proof (analyze_score_range fourHourData options) as Hf.
  pose proof (analyze_score_range dailyData options) as Hd.
  set (h := Analysis.breakoutScore (analyzeBreakout hourlyData options)) in *.
  set (f := Analysis.breakoutScore (analyzeBreakout fourHourData options)) in *.
  set (d := Analysis.breakoutScore (analyzeBreakout dailyData options)) in *.
  set (w := inject_Z h * 0.2 + inject_Z f * 0.3 + inject_Z d * 0.5).
  assert (is_fin (JS.of_Z h * Fin 0.2 + JS.of_Z f * Fin 0.3 + JS.of_Z d * Fin 0.5)%J w)
    as Hw by (repeat first [apply add_is_fin | apply mul_is_fin | apply of_Z_is | apply Fin_is]).
  rewrite (round_fin _ _ Hw).
  exists (Qfloor (w + (1 # 2))).
  assert (0 <= inject_Z h <= 100 /\ 0 <= inject_Z f <= 100 /\ 0 <= inject_Z d <= 100)
    as (Hqh & Hqf & Hqd).
  { repeat split; (change 0 with (inject_Z 0) || change 100 with (inject_Z 100));
      rewrite <- Zle_Qle; lia. }
  split; [done |]. split; [split |].
  - change 0%Z with (Qfloor 0). apply Qfloor_resp_le. subst w. lra.
  - change 100%Z with (Qfloor (100 + (1 # 2))). apply Qfloor_resp_le. subst w. lra.
  - pose proof (Qlt_floor (w + (1 # 2))) as Hfloor.
    rewrite inject_Z_plus in Hfloor. change (inject_Z 1) with 1 in Hfloor.
    set (m := Qfloor (w + (1 # 2))) in *.
    assert (inject_Z d < inject_Z (2 * m + 1)) as Hlt.
    { rewrite inject_Z_plus, inject_Z_mult. change (inject_Z 1) with 1.
      change (inject_Z 2) with 2. subst w. lra. }
    rewrite <- Zlt_Qlt in Hlt. lia.
Qed.

(** The value of an expression built from finite numbers. *)
Ltac fin_value :=
  repeat first
    [ eassumption
    | match goal with
      | |- is_fin (JS.add _ _) _ => apply add_is_fin
      | |- is_fin (JS.sub _ _) _ => apply sub_is_fin
      | |- is_fin (JS.mul _ _) _ => apply mul_is_fin
      | |- is_fin (JS.abs _) _ => apply abs_is_fin
      | |- is_fin (JS.round _) _ => apply round_is_fin
      | |- is_fin (JS.of_Z _) _ => apply of_Z_is
      | |- is_fin (JS.of_nat _) _ => apply of_Z_is
      | |- is_fin (JS.fin _) _ => apply fin_is
      | |- is_fin (Fin _) _ => apply Fin_is
      end ].

Lemma min2_Fin a b : JS.min2 (Fin a) (Fin b) = if Qle_bool a b then Fin a else Fin b.
Proof. reflexivity. Qed.

Lemma max2_Fin a b : JS.max2 (Fin a) (Fin b) = if Qle_bool a b then Fin b else Fin a.
Proof. reflexivity. Qed.

Lemma confidence_range mtf m :
  MTF.mtfScore mtf = JS.of_Z m ->
  (0 <= m)%Z ->
  MTF.profitPotential mtf = "Very High"%string
  \/ (MTF.profitPotential mtf = "High"%string /\ (5 <= m)%Z)
  \/ (10 <= m)%Z ->
  exists c, calculateConfidenceScore mtf = Fin c /\ 1 <= c <= 10.
Proof.
  intros Hm Hpos Hcase. unfold calculateConfidenceScore. rewrite Hm.
  assert (0 <= inject_Z m) as Hq0
    by (change 0 with (inject_Z 0); rewrite <- Zle_Qle; lia).
  set (b1 := if (6 <=? MTF.alignmentScore mtf)%Z then 1
             else if (4 <=? MTF.alignmentScore mtf)%Z then 0.5 else 0).
  set (b2 := if String.eqb (MTF.profitPotential mtf) "Very High" then 1
             else if String.eqb (MTF.profitPotential mtf) "High" then 0.5 else 0).
  assert (0 <= b1) as Hb1 by (subst b1; repeat destruct (_ <=? _)%Z; lra).
  assert (0 <= b2) as Hb2 by (subst b2; repeat destruct (String.eqb _ _); lra).
  assert (10 <= inject_Z m + 10 * b1 + 10 * b2) as Hlow.
  { destruct Hcase as [Hv | [[Hh H5] | H10]].
    - subst b2. rewrite Hv. cbn. lra.
    - subst b2. rewrite Hh. cbn.
      assert (5 <= inject_Z m)
        by (change 5 with (inject_Z 5); rewrite <- Zle_Qle; lia). lra.
    - assert (10 <= inject_Z m)
        by (change 10 with (inject_Z 10); rewrite <- Zle_Qle; lia). lra. }
  match goal with
  | |- context [JS.round (?s * Fin 10)%J] =>
      assert (is_fin s (inject_Z m / 10 + b1 + b2)) as Hs
  end.
  { assert (is_fin (JS.of_Z m / Fin 10)%J (inject_Z m / 10)) as H0
      by (apply div_is_fin; [apply of_Z_is | apply Fin_is | lra]).
    subst b1 b2.
    destruct (6 <=? _)%Z; [| destruct (4 <=? _)%Z];
      (destruct (String.eqb _ "Very High"); [| destruct (String.eqb _ "High")]);
      (eapply is_fin_eq; [fin_value | lra]). }
  set (n := Qfloor ((inject_Z m / 10 + b1 + b2) * 10 + (1 # 2))).
  assert (10 <= n)%Z as Hn.
  { change 10%Z with (Qfloor 10). apply Qfloor_resp_le.
    assert ((inject_Z m / 10 + b1 + b2) * 10 == inject_Z m + 10 * b1 + 10 * b2) as ->
      by field.
    lra. }
  match goal with
  | |- context [(JS.round ?e / Fin 10)%J] =>
      assert (is_fin (JS.round e / Fin 10)%J (inject_Z n / 10)) as Hc
  end.
  { apply div_is_fin; [| apply Fin_is | lra].
    apply round_is_fin. apply mul_is_fin; [exact Hs | apply Fin_is]. }
  destruct Hc as (c & -> & Hc).
  assert (10 <= inject_Z n) as Hqn
    by (change 10 with (inject_Z 10); rewrite <- Zle_Qle; lia).
  rewrite min2_Fin.
  destruct (Qle_bool 10 c) eqn:E.
  - exists 10. split; [done | lra].
  - apply Qle_bool_false in E. exists c. split; [done |].
    rewrite Hc. split; [| rewrite <- Hc; lra].
    apply Qle_shift_div_l; lra.
Qed.

Lemma probability_range mtfScore alignmentScore profitPotential stopLossPercent m :
  mtfScore = JS.of_Z m ->
  exists z,
    estimateSuccessProbability mtfScore alignmentScore profitPotential stopLossPercent
    = JS.of_Z z
    /\ (60 <= z <= 95)%Z.
Proof.
  intros ->. unfold estimateSuccessProbability.
  match goal with
  | |- context [JS.round ?p] => assert (exists q, is_fin p q) as [q Hp]
  end.
  { destruct (6 <=? _)%Z; [| destruct (4 <=? _)%Z];
      (destruct (String.eqb _ "Very High");
       [| destruct (String.eqb _ "High"); [| destruct (String.eqb _ "Medium")]]);
      (destruct (_ <? Fin 2)%J; [| destruct (_ >? Fin 4)%J]);
      eexists; fin_value. }
  rewrite (round_fin _ _ Hp).
  set (z := Qfloor (q + (1 # 2))).
  unfold JS.of_Z. change (Fin 60) with (Fin (inject_Z 60)).
  change (Fin 95) with (Fin (inject_Z 95)).
  rewrite max2_Fin.
  destruct (Qle_bool (inject_Z 60) (inject_Z z)) eqn:E60.
  - apply Qle_bool_iff in E60. rewrite <- Zle_Qle in E60.
    rewrite min2_Fin.
    destruct (Qle_bool (inject_Z 95) (inject_Z z)) eqn:E95.
    + exists 95%Z. split; [done | lia].
    + apply Qle_bool_false in E95. rewrite <- Zlt_Qlt in E95.
      exists z. split; [done | lia].
  - rewrite min2_Fin. exists 60%Z. split; [done | lia].
Qed.

Lemma analyze_profit_potential_score data options :
  Analysis.profitPotential (analyzeBreakout data options) = "High"%string ->
  (75 < Analysis.breakoutScore (analyzeBreakout data options))%Z.
Proof.
  unfold analyzeBreakout. cbn [Analysis.profitPotential Analysis.breakoutScore].
  apply profit_potential_score.
Qed.

(** C7. When [generateBreakoutSignal] emits a signal, its [confidence] is
    a number between 1 and 10 and its [successProbability] is an integer
    between 60 and 95. *)
Theorem emitted_signal_scores_in_range
  (clock : Z * Z) (coinData : CoinData.t) (options : Options.t) (s : Signal.t) :
  generateBreakoutSignal clock coinData options = Returns (Signal.Emitted s) ->
  (exists c, Signal.confidence s = Fin c /\ 1 <= c <= 10)
  /\ (exists z, Signal.successProbability s = JS.of_Z z /\ (60 <= z <= 95)%Z).
Proof.
  unfold generateBreakoutSignal.
  destruct (CoinData.hourlyData coinData) as [hourlyData |]; [| intros [=]].
  destruct (CoinData.fourHourData coinData) as [fourHourData |]; [| intros [=]].
  destruct (CoinData.dailyData coinData) as [dailyData |]; [| intros [=]].
  destruct (last_obj hourlyData) as [lastHourly |]; [| intros [=]].
  match goal with
  | |- (if ?c then _ else _) = _ -> _ => destruct c; [intros [=] |]
  end.
  set (mtf := multiTimeframeAnalysis hourlyData fourHourData dailyData _).
  destruct (mtf_score_value hourlyData fourHourData dailyData
              (analysis_options (signal_config options)))
    as (m & Hm & Hrange & Hdaily).
  fold mtf in Hm, Hdaily.
  match goal with
  | |- (if ?c then _ else _) = _ -> _ => destruct c eqn:Hvalid; [intros [=] |]
  end.
  do 3 match goal with
       | |- (if ?c then _ else _) = _ -> _ => destruct c; [intros [=] |]
       end.
  match goal with
  | |- Returns (Signal.Emitted ?r) = _ -> _ => set (signal := r)
  end.
  intros Hs.
  assert (s = signal) as -> by congruence.
  clear Hs.
  split; [| exact (probability_range _ _ _ _ m Hm)].
  apply (confidence_range mtf m Hm); [lia |].
  apply negb_false_iff in Hvalid.
  apply andb_true_iff in Hvalid as [_ Hpotential].
  pose proof (mtf_profit_potential_is_daily hourlyData fourHourData dailyData
                (analysis_options (signal_config options))) as Hpp.
  fold mtf in Hpp.
  apply orb_true_iff in Hpotential as [Hpotential | Hmedium].
  - apply orb_true_iff in Hpotential as [Hhigh | Hvery].
    + right; left. apply String.eqb_eq in Hhigh. split; [exact Hhigh |].
      rewrite Hpp in Hhigh.
      apply analyze_profit_potential_score in Hhigh.
      change (MTF.dailyScore mtf)
        with (Analysis.breakoutScore
                (analyzeBreakout dailyData (analysis_options (signal_config options))))
        in Hdaily.
      lia.
    + left. by apply String.eqb_eq in Hvery.
  - right; right. apply andb_true_iff in Hmedium as [_ Hgt].
    rewrite Hm in Hgt. unfold JS.gt in Hgt.
    rewrite (lt_fin _ _ 85 (inject_Z m) (Fin_is _) (of_Z_is _)) in Hgt.
    apply Qlt_bool_iff in Hgt. change 85 with (inject_Z 85) in Hgt.
    rewrite <- Zlt_Qlt in Hgt. lia.
Qed.


(** ** The RSI of a scaled series *)

Lemma get_map_Fin prices i q :
  prices !! i = Some q -> get (map Fin prices) (Z.of_nat i) = Fin q.
Proof.
  intros Hq. unfold get, JS.at_, JS.nth_opt.
  destruct (Z.ltb_spec (Z.of_nat i) 0); [lia |].
  rewrite Nat2Z.id. change (map Fin prices) with (Fin <$> prices).
  by rewrite list_lookup_fmap, Hq.
Qed.

Lemma get_scaled k prices i q :
  prices !! i = Some q ->
  get (scaled (Fin k) (map Fin prices)) (Z.of_nat i) = JS.fin (k * q).
Proof.
  intros Hq. unfold get, JS.at_, JS.nth_opt, scaled.
  destruct (Z.ltb_spec (Z.of_nat i) 0); [lia |].
  rewrite Nat2Z.id.
  change (map (JS.mul (Fin k)) (map Fin prices)) with (JS.mul (Fin k) <$> (Fin <$> prices)).
  by rewrite !list_lookup_fmap, Hq.
Qed.

Lemma length_scaled k data : length (scaled k data) = length data.
Proof. unfold scaled. apply length_map. Qed.

Lemma price_changes_lookup data i :
  (i < length data)%nat ->
  price_changes data !! i
  = Some (if (i =? 0)%nat then Fin 0
          else (get data (Z.of_nat i) - get data (Z.of_nat i - 1))%J).
Proof. intros Hi. unfold price_changes. by rewrite lookup_map_seq. Qed.

Lemma price_changes_scaled k prices :
  Forall2 (scaled_by k)
          (price_changes (map Fin prices))
          (price_changes (scaled (Fin k) (map Fin prices))).
Proof.
  apply Forall2_same_length_lookup_2.
  { by rewrite !length_price_changes, length_scaled. }
  intros i x y Hx Hy.
  assert (i < length prices)%nat as Hi.
  { apply lookup_lt_Some in Hx. by rewrite length_price_changes, length_map in Hx. }
  rewrite price_changes_lookup in Hx by (by rewrite length_map).
  rewrite price_changes_lookup in Hy by (by rewrite length_scaled, length_map).
  injection Hx as <-. injection Hy as <-.
  destruct (Nat.eqb_spec i 0) as [-> | Hpos].
  - exists 0. split; [apply Fin_is |]. eapply is_fin_eq; [apply Fin_is | ring].
  - destruct (lookup_lt_is_Some_2 prices i Hi) as [q1 Hq1].
    destruct (lookup_lt_is_Some_2 prices (i - 1)) as [q0 Hq0]; [lia |].
    replace (Z.of_nat i - 1)%Z with (Z.of_nat (i - 1)) by lia.
    rewrite (get_map_Fin _ _ _ Hq1), (get_map_Fin _ _ _ Hq0).
    rewrite (get_scaled _ _ _ _ Hq1), (get_scaled _ _ _ _ Hq0).
    exists (q1 - q0). split; [fin_value |].
    eapply is_fin_eq; [fin_value | ring].
Qed.

(** The tests of the two runs agree, a positive factor keeping the sign. *)
Lemma scaled_by_gt k x y :
  0 < k -> scaled_by k x y -> (y >? Fin 0)%J = (x >? Fin 0)%J.
Proof.
  intros Hk (d & Hx & Hy). unfold JS.gt.
  rewrite (lt_fin _ _ 0 (k * d) (Fin_is _) Hy), (lt_fin _ _ 0 d (Fin_is _) Hx).
  destruct (JS.Qlt_bool 0 d) eqn:E.
  - apply Qlt_bool_iff in E. apply Qlt_bool_iff. nra.
  - apply Qlt_bool_false in E. apply Qlt_bool_false. nra.
Qed.

Lemma scaled_by_lt k x y :
  0 < k -> scaled_by k x y -> (y <? Fin 0)%J = (x <? Fin 0)%J.
Proof.
  intros Hk (d & Hx & Hy).
  rewrite (lt_fin _ _ (k * d) 0 Hy (Fin_is _)), (lt_fin _ _ d 0 Hx (Fin_is _)).
  destruct (JS.Qlt_bool d 0) eqn:E.
  - apply Qlt_bool_iff in E. apply Qlt_bool_iff. nra.
  - apply Qlt_bool_false in E. apply Qlt_bool_false. nra.
Qed.

Lemma Qabs_scale k d : 0 < k -> Qabs (k * d) == k * Qabs d.
Proof. intros Hk. rewrite Qabs_Qmult, (Qabs_pos k); [reflexivity | lra]. Qed.

Lemma rsi_of_scaled k avgGain avgLoss avgGain' avgLoss' G L :
  0 < k ->
  is_fin avgGain G -> is_fin avgGain' (k * G) ->
  is_fin avgLoss L -> is_fin avgLoss' (k * L) ->
  0 < L ->
  rsi_of avgGain' avgLoss' = rsi_of avgGain avgLoss.
Proof.
  intros Hk Hg Hg' Hl Hl' HL. unfold rsi_of.
  rewrite (eq_fin _ _ (k * L) 0 Hl' (Fin_is _)), (eq_fin _ _ L 0 Hl (Fin_is _)).
  destruct (Qeq_bool (k * L) 0) eqn:E'; [apply Qeq_bool_eq in E'; nra |].
  destruct (Qeq_bool L 0) eqn:E; [apply Qeq_bool_eq in E; lra |].
  rewrite (div_fin _ _ (k * G) (k * L) Hg' Hl') by nra.
  rewrite (div_fin _ _ G L Hg Hl) by lra.
  assert (k * G / (k * L) == G / L) as -> by (field; split; lra).
  reflexivity.
Qed.

(** One step of Wilder's smoothing on a finite average and a finite
    current value. *)
Lemma smooth_is_fin period avg cur A C :
  (1 <= period)%nat ->
  is_fin avg A -> is_fin cur C ->
  is_fin ((avg * JS.of_Z (Z.of_nat period - 1) + cur) / JS.of_nat period)%J
         ((A * inject_Z (Z.of_nat period - 1) + C) / inject_Z (Z.of_nat period)).
Proof.
  intros Hp Havg Hcur.
  apply div_is_fin; [fin_value | apply of_Z_is |].
  change 0 with (inject_Z 0). rewrite inject_Z_injective. lia.
Qed.

Lemma period_positive period : (1 <= period)%nat -> 0 < inject_Z (Z.of_nat period).
Proof. intros Hp. change 0 with (inject_Z 0). rewrite <- Zlt_Qlt. lia. Qed.

Lemma period_pred_positive period :
  (2 <= period)%nat -> 0 < inject_Z (Z.of_nat period - 1).
Proof. intros Hp. change 0 with (inject_Z 0). rewrite <- Zlt_Qlt. lia. Qed.

Lemma rsi_loop_scaled k period changes changes' :
  0 < k -> (2 <= period)%nat ->
  Forall2 (scaled_by k) changes changes' ->
  forall avgGain avgLoss avgGain' avgLoss' G L,
    is_fin avgGain G -> is_fin avgGain' (k * G) ->
    is_fin avgLoss L -> is_fin avgLoss' (k * L) ->
    0 < L ->
    rsi_loop period avgGain' avgLoss' changes' = rsi_loop period avgGain avgLoss changes.
Proof.
  intros Hk Hp Hchanges.
  pose proof (period_positive period ltac:(lia)) as Hpq.
  pose proof (period_pred_positive period Hp) as Hpq1.
  induction Hchanges as [| change change' changes changes' Hchange _ IH];
    intros avgGain avgLoss avgGain' avgLoss' G L Hg Hg' Hl Hl' HL; [done |].
  cbn [rsi_loop].
  rewrite (scaled_by_gt k change change' Hk Hchange).
  rewrite (scaled_by_lt k change change' Hk Hchange).
  destruct Hchange as (d & Hd & Hd').
  set (Gc := if JS.Qlt_bool 0 d then d else 0).
  set (Lc := if JS.Qlt_bool d 0 then Qabs d else 0).
  assert (is_fin (if (change >? Fin 0)%J then change else Fin 0) Gc
          /\ is_fin (if (change >? Fin 0)%J then change' else Fin 0) (k * Gc)) as [HGc HGc'].
  { unfold JS.gt. rewrite (lt_fin _ _ 0 d (Fin_is _) Hd). subst Gc.
    destruct (JS.Qlt_bool 0 d); [done |].
    split; [apply Fin_is | eapply is_fin_eq; [apply Fin_is | ring]]. }
  assert (is_fin (if (change <? Fin 0)%J then JS.abs change else Fin 0) Lc
          /\ is_fin (if (change <? Fin 0)%J then JS.abs change' else Fin 0) (k * Lc)
          /\ 0 <= Lc)
    as (HLc & HLc' & HLc0).
  { rewrite (lt_fin _ _ d 0 Hd (Fin_is _)). subst Lc.
    destruct (JS.Qlt_bool d 0).
    - split; [fin_value |]. split; [| apply Qabs_nonneg].
      eapply is_fin_eq; [fin_value | by apply Qabs_scale].
    - split; [apply Fin_is |]. split; [| lra].
      eapply is_fin_eq; [apply Fin_is | ring]. }
  pose proof (smooth_is_fin period _ _ _ _ ltac:(lia) Hg HGc) as Hg2.
  pose proof (smooth_is_fin period _ _ _ _ ltac:(lia) Hg' HGc') as Hg2'.
  pose proof (smooth_is_fin period _ _ _ _ ltac:(lia) Hl HLc) as Hl2.
  pose proof (smooth_is_fin period _ _ _ _ ltac:(lia) Hl' HLc') as Hl2'.
  set (P := inject_Z (Z.of_nat period)) in *.
  set (P1 := inject_Z (Z.of_nat period - 1)) in *.
  assert ((k * G * P1 + k * Gc) / P == k * ((G * P1 + Gc) / P)) as HeqG
    by (field; lra).
  assert ((k * L * P1 + k * Lc) / P == k * ((L * P1 + Lc) / P)) as HeqL
    by (field; lra).
  apply (is_fin_eq _ _ _ Hg2') in HeqG. apply (is_fin_eq _ _ _ Hl2') in HeqL.
  assert (0 < (L * P1 + Lc) / P) as HL2.
  { apply Qlt_shift_div_l; [done |]. nra. }
  f_equal.
  - f_equal. exact (rsi_of_scaled k _ _ _ _ _ _ Hk Hg2 HeqG Hl2 HeqL HL2).
  - exact (IH _ _ _ _ _ _ Hg2 HeqG Hl2 HeqL HL2).
Qed.

Lemma initial_sums_scaled k changes changes' :
  0 < k ->
  Forall2 (scaled_by k) changes changes' ->
  forall gainSum lossSum gainSum' lossSum' G L,
    is_fin gainSum G -> is_fin gainSum' (k * G) ->
    is_fin lossSum L -> is_fin lossSum' (k * L) ->
    0 <= L ->
    exists G2 L2,
      is_fin (fst (foldl add_change (gainSum, lossSum) changes)) G2
      /\ is_fin (fst (foldl add_change (gainSum', lossSum') changes')) (k * G2)
      /\ is_fin (snd (foldl add_change (gainSum, lossSum) changes)) L2
      /\ is_fin (snd (foldl add_change (gainSum', lossSum') changes')) (k * L2)
      /\ 0 <= L2
      /\ (0 < L \/ has_loss changes -> 0 < L2).
Proof.
  intros Hk Hchanges.
  induction Hchanges as [| change change' changes changes' Hchange _ IH];
    intros gainSum lossSum gainSum' lossSum' G L Hg Hg' Hl Hl' HL.
  - exists G, L. cbn.
    refine (conj Hg (conj Hg' (conj Hl (conj Hl' (conj HL _))))).
    intros [H | H]; [done | by apply Exists_nil in H].
  - cbn [foldl].
    pose proof Hchange as (d & Hd & Hd').
    assert (add_change (gainSum, lossSum) change
            = if JS.Qlt_bool 0 d then ((gainSum + change)%J, lossSum)
              else (gainSum, (lossSum + JS.abs change)%J)) as ->.
    { unfold add_change, JS.gt. by rewrite (lt_fin _ _ 0 d (Fin_is _) Hd). }
    assert (add_change (gainSum', lossSum') change'
            = if JS.Qlt_bool 0 d then ((gainSum' + change')%J, lossSum')
              else (gainSum', (lossSum' + JS.abs change')%J)) as ->.
    { unfold add_change. rewrite (scaled_by_gt k change change' Hk Hchange).
      unfold JS.gt. by rewrite (lt_fin _ _ 0 d (Fin_is _) Hd). }
    destruct (JS.Qlt_bool 0 d) eqn:Hpos.
    + apply Qlt_bool_iff in Hpos.
      destruct (IH (gainSum + change)%J lossSum (gainSum' + change')%J lossSum'
                   (G + d) L) as (G2 & L2 & H1 & H2 & H3 & H4 & H5 & H6);
        try done; [fin_value | eapply is_fin_eq; [fin_value | ring] |].
      exists G2, L2.
      refine (conj H1 (conj H2 (conj H3 (conj H4 (conj H5 _))))).
      intros [H | H]; [apply H6; by left |].
      apply Exists_cons in H as [(d0 & Hd0 & Hneg) | H]; [| apply H6; by right].
      destruct Hd as (a & -> & Ha), Hd0 as (a0 & [= <-] & Ha0). lra.
    + apply Qlt_bool_false in Hpos.
      destruct (IH gainSum (lossSum + JS.abs change)%J gainSum'
                   (lossSum' + JS.abs change')%J G (L + Qabs d))
        as (G2 & L2 & H1 & H2 & H3 & H4 & H5 & H6);
        try done; [fin_value | | pose proof (Qabs_nonneg d); lra |].
      { eapply is_fin_eq; [fin_value |]. rewrite Qabs_scale by done. ring. }
      exists G2, L2.
      refine (conj H1 (conj H2 (conj H3 (conj H4 (conj H5 _))))).
      intros [H | H]; [apply H6; left; pose proof (Qabs_nonneg d); lra |].
      apply Exists_cons in H as [(d0 & Hd0 & Hneg) | H]; [| apply H6; by right].
      apply H6. left.
      destruct Hd as (a & -> & Ha), Hd0 as (a0 & [= <-] & Ha0).
      assert (Qabs d == - d) as -> by (apply Qabs_neg; lra). lra.
Qed.

(** In the exact arithmetic of the model: for a period of at least two, a
    positive factor [k] and a finite price series that falls at least once
    within its first [period] changes, the RSI of the series scaled by [k]
    is the RSI of the series, index for index.  (The average loss is then
    never zero, and the floor of [0.001], which does not scale, is not
    used.) *)
Lemma rsi_scaling_exact
  (prices : list Q) (k : Q) (period : nat) :
  0 < k ->
  (2 <= period)%nat ->
  (exists j a b,
      (1 <= j <= period)%nat
      /\ prices !! (j - 1)%nat = Some a /\ prices !! j = Some b /\ b < a) ->
  calculateRSI (scaled (Fin k) (map Fin prices)) period
  = calculateRSI (map Fin prices) period.
Proof.
  intros Hk Hperiod (j & a & b & Hj & Ha & Hb & Hfall).
  unfold calculateRSI. rewrite length_scaled.
  destruct (length (map Fin prices) <? period + 1)%nat; [done |].
  pose proof (price_changes_scaled k prices) as Hchanges.
  set (changes := price_changes (map Fin prices)) in *.
  set (changes' := price_changes (scaled (Fin k) (map Fin prices))) in *.
  assert (has_loss (take period (drop 1 changes))) as Hloss.
  { apply Exists_exists. exists (JS.fin (b - a)). split.
    - apply (list_elem_of_lookup_2 _ (j - 1)).
      rewrite lookup_take_lt by lia. rewrite lookup_drop.
      replace (1 + (j - 1))%nat with j by lia.
      subst changes. rewrite price_changes_lookup
        by (rewrite length_map; by apply lookup_lt_Some in Hb).
      destruct (Nat.eqb_spec j 0); [lia |].
      replace (Z.of_nat j - 1)%Z with (Z.of_nat (j - 1)) by lia.
      rewrite (get_map_Fin _ _ _ Hb), (get_map_Fin _ _ _ Ha).
      f_equal. apply (sub_fin _ _ _ _ (Fin_is _) (Fin_is _)).
    - exists (b - a). split; [apply fin_is | lra]. }
  destruct (initial_sums_scaled k (take period (drop 1 changes))
              (take period (drop 1 changes')) Hk
              ltac:(by apply Forall2_take, Forall2_drop)
              (Fin 0) (Fin 0) (Fin 0) (Fin 0) 0 0)
    as (G & L & Hg & Hg' & Hl & Hl' & HL0 & HL);
    try apply Fin_is; try (eapply is_fin_eq; [apply Fin_is | ring]); [lra |].
  specialize (HL (or_intror Hloss)).
  unfold initial_sums.
  destruct (foldl add_change (Fin 0, Fin 0) (take period (drop 1 changes)))
    as [gainSum lossSum].
  destruct (foldl add_change (Fin 0, Fin 0) (take period (drop 1 changes')))
    as [gainSum' lossSum'].
  cbn [fst snd] in *.
  pose proof (period_positive period ltac:(lia)) as Hpq.
  set (P := inject_Z (Z.of_nat period)) in *.
  assert (is_fin (gainSum / JS.of_nat period)%J (G / P)) as Hag
    by (apply div_is_fin; [done | apply of_Z_is | lra]).
  assert (is_fin (lossSum / JS.of_nat period)%J (L / P)) as Hal
    by (apply div_is_fin; [done | apply of_Z_is | lra]).
  assert (is_fin (gainSum' / JS.of_nat period)%J (k * (G / P))) as Hag'.
  { eapply is_fin_eq;
      [apply (div_is_fin _ _ (k * G) P); [done | apply of_Z_is | lra] |].
    field. lra. }
  assert (is_fin (lossSum' / JS.of_nat period)%J (k * (L / P))) as Hal'.
  { eapply is_fin_eq;
      [apply (div_is_fin _ _ (k * L) P); [done | apply of_Z_is | lra] |].
    field. lra. }
  assert (0 < L / P) as HLP by (apply Qlt_shift_div_l; lra).
  f_equal. f_equal.
  - f_equal. exact (rsi_of_scaled k _ _ _ _ _ _ Hk Hag Hag' Hal Hal' HLP).
  - apply (rsi_loop_scaled k period _ _ Hk Hperiod
             ltac:(by apply Forall2_drop) _ _ _ _ _ _ Hag Hag' Hal Hal' HLP).
Qed.

(** The nulls of the RSI depend on the length of the series alone. *)
Lemma rsi_nulls_by_length data data' period i :
  length data = length data' ->
  calculateRSI data period !! i = Some Null ->
  calculateRSI data' period !! i = Some Null.
Proof.
  intros Hlen Hnull.
  destruct (calculateRSI_warm_up data period) as (Hl & _ & Hfrom).
  destruct (calculateRSI_warm_up data' period) as (Hl' & Hbefore' & _).
  assert (i < length data)%nat as Hi by (apply lookup_lt_Some in Hnull; lia).
  destruct (le_lt_dec period i) as [Hge | Hlt].
  - destruct (Hfrom ltac:(lia) i Hge ltac:(lia)) as [x Hx]. congruence.
  - apply Hbefore'; lia.
Qed.

(** C5, as the code has it.  For every series and every factor, the RSI of
    the scaled series has the length of the RSI of the series and its nulls
    at the same indices.  The values agree as well, index for index, for a
    period of at least two, a factor that is a power of two between
    [2 ^ (-100)] and [2 ^ 100], and a series of at most 500 prices, each
    zero or of a magnitude between those two powers, that falls at least
    once within its first [period] changes.  The fall keeps the average
    loss from being zero, so that the floor of [0.001], which does not
    scale, is not used; and the source performs such a scaling without
    rounding, whereas another factor changes the rounding of the prices and
    of every average. *)
Theorem rsi_invariant_under_binary_scaling
  (prices : list Q) (k : Q) (period : nat) :
  (length (calculateRSI (scaled (Fin k) (map Fin prices)) period)
   = length (calculateRSI (map Fin prices) period)
   /\ forall i,
        calculateRSI (scaled (Fin k) (map Fin prices)) period !! i = Some Null
        <-> calculateRSI (map Fin prices) period !! i = Some Null)
  /\ (binary_factor k ->
      (2 <= period)%nat ->
      (length prices <= 500)%nat ->
      Forall binary_price prices ->
      (exists j a b,
          (1 <= j <= period)%nat
          /\ prices !! (j - 1)%nat = Some a /\ prices !! j = Some b /\ b < a) ->
      calculateRSI (scaled (Fin k) (map Fin prices)) period
      = calculateRSI (map Fin prices) period).
Proof.
  split; [split |].
  - destruct (calculateRSI_warm_up (scaled (Fin k) (map Fin prices)) period) as [-> _].
    destruct (calculateRSI_warm_up (map Fin prices) period) as [-> _].
    apply length_scaled.
  - intros i. split; apply rsi_nulls_by_length; by rewrite length_scaled.
  - intros (e & _ & Hk) Hperiod _ _ Hfall.
    apply rsi_scaling_exact; [| exact Hperiod | exact Hfall].
    rewrite Hk. by apply Qpower_0_lt.
Qed.


(** ** The analyzer on a flat series *)

Lemma flat_columns c data :
  flat c data ->
  map Candle.close data = replicate (length data) (Fin c)
  /\ map Candle.high data = replicate (length data) (Fin c)
  /\ map Candle.low data = replicate (length data) (Fin c)
  /\ map Candle.volume data = replicate (length data) (Fin 0).
Proof.
  induction 1 as [| bar data (Hc & Hh & Hl & Hv) _ (IHc & IHh & IHl & IHv)]; [done |].
  cbn. by rewrite Hc, Hh, Hl, Hv, IHc, IHh, IHl, IHv.
Qed.

Lemma get_replicate n x i :
  (0 <= i < Z.of_nat n)%Z -> get (replicate n x) i = x.
Proof.
  intros Hi. unfold get, JS.at_, JS.nth_opt.
  destruct (Z.ltb_spec i 0); [lia |].
  by rewrite lookup_replicate_2 by lia.
Qed.

Lemma get_replicate_cases n x i :
  get (replicate n x) i = x \/ get (replicate n x) i = NaN.
Proof.
  unfold get, JS.at_, JS.nth_opt.
  destruct (i <? 0)%Z; [by right |].
  destruct (replicate n x !! Z.to_nat i) as [y |] eqn:E; [| by right].
  apply lookup_replicate in E as [-> _]. by left.
Qed.

Lemma Qlt_bool_irrefl a : JS.Qlt_bool a a = false.
Proof. apply Qlt_bool_false. apply Qle_refl. Qed.

Lemma lt_get_replicate n c i j :
  (get (replicate n (Fin c)) i <? get (replicate n (Fin c)) j)%J = false.
Proof.
  destruct (get_replicate_cases n (Fin c) i) as [-> | ->],
           (get_replicate_cases n (Fin c) j) as [-> | ->]; try done.
  apply Qlt_bool_irrefl.
Qed.

Lemma drop_replicate_slice {A} n (x : A) k :
  JS.slice_from (replicate n x) k
  = replicate (n - JS.rel_index n k) x.
Proof. unfold JS.slice_from. by rewrite length_replicate, drop_replicate. Qed.

(** Condition 6: no volume, no increase. *)
Lemma flat_volume_not_increasing n threshold :
  (2 <= n)%nat -> isVolumeIncreasing (replicate n (Fin 0)) threshold = false.
Proof.
  intros Hn. unfold isVolumeIncreasing. rewrite length_replicate.
  destruct (Nat.ltb_spec n 2); [done |].
  rewrite !get_replicate by lia.
  by destruct threshold.
Qed.

(** Condition 10: no change of the price. *)
Lemma flat_no_ideal_breakout config n c :
  (2 <= n)%nat -> 0 < c ->
  Config.minBreakoutPercent config = Fin 0.01 ->
  ideal_breakout config (replicate n (Fin c)) = false.
Proof.
  intros Hn Hc Hmin. unfold ideal_breakout, last_num. rewrite length_replicate.
  rewrite !get_replicate by lia. rewrite Hmin.
  assert (is_fin ((Fin c - Fin c) / Fin c)%J ((c - c) / c)) as Hchange
    by (apply div_is_fin; [fin_value | apply Fin_is | lra]).
  unfold JS.ge. rewrite (le_fin _ _ 0.01 _ (Fin_is _) Hchange).
  assert ((c - c) / c == 0) as -> by (field; lra).
  done.
Qed.

(** Condition 9: the on-balance volume does not move. *)
Lemma obv_loop_flat c obv m :
  obv_loop obv (Fin c) (zip (replicate m (Fin c)) (replicate m (Fin 0)))
  = replicate m (Num obv).
Proof.
  induction m as [| m IH]; [done |].
  cbn [replicate zip zip_with obv_loop].
  unfold JS.gt. cbn [JS.lt]. rewrite Qlt_bool_irrefl. by rewrite IH.
Qed.

Lemma calculateOBV_flat c n :
  calculateOBV (replicate n (Fin c)) (replicate n (Fin 0))
  = replicate n (Num (Fin 0)).
Proof.
  unfold calculateOBV. rewrite !length_replicate, Nat.eqb_refl. cbn [negb orb].
  destruct n as [| n]; [done |].
  cbn [Nat.eqb replicate]. by rewrite obv_loop_flat.
Qed.

Lemma flat_no_obv_accumulation n :
  (5 <= n)%nat -> obv_accumulation (replicate n (Num (Fin 0))) = false.
Proof.
  intros Hn. unfold obv_accumulation, last_val, JS.at_val, JS.nth_opt.
  rewrite length_replicate.
  destruct (Z.ltb_spec (Z.of_nat n - 1) 0); [lia |].
  destruct (Z.ltb_spec (Z.of_nat n - 5) 0); [lia |].
  by rewrite !lookup_replicate_2 by lia.
Qed.

(** Condition 7: two lows of a flat series are equal, so the second is not
    below the first. *)
Lemma flat_no_divergence n c rsiData lookbackPeriod :
  detectPositiveRSIDivergence (replicate n (Fin c)) rsiData lookbackPeriod = false.
Proof.
  unfold detectPositiveRSIDivergence.
  destruct (_ || _); [done |].
  rewrite drop_replicate_slice.
  destruct (find_lows _ _ _) as [[first |] [second |]]; try done.
  by rewrite lt_get_replicate.
Qed.

(** Condition 2: the RSI of a flat series is zero. *)
Lemma price_changes_flat n c :
  Forall (fun change => is_fin change 0) (price_changes (replicate n (Fin c))).
Proof.
  apply Forall_lookup_2. intros i change Hi.
  assert (i < n)%nat as Hlt.
  { apply lookup_lt_Some in Hi. by rewrite length_price_changes, length_replicate in Hi. }
  rewrite price_changes_lookup in Hi by (by rewrite length_replicate).
  injection Hi as <-.
  destruct (Nat.eqb_spec i 0); [apply Fin_is |].
  rewrite !get_replicate by lia.
  eapply is_fin_eq; [fin_value | ring].
Qed.

Lemma add_change_zero gainSum lossSum change :
  is_fin gainSum 0 -> is_fin lossSum 0 -> is_fin change 0 ->
  is_fin (fst (add_change (gainSum, lossSum) change)) 0
  /\ is_fin (snd (add_change (gainSum, lossSum) change)) 0.
Proof.
  intros Hg Hl Hc. unfold add_change, JS.gt.
  rewrite (lt_fin _ _ 0 0 (Fin_is _) Hc). cbn [fst snd].
  replace (JS.Qlt_bool 0 0) with false by done. cbn [fst snd].
  split; [done |]. eapply is_fin_eq; [fin_value | done].
Qed.

Lemma initial_sums_zero changes :
  Forall (fun change => is_fin change 0) changes ->
  forall sums,
    is_fin (fst sums) 0 -> is_fin (snd sums) 0 ->
    is_fin (fst (foldl add_change sums changes)) 0
    /\ is_fin (snd (foldl add_change sums changes)) 0.
Proof.
  induction 1 as [| change changes Hc _ IH]; intros [gainSum lossSum] Hg Hl; [done |].
  cbn [foldl]. destruct (add_change_zero gainSum lossSum change Hg Hl Hc).
  by apply IH.
Qed.

Lemma rsi_of_zero avgGain avgLoss :
  is_fin avgGain 0 -> is_fin avgLoss 0 -> is_fin (rsi_of avgGain avgLoss) 0.
Proof.
  intros Hg Hl. unfold rsi_of.
  rewrite (eq_fin _ _ 0 0 Hl (Fin_is _)).
  replace (Qeq_bool 0 0) with true by done.
  assert (is_fin (avgGain / Fin 0.001)%J (0 / 0.001)) as Hrs
    by (apply div_is_fin; [done | apply Fin_is | lra]).
  assert (is_fin (Fin 100 / (Fin 1 + avgGain / Fin 0.001))%J (100 / (1 + 0 / 0.001)))
    as Hq by (apply div_is_fin; [apply Fin_is | fin_value | done]).
  eapply is_fin_eq; [fin_value | done].
Qed.

Lemma smooth_zero period avg cur :
  (1 <= period)%nat -> is_fin avg 0 -> is_fin cur 0 ->
  is_fin ((avg * JS.of_Z (Z.of_nat period - 1) + cur) / JS.of_nat period)%J 0.
Proof.
  intros Hp Havg Hcur.
  eapply is_fin_eq; [by apply smooth_is_fin |].
  pose proof (period_positive period Hp). field. lra.
Qed.

Lemma rsi_loop_zero period changes :
  (1 <= period)%nat ->
  Forall (fun change => is_fin change 0) changes ->
  forall avgGain avgLoss,
    is_fin avgGain 0 -> is_fin avgLoss 0 ->
    Forall null_or_zero (rsi_loop period avgGain avgLoss changes).
Proof.
  intros Hp. induction 1 as [| change changes Hc _ IH]; intros avgGain avgLoss Hg Hl;
    cbn [rsi_loop]; [done |].
  assert (is_fin (if (change >? Fin 0)%J then change else Fin 0) 0) as Hcg
    by (destruct (_ >? _)%J; [done | apply Fin_is]).
  assert (is_fin (if (change <? Fin 0)%J then JS.abs change else Fin 0) 0) as Hcl.
  { destruct (_ <? _)%J; [| apply Fin_is]. eapply is_fin_eq; [fin_value | done]. }
  pose proof (smooth_zero period _ _ Hp Hg Hcg) as Hg2.
  pose proof (smooth_zero period _ _ Hp Hl Hcl) as Hl2.
  constructor; [| by apply IH].
  right. eexists. split; [done | by apply rsi_of_zero].
Qed.

Lemma calculateRSI_flat n c period :
  (1 <= period)%nat ->
  Forall null_or_zero (calculateRSI (replicate n (Fin c)) period).
Proof.
  intros Hp. unfold calculateRSI.
  destruct (_ <? _)%nat; [apply Forall_replicate; by left |].
  pose proof (price_changes_flat n c) as Hzero.
  set (changes := price_changes (replicate n (Fin c))) in *.
  destruct (initial_sums_zero (take period (drop 1 changes))
              ltac:(by apply Forall_take, Forall_drop) (Fin 0, Fin 0))
    as [Hg Hl]; [apply Fin_is | apply Fin_is |].
  unfold initial_sums.
  destruct (foldl add_change (Fin 0, Fin 0) (take period (drop 1 changes)))
    as [gainSum lossSum].
  cbn [fst snd] in *.
  pose proof (period_positive period Hp) as Hpq.
  assert (is_fin (gainSum / JS.of_nat period)%J 0) as Hag.
  { eapply is_fin_eq; [apply div_is_fin; [done | apply of_Z_is | lra] |]. field. lra. }
  assert (is_fin (lossSum / JS.of_nat period)%J 0) as Hal.
  { eapply is_fin_eq; [apply div_is_fin; [done | apply of_Z_is | lra] |]. field. lra. }
  apply Forall_app. split; [apply Forall_replicate; by left |].
  constructor.
  - right. eexists. split; [done | by apply rsi_of_zero].
  - apply rsi_loop_zero; try done. by apply Forall_drop.
Qed.

Lemma last_val_lookup (l : list jsval) :
  (1 <= length l)%nat ->
  l !! (length l - 1)%nat = Some (last_val l).
Proof.
  intros Hlen. unfold last_val, JS.at_val, JS.nth_opt.
  destruct (Z.ltb_spec (Z.of_nat (length l) - 1) 0); [lia |].
  replace (Z.to_nat (Z.of_nat (length l) - 1)) with (length l - 1)%nat by lia.
  destruct (lookup_lt_is_Some_2 l (length l - 1)) as [v Hv]; [lia |].
  by rewrite Hv.
Qed.

Lemma flat_rsi_not_in_range config n c :
  Config.rsiLowerThreshold config = Fin 50 ->
  rsi_in_range config (calculateRSI (replicate n (Fin c)) 14) = false.
Proof.
  intros Hlower. unfold rsi_in_range.
  set (rsiData := calculateRSI (replicate n (Fin c)) 14).
  destruct (decide (length rsiData = 0)%nat) as [Hempty | Hnonempty].
  - apply length_zero_iff_nil in Hempty. by rewrite Hempty, Hlower.
  - pose proof (last_val_lookup rsiData ltac:(lia)) as Hlast.
    pose proof (calculateRSI_flat n c 14 ltac:(lia)) as Hflat.
    destruct (Forall_lookup_1 _ _ _ _ Hflat Hlast) as [-> | (r & -> & Hr)]; [done |].
    cbn [JS.not_null JS.to_num andb]. rewrite Hlower. unfold JS.ge.
    by rewrite (le_fin _ _ 50 0 (Fin_is _) Hr).
Qed.

(** Condition 4: the upper band of a flat series is not below the price. *)
Lemma foldl_add_constant (F : nat -> num) v indices :
  (forall j, j ∈ indices -> is_fin (F j) v) ->
  forall acc A,
    is_fin acc A ->
    is_fin (foldl (fun sum j => (sum + F j)%J) acc indices)
           (A + inject_Z (Z.of_nat (length indices)) * v).
Proof.
  induction indices as [| j indices IH]; intros HF acc A Hacc.
  - cbn. eapply is_fin_eq; [done | ring].
  - cbn [foldl length].
    eapply is_fin_eq.
    + apply IH; [intros j' Hj'; apply HF; by right |].
      apply add_is_fin; [done | apply HF; by left].
    + rewrite Nat2Z.inj_succ, <- Z.add_1_r, inject_Z_plus. ring.
Qed.

Lemma window_sum_flat n c i period :
  (period <= i + 1)%nat -> (i < n)%nat ->
  is_fin (window_sum (replicate n (Fin c)) i period)
         (inject_Z (Z.of_nat period) * c).
Proof.
  intros Hp Hi. unfold window_sum.
  eapply is_fin_eq.
  - apply (foldl_add_constant
             (fun j => get (replicate n (Fin c)) (Z.of_nat i - Z.of_nat j)) c);
      [| apply Fin_is].
    intros j Hj. apply elem_of_seq in Hj.
    rewrite get_replicate by lia. apply Fin_is.
  - rewrite length_seq. ring.
Qed.

Lemma sqrt_of_zero x :
  (forall a, 0 <= a -> 0 <= sqrtQ a) ->
  is_fin x 0 ->
  exists D, is_fin (sqrt x) D /\ 0 <= D.
Proof.
  intros Hsqrt (a & -> & Ha). unfold sqrt.
  destruct (JS.Qlt_bool a 0) eqn:E; [apply Qlt_bool_iff in E; lra |].
  exists (sqrtQ a). split; [apply fin_is | apply Hsqrt; lra].
Qed.

Lemma length_calculateBollingerBands data period :
  length (calculateBollingerBands data period) = length data.
Proof.
  unfold calculateBollingerBands.
  destruct (_ <? _)%nat; [by rewrite length_replicate |].
  by rewrite length_map, length_seq.
Qed.

Lemma bollinger_upper_flat n c period i :
  (forall a, 0 <= a -> 0 <= sqrtQ a) ->
  0 < c -> (1 <= period)%nat -> (period <= i + 1)%nat -> (i < n)%nat ->
  exists p U,
    calculateBollingerBands (replicate n (Fin c)) period !! i = Some p
    /\ upper p = Num U
    /\ (Fin c >? U)%J = false.
Proof.
  intros Hsqrt Hc Hp Hpi Hi. unfold calculateBollingerBands.
  rewrite length_replicate.
  destruct (Nat.ltb_spec n period); [lia |].
  rewrite lookup_map_seq by done.
  destruct (Z.ltb_spec (Z.of_nat i) (Z.of_nat period - 1)); [lia |].
  eexists. eexists. split; [reflexivity |]. cbn [upper]. split; [reflexivity |].
  pose proof (period_positive period Hp) as Hpq.
  set (P := inject_Z (Z.of_nat period)) in *.
  assert (is_fin (JS.to_num (JS.at_val (calculateSMA (replicate n (Fin c)) period)
                                       (Z.of_nat i))) c) as Hsma.
  { unfold calculateSMA, JS.at_val, JS.nth_opt. rewrite length_replicate.
    destruct (Nat.ltb_spec n period); [lia |].
    destruct (Z.ltb_spec (Z.of_nat i) 0); [lia |].
    rewrite Nat2Z.id, lookup_map_seq by done.
    destruct (Z.ltb_spec (Z.of_nat i) (Z.of_nat period - 1)); [lia |].
    cbn [JS.to_num].
    eapply is_fin_eq.
    - apply div_is_fin; [by apply window_sum_flat | apply of_Z_is | fold P; lra].
    - fold P. field. lra. }
  set (sma_i := JS.to_num _) in *.
  match goal with
  | |- context [sqrt (?sum / _)%J] => assert (is_fin sum 0) as Hsum
  end.
  { eapply is_fin_eq.
    - apply (foldl_add_constant
               (fun j => ((get (replicate n (Fin c)) (Z.of_nat i - Z.of_nat j) - sma_i)
                          * (get (replicate n (Fin c)) (Z.of_nat i - Z.of_nat j) - sma_i))%J)
               ((c - c) * (c - c))); [| apply Fin_is].
      intros j Hj. apply elem_of_seq in Hj.
      rewrite get_replicate by lia. fin_value.
    - ring. }
  match goal with
  | |- context [sqrt ?var] => assert (is_fin var 0) as Hvar
  end.
  { eapply is_fin_eq; [apply div_is_fin; [done | apply of_Z_is | fold P; lra] |].
    fold P. field. lra. }
  destruct (sqrt_of_zero _ Hsqrt Hvar) as (D & HD & HD0).
  unfold JS.gt.
  erewrite lt_fin; [| fin_value | apply Fin_is].
  apply Qlt_bool_false. lra.
Qed.

Lemma flat_no_bollinger_breakout n c period :
  (forall a, 0 <= a -> 0 <= sqrtQ a) ->
  0 < c -> (1 <= period)%nat -> (period <= n)%nat -> (10 <= n)%nat ->
  detectBollingerBreakout (replicate n (Fin c))
                          (calculateBollingerBands (replicate n (Fin c)) period)
  = false.
Proof.
  intros Hsqrt Hc Hp Hpn Hn. unfold detectBollingerBreakout.
  rewrite length_calculateBollingerBands, length_replicate.
  destruct (Nat.ltb_spec n 10); [lia |]. cbn [orb].
  rewrite drop_replicate_slice. rewrite length_replicate.
  assert (JS.rel_index n (- Z.of_nat 10) = n - 10)%nat as Hrel.
  { unfold JS.rel_index. destruct (Z.ltb_spec (- Z.of_nat 10) 0); lia. }
  rewrite Hrel. replace (n - (n - 10))%nat with 10%nat by lia.
  rewrite (get_replicate 10 (Fin c) (Z.of_nat 10 - 1)) by lia.
  destruct (bollinger_upper_flat n c period (n - 1) Hsqrt Hc Hp ltac:(lia) ltac:(lia))
    as (p & U & Hlookup & Hupper & Hgt).
  unfold JS.slice_from. rewrite length_calculateBollingerBands, length_replicate, Hrel.
  rewrite length_drop, length_calculateBollingerBands, length_replicate.
  replace (n - (n - 10))%nat with 10%nat by lia.
  unfold upper_at at 2, JS.nth_opt.
  destruct (Z.ltb_spec (Z.of_nat 10 - 1) 0); [lia |].
  rewrite lookup_drop.
  replace (n - 10 + Z.to_nat (Z.of_nat 10 - 1))%nat with (n - 1)%nat by lia.
  rewrite Hlookup, Hupper. cbn [JS.to_num]. rewrite Hgt. apply andb_false_r.
Qed.

(** The score when the conditions 2, 4, 6, 7, 9 and 10 fail: at most the
    weights of the four others. *)
Lemma score_without_six config closeData volumeData rsiData bbData ema200 obvData macdData :
  rsi_in_range config rsiData = false ->
  detectBollingerBreakout closeData bbData = false ->
  isVolumeIncreasing volumeData (Config.volumeIncreaseThreshold config) = false ->
  detectPositiveRSIDivergence closeData rsiData (Config.lookbackPeriod config) = false ->
  obv_accumulation obvData = false ->
  ideal_breakout config closeData = false ->
  (fst (score_signals config closeData volumeData rsiData bbData ema200 obvData macdData)
   <= 60)%Z.
Proof.
  intros H2 H4 H6 H7 H9 H10. unfold score_signals. cbv zeta.
  rewrite H2, H4, H6, H7, H9, H10.
  destruct (Config.ema200Required config);
    rewrite ?fst_check; cbn [fst]; rewrite ?fst_check; cbn [fst];
    repeat match goal with
           | |- context [if ?c then ?w else 0%Z] =>
               let z := fresh "z" in
               set (z := if c then w else 0%Z);
               assert (z <= w)%Z by (subst z; destruct c; lia);
               clearbody z
           end; lia.
Qed.

(** C8. On a series of at least 220 candles whose closes, highs and lows
    all equal one positive constant and whose volumes are all zero,
    [analyzeBreakout] with the default configuration does not report a
    breakout candidate.  ([Math.sqrt] is taken to return a non-negative
    result on a non-negative argument.) *)
Theorem flat_series_is_no_candidate (data : list Candle.t) (c : Q) :
  (forall a, 0 <= a -> 0 <= sqrtQ a) ->
  0 < c ->
  (220 <= length data)%nat ->
  flat c data ->
  Analysis.isBreakoutCandidate (analyzeBreakout data Options.empty) = false.
Proof.
  intros Hsqrt Hc Hlen Hflat.
  destruct (flat_columns c data Hflat) as (Hclose & Hhigh & Hlow & Hvolume).
  unfold analyzeBreakout. cbn [Analysis.isBreakoutCandidate].
  rewrite Hclose, Hvolume.
  apply Z.leb_gt.
  match goal with
  | |- (Z.min 100 (fst (score_signals ?cfg ?cl ?vo ?rsi ?bb ?ema ?obv ?macd)) < 70)%Z =>
      pose proof (score_without_six cfg cl vo rsi bb ema obv macd) as Hscore
  end.
  set (n := length data) in *.
  lapply Hscore; [clear Hscore; intros Hscore | by apply flat_rsi_not_in_range].
  lapply Hscore; [clear Hscore; intros Hscore
                 | apply flat_no_bollinger_breakout; try done;
                   change (Config.bollingerPeriod (merge_config Options.empty)) with 20%nat;
                   lia].
  lapply Hscore; [clear Hscore; intros Hscore
                 | apply flat_volume_not_increasing; lia].
  lapply Hscore; [clear Hscore; intros Hscore | apply flat_no_divergence].
  lapply Hscore; [clear Hscore; intros Hscore
                 | rewrite calculateOBV_flat; apply flat_no_obv_accumulation; lia].
  lapply Hscore; [clear Hscore; intros Hscore
                 | apply flat_no_ideal_breakout; [lia | done | done]].
  lia.
Qed.

(** ** The high-accuracy filter *)

(** X1.  [filterSignalsForHighAccuracy] keeps the signals in their order,
    and filtering its result again with the same options changes
    nothing. *)
Theorem filter_is_idempotent (signals : list Signal.t) (options : FilterOptions.t) :
  sublist (filterSignalsForHighAccuracy signals options) signals
  /\ filterSignalsForHighAccuracy (filterSignalsForHighAccuracy signals options) options
     = filterSignalsForHighAccuracy signals options.
Proof.
  unfold filterSignalsForHighAccuracy.
  set (keep := passes_filters (filter_config options)).
  split.
  - induction signals as [| s signals IH]; cbn; [constructor |].
    destruct (keep s); by constructor.
  - induction signals as [| s signals IH]; cbn; [done |].
    destruct (keep s) eqn:E; cbn; [rewrite E; by f_equal | done].
Qed.

(** X2.  The [maxRiskLevel] option is merged into the filters and never
    read: whatever it is set to, the filter keeps the same signals. *)
Theorem filter_ignores_maxRiskLevel
  (signals : list Signal.t) (options : FilterOptions.t) (level : option string) :
  filterSignalsForHighAccuracy signals (with_maxRiskLevel level options)
  = filterSignalsForHighAccuracy signals options.
Proof.
  unfold filterSignalsForHighAccuracy.
  induction signals as [| s signals IH]; cbn [List.filter]; [done |].
  rewrite IH.
  by change (passes_filters (filter_config (with_maxRiskLevel level options)) s)
    with (passes_filters (filter_config options) s).
Qed.

(** X3.  A signal that the filter keeps is one of the given signals, meets
    the five thresholds, and has the risk level Low, Medium or High, the
    last only with a confidence above 8.5; a signal of any other risk level
    is dropped whatever the options. *)
Theorem filtered_signal_meets_thresholds
  (signals : list Signal.t) (options : FilterOptions.t) (s : Signal.t) :
  In s (filterSignalsForHighAccuracy signals options) ->
  In s signals
  /\ (Signal.confidence s
      >=? or_default (FilterOptions.minConfidence options) (Fin 7.5))%J = true
  /\ (Signal.successProbability s
      >=? or_default (FilterOptions.minSuccessProbability options) (Fin 80))%J = true
  /\ (Signal.riskRewardRatio s
      >=? or_default (FilterOptions.minRiskRewardRatio options) (Fin 2.5))%J = true
  /\ (Signal.score (Signal.mtfAnalysis s)
      >=? or_default (FilterOptions.minMTFScore options) (Fin 75))%J = true
  /\ (JS.of_Z (Signal.alignmentScore (Signal.mtfAnalysis s))
      >=? or_default (FilterOptions.minAlignmentScore options) (Fin 4))%J = true
  /\ (Signal.riskLevel s = "Low"%string
      \/ Signal.riskLevel s = "Medium"%string
      \/ (Signal.riskLevel s = "High"%string
          /\ (Signal.confidence s >? Fin 8.5)%J = true)).
Proof.
  unfold filterSignalsForHighAccuracy. intros H.
  apply filter_In in H as [Hin H]. split; [exact Hin |].
  unfold passes_filters in H.
  repeat (apply andb_prop in H as [H ?]).
  repeat (split; [assumption |]).
  match goal with Hr : (_ || _)%bool = true |- _ => rename Hr into Hrisk end.
  apply orb_prop in Hrisk as [Hrisk | Hrisk];
    [apply orb_prop in Hrisk as [Hrisk | Hrisk] |].
  - left. by apply String.eqb_eq.
  - right; left. by apply String.eqb_eq.
  - right; right. apply andb_prop in Hrisk as [Hrisk Hconf].
    split; [by apply String.eqb_eq | exact Hconf].
Qed.

(** ** The four-hour candles *)

Lemma le_trans x y z : (x <=? y)%J = true -> (y <=? z)%J = true -> (x <=? z)%J = true.
Proof.
  destruct x as [a | | |], y as [b | | |], z as [c | | |]; cbn; try done.
  rewrite !Qle_bool_iff. lra.
Qed.

Lemma le_total x y : x <> NaN -> y <> NaN -> (x <=? y)%J = false -> (y <=? x)%J = true.
Proof.
  destruct x as [a | | |], y as [b | | |]; cbn; try done.
  intros _ _ H. apply Qle_bool_false in H. apply Qle_bool_iff. lra.
Qed.

Lemma max2_upper x y :
  x <> NaN -> y <> NaN ->
  JS.max2 x y <> NaN /\ (x <=? JS.max2 x y)%J = true /\ (y <=? JS.max2 x y)%J = true.
Proof.
  intros Hx Hy.
  assert (JS.max2 x y = if (x <=? y)%J then y else x) as ->
    by (destruct x, y; done).
  destruct (x <=? y)%J eqn:E.
  - split; [done |]. split; [done | by apply le_refl].
  - split; [done |]. split; [by apply le_refl | by apply le_total].
Qed.

Lemma min2_lower x y :
  x <> NaN -> y <> NaN ->
  JS.min2 x y <> NaN /\ (JS.min2 x y <=? x)%J = true /\ (JS.min2 x y <=? y)%J = true.
Proof.
  intros Hx Hy.
  assert (JS.min2 x y = if (x <=? y)%J then x else y) as ->
    by (destruct x, y; done).
  destruct (x <=? y)%J eqn:E.
  - split; [done |]. split; [by apply le_refl | done].
  - split; [done |]. split; [by apply le_total | by apply le_refl].
Qed.

(** [Math.max(...l)] is at least every element of [l], and [Math.min(...l)]
    at most, when no element is [NaN]. *)
Lemma foldl_max2_upper l :
  Forall (fun x => x <> NaN) l ->
  forall acc,
    acc <> NaN ->
    foldl JS.max2 acc l <> NaN
    /\ (acc <=? foldl JS.max2 acc l)%J = true
    /\ Forall (fun x => (x <=? foldl JS.max2 acc l)%J = true) l.
Proof.
  induction 1 as [| x l Hx Hl IH]; intros acc Hacc; cbn [foldl].
  - split; [done |]. split; [by apply le_refl | constructor].
  - destruct (max2_upper acc x Hacc Hx) as (Hm & Ha & Hb).
    destruct (IH _ Hm) as (Hr & Hle & Hall).
    split; [done |]. split; [by eapply le_trans |].
    constructor; [by eapply le_trans | done].
Qed.

Lemma foldl_min2_lower l :
  Forall (fun x => x <> NaN) l ->
  forall acc,
    acc <> NaN ->
    foldl JS.min2 acc l <> NaN
    /\ (foldl JS.min2 acc l <=? acc)%J = true
    /\ Forall (fun x => (foldl JS.min2 acc l <=? x)%J = true) l.
Proof.
  induction 1 as [| x l Hx Hl IH]; intros acc Hacc; cbn [foldl].
  - split; [done |]. split; [by apply le_refl | constructor].
  - destruct (min2_lower acc x Hacc Hx) as (Hm & Ha & Hb).
    destruct (IH _ Hm) as (Hr & Hle & Hall).
    split; [done |]. split; [by eapply le_trans |].
    constructor; [by eapply le_trans | done].
Qed.

Lemma max_list_upper l :
  Forall (fun x => x <> NaN) l ->
  Forall (fun x => (x <=? JS.max_list l)%J = true) l.
Proof. intros Hl. by apply (foldl_max2_upper l Hl NInf). Qed.

Lemma min_list_lower l :
  Forall (fun x => x <> NaN) l ->
  Forall (fun x => (JS.min_list l <=? x)%J = true) l.
Proof. intros Hl. by apply (foldl_min2_lower l Hl PInf). Qed.

Lemma convert_length_bound n :
  forall data, (length data <= n)%nat ->
               length (convertHourlyToFourHour data) = (length data / 4)%nat.
Proof.
  induction n as [n IH] using lt_wf_ind. intros data Hn.
  destruct data as [| c0 [| c1 [| c2 [| c3 rest]]]]; try reflexivity.
  cbn [convertHourlyToFourHour length].
  rewrite (IH (length rest)); [| cbn in Hn; lia | lia].
  change (S (S (S (S (length rest))))) with (4 + length rest)%nat.
  replace (4 + length rest)%nat with (length rest + 1 * 4)%nat by lia.
  rewrite Nat.div_add by lia. lia.
Qed.

(** X4.  The conversion groups the hourly candles four by four: it returns
    one candle for every complete group, and the candle at index [k] is
    made of the hourly candles at [4k], ..., [4k + 3]: the time and the open
    of the first, the close of the last, the highest high, the lowest low
    and the sum of the volumes. *)
Theorem four_hour_candles_group_by_four
  (data : list Candle.t) (k : nat) (c0 c1 c2 c3 : Candle.t) :
  data !! (4 * k)%nat = Some c0 ->
  data !! (4 * k + 1)%nat = Some c1 ->
  data !! (4 * k + 2)%nat = Some c2 ->
  data !! (4 * k + 3)%nat = Some c3 ->
  length (convertHourlyToFourHour data) = (length data / 4)%nat
  /\ convertHourlyToFourHour data !! k
     = Some {| Candle.time := Candle.time c0;
               Candle.open := Candle.open c0;
               Candle.high :=
                 JS.max_list [Candle.high c0; Candle.high c1; Candle.high c2; Candle.high c3];
               Candle.low :=
                 JS.min_list [Candle.low c0; Candle.low c1; Candle.low c2; Candle.low c3];
               Candle.close := Candle.close c3;
               Candle.volume :=
                 (Fin 0 + Candle.volume c0 + Candle.volume c1
                  + Candle.volume c2 + Candle.volume c3)%J |}.
Proof.
  intros H0 H1 H2 H3.
  split; [by apply (convert_length_bound (length data)) |].
  revert data H0 H1 H2 H3.
  induction k as [| k IH]; intros data H0 H1 H2 H3.
  - destruct data as [| d0 [| d1 [| d2 [| d3 rest]]]]; try done.
    cbn in H0, H1, H2, H3. by simplify_eq.
  - pose proof (lookup_lt_Some _ _ _ H3) as Hlen.
    destruct data as [| d0 [| d1 [| d2 [| d3 rest]]]]; cbn in Hlen; try lia.
    cbn [convertHourlyToFourHour]. rewrite lookup_cons.
    apply IH.
    + replace (4 * S k)%nat with (S (S (S (S (4 * k))))) in H0 by lia. exact H0.
    + replace (4 * S k + 1)%nat with (S (S (S (S (4 * k + 1))))) in H1 by lia. exact H1.
    + replace (4 * S k + 2)%nat with (S (S (S (S (4 * k + 2))))) in H2 by lia. exact H2.
    + replace (4 * S k + 3)%nat with (S (S (S (S (4 * k + 3))))) in H3 by lia. exact H3.
Qed.

(** X5.  When none of the four highs and lows is [NaN], the high of the
    four-hour candle is at least the high of each of its hourly candles,
    and its low is at most each of their lows. *)
Theorem four_hour_candle_spans_its_hours (c0 c1 c2 c3 c : Candle.t) :
  Forall (fun c => Candle.high c <> NaN /\ Candle.low c <> NaN) [c0; c1; c2; c3] ->
  In c [c0; c1; c2; c3] ->
  (Candle.high c <=? Candle.high (four_hour_candle c0 c1 c2 c3))%J = true
  /\ (Candle.low (four_hour_candle c0 c1 c2 c3) <=? Candle.low c)%J = true.
Proof.
  intros Hfin Hin.
  assert (Forall (fun x => x <> NaN) (map Candle.high [c0; c1; c2; c3])) as Hhigh.
  { apply Forall_fmap. eapply Forall_impl; [exact Hfin |]. by intros ? []. }
  assert (Forall (fun x => x <> NaN) (map Candle.low [c0; c1; c2; c3])) as Hlow.
  { apply Forall_fmap. eapply Forall_impl; [exact Hfin |]. by intros ? []. }
  apply max_list_upper in Hhigh. apply min_list_lower in Hlow.
  change (Candle.high (four_hour_candle c0 c1 c2 c3))
    with (JS.max_list (map Candle.high [c0; c1; c2; c3])).
  change (Candle.low (four_hour_candle c0 c1 c2 c3))
    with (JS.min_list (map Candle.low [c0; c1; c2; c3])).
  rewrite List.Forall_forall in Hhigh, Hlow.
  split; [apply Hhigh | apply Hlow]; by apply in_map.
Qed.

(** ** The score and the signals of the analyzer *)

Lemma total_weight_snoc signals label :
  total_weight (signals ++ [label]) = (total_weight signals + signal_weight label)%Z.
Proof.
  unfold total_weight. induction signals as [| s signals IH]; cbn; [lia |].
  cbn in IH. rewrite IH. lia.
Qed.

Lemma check_weight cond label state extra :
  fst state = (total_weight (snd state) + extra)%Z ->
  fst (check cond (signal_weight label) label state)
  = (total_weight (snd (check cond (signal_weight label) label state)) + extra)%Z.
Proof.
  intros H. unfold check. destruct cond; cbn [fst snd]; [| done].
  rewrite total_weight_snoc. lia.
Qed.

Lemma signal_weight_by_five label : (5 | signal_weight label)%Z.
Proof.
  unfold signal_weight.
  repeat match goal with |- context [String.eqb ?a ?b] => destruct (String.eqb a b) end;
    first [by exists 4%Z | by exists 3%Z | by exists 2%Z | by exists 0%Z].
Qed.

Lemma total_weight_by_five signals : (5 | total_weight signals)%Z.
Proof.
  induction signals as [| s signals IH]; [by exists 0%Z |].
  cbn. apply Z.divide_add_r; [apply signal_weight_by_five | exact IH].
Qed.

(** X6.  The breakout score is the sum of the weights of the reported
    signals, plus ten when the EMA200 is not required, capped at 100; it is
    a multiple of five between 0 and 100. *)
Theorem score_is_the_weight_of_the_signals (data : list Candle.t) (options : Options.t) :
  let analysis := analyzeBreakout data options in
  Analysis.breakoutScore analysis
  = Z.min 100 (total_weight (Analysis.signals analysis)
               + if Config.ema200Required (merge_config options) then 0 else 10)
  /\ (5 | Analysis.breakoutScore analysis)%Z
  /\ (0 <= Analysis.breakoutScore analysis <= 100)%Z.
Proof.
  cbv zeta.
  assert (Analysis.breakoutScore (analyzeBreakout data options)
          = Z.min 100 (total_weight (Analysis.signals (analyzeBreakout data options))
                       + if Config.ema200Required (merge_config options) then 0 else 10))
    as Hscore.
  { unfold analyzeBreakout. cbn [Analysis.breakoutScore Analysis.signals]. f_equal.
    unfold score_signals. cbv zeta.
    set (extra := if Config.ema200Required (merge_config options) then 0%Z else 10%Z).
    destruct (Config.ema200Required (merge_config options)); subst extra.
    - repeat first
        [ apply (check_weight _ "Price consolidation detected")
        | apply (check_weight _ "RSI in optimal range")
        | apply (check_weight _ "Bollinger Band compression")
        | apply (check_weight _ "Bollinger Band breakout")
        | apply (check_weight _ "Price above EMA200")
        | apply (check_weight _ "Volume increasing")
        | apply (check_weight _ "Positive RSI divergence")
        | apply (check_weight _ "MACD bullish crossover")
        | apply (check_weight _ "OBV accumulation")
        | apply (check_weight _ "Ideal breakout percentage") ].
      reflexivity.
    - repeat first
        [ apply (check_weight _ "Volume increasing")
        | apply (check_weight _ "Positive RSI divergence")
        | apply (check_weight _ "MACD bullish crossover")
        | apply (check_weight _ "OBV accumulation")
        | apply (check_weight _ "Ideal breakout percentage") ].
      cbn [fst snd].
      match goal with |- (fst ?st + 10 = total_weight (snd ?st) + 10)%Z =>
        enough (fst st = total_weight (snd st) + 0)%Z by lia end.
      repeat first
        [ apply (check_weight _ "Price consolidation detected")
        | apply (check_weight _ "RSI in optimal range")
        | apply (check_weight _ "Bollinger Band compression")
        | apply (check_weight _ "Bollinger Band breakout") ].
      reflexivity. }
  split; [exact Hscore |]. split; [| apply analyze_score_range].
  rewrite Hscore.
  set (signals := Analysis.signals (analyzeBreakout data options)).
  pose proof (total_weight_by_five signals) as [q Hq].
  destruct (Config.ema200Required (merge_config options)).
  - destruct (Z.min_spec 100 (total_weight signals + 0)) as [[_ ->] | [_ ->]].
    + by exists 20%Z.
    + exists q. lia.
  - destruct (Z.min_spec 100 (total_weight signals + 10)) as [[_ ->] | [_ ->]].
    + by exists 20%Z.
    + exists (q + 2)%Z. lia.
Qed.

(** ** The history that a signal needs *)

Lemma In_check label cond weight lab state :
  In label (snd (check cond weight lab state)) ->
  In label (snd state) \/ (label = lab /\ cond = true).
Proof.
  unfold check. destruct cond; cbn [snd]; [| by left].
  intros H. apply in_app_or in H as [H | [H | []]]; [by left | by right].
Qed.

Lemma last_val_replicate_null n :
  last_val (replicate n Null) = if (n =? 0)%nat then Undefined else Null.
Proof.
  unfold last_val, JS.at_val, JS.nth_opt. rewrite length_replicate.
  destruct n as [| n]; [done |].
  destruct (Z.ltb_spec (Z.of_nat (S n) - 1) 0); [lia |].
  rewrite lookup_replicate_2 by lia. done.
Qed.

Lemma last_obj_replicate {A} n (x : A) :
  last_obj (replicate n x) = if (n =? 0)%nat then None else Some x.
Proof.
  unfold last_obj, JS.nth_opt. rewrite length_replicate.
  destruct n as [| n]; [done |].
  destruct (Z.ltb_spec (Z.of_nat (S n) - 1) 0); [lia |].
  rewrite lookup_replicate_2 by lia. done.
Qed.

Lemma rsi_in_range_history config closeData :
  rsi_in_range config (calculateRSI closeData 14) = true ->
  (15 <= length closeData)%nat.
Proof.
  intros H. destruct (le_lt_dec 15 (length closeData)) as [| Hshort]; [done |].
  exfalso. unfold calculateRSI in H.
  destruct (Nat.ltb_spec (length closeData) (14 + 1)); [| lia].
  unfold rsi_in_range in H. rewrite last_val_replicate_null in H.
  destruct (length closeData =? 0)%nat; cbn in H; [| done].
  by destruct (Config.rsiLowerThreshold config).
Qed.

Lemma bollinger_compressed_history closeData period :
  bollinger_compressed (calculateBollingerBands closeData period) = true ->
  (period <= length closeData)%nat /\ (1 <= length closeData)%nat.
Proof.
  intros H. unfold bollinger_compressed in H.
  assert (1 <= length closeData)%nat as Hone.
  { destruct closeData; [| cbn; lia].
    unfold calculateBollingerBands in H. cbn in H.
    by destruct period. }
  split; [| done].
  destruct (le_lt_dec period (length closeData)) as [| Hshort]; [done |].
  exfalso. unfold calculateBollingerBands in H.
  destruct (Nat.ltb_spec (length closeData) period); [| lia].
  rewrite last_obj_replicate in H.
  by destruct (length closeData =? 0)%nat.
Qed.

Lemma bollinger_breakout_history closeData bbData :
  detectBollingerBreakout closeData bbData = true -> (10 <= length closeData)%nat.
Proof.
  unfold detectBollingerBreakout.
  destruct (Nat.ltb_spec (length closeData) 10); [done | lia].
Qed.

Lemma above_ema200_history closeData :
  above_ema200 closeData (ema_values closeData 200) = true ->
  (200 <= length closeData)%nat.
Proof.
  intros H. destruct (le_lt_dec 200 (length closeData)) as [| Hshort]; [done |].
  exfalso. unfold ema_values in H.
  destruct (Nat.ltb_spec (length closeData) 200); [| lia].
  unfold above_ema200 in H. rewrite last_val_replicate_null in H.
  destruct (length closeData =? 0)%nat; cbn in H; [| done].
  by destruct (last_num closeData).
Qed.

Lemma volume_increasing_history volumeData threshold :
  isVolumeIncreasing volumeData threshold = true -> (2 <= length volumeData)%nat.
Proof.
  unfold isVolumeIncreasing.
  destruct (Nat.ltb_spec (length volumeData) 2); [done | lia].
Qed.

Lemma find_lows_two recentPrices indices :
  forall first a b,
    find_lows recentPrices indices first = (Some a, Some b) ->
    (1 <= length indices)%nat /\ (first = None -> 2 <= length indices)%nat.
Proof.
  induction indices as [| i rest IH]; intros first a b H; cbn in H; [done |].
  cbn [length]. split; [lia |]. intros ->.
  destruct (is_local_low recentPrices i).
  - apply IH in H as [H _]. lia.
  - apply IH in H as [_ H]. specialize (H eq_refl). lia.
Qed.

Lemma length_slice_from {A} (l : list A) k :
  (length (JS.slice_from l k) <= length l)%nat.
Proof. unfold JS.slice_from. rewrite length_drop. lia. Qed.

Lemma divergence_history closeData rsiData lookbackPeriod :
  detectPositiveRSIDivergence closeData rsiData lookbackPeriod = true ->
  (Nat.max 12 lookbackPeriod <= length closeData)%nat.
Proof.
  unfold detectPositiveRSIDivergence.
  destruct (Nat.ltb_spec (length closeData) lookbackPeriod); [done |].
  destruct (_ <? _)%nat; [done |]. cbn [orb].
  destruct (find_lows _ _ None) as [[a |] [b |]] eqn:E; try done.
  intros _. apply find_lows_two in E as [_ E]. specialize (E eq_refl).
  rewrite length_seq in E.
  pose proof (length_slice_from closeData (- Z.of_nat lookbackPeriod)). lia.
Qed.

Lemma macd_crossover_history closeData :
  macd_crossover (calculateMACD closeData) = true -> (35 <= length closeData)%nat.
Proof.
  intros H. destruct (le_lt_dec 35 (length closeData)) as [| Hshort]; [done |].
  exfalso. unfold calculateMACD in H. cbv zeta in H.
  destruct (Nat.ltb_spec (length closeData) (Nat.max 12 26 + 9)); [| cbn in *; lia].
  unfold macd_crossover in H. rewrite last_obj_replicate in H.
  destruct (length closeData =? 0)%nat; [done |].
  destruct (JS.nth_opt _ _); [| done].
  cbn in H. by rewrite andb_false_r in H.
Qed.

Lemma length_calculateOBV closeData volumeData :
  length (calculateOBV closeData volumeData) = length closeData.
Proof.
  unfold calculateOBV.
  destruct (Nat.eqb_spec (length closeData) (length volumeData)) as [Hlen | Hlen];
    cbn [negb orb]; [| by rewrite length_replicate].
  destruct (Nat.eqb_spec (length closeData) 0); [by rewrite length_replicate |].
  destruct closeData as [| close0 closes], volumeData as [| volume0 volumes]; try done.
  cbn [length]. f_equal.
  assert (forall rest obv prev, length (obv_loop obv prev rest) = length rest) as Hloop.
  { induction rest as [| [c v] rest IH]; intros obv prev; cbn; [done | by rewrite IH]. }
  rewrite Hloop, length_zip. cbn in Hlen. lia.
Qed.

Lemma obv_accumulation_history closeData volumeData :
  obv_accumulation (calculateOBV closeData volumeData) = true ->
  (5 <= length closeData)%nat.
Proof.
  intros H. destruct (le_lt_dec 5 (length closeData)) as [| Hshort]; [done |].
  exfalso. unfold obv_accumulation in H.
  rewrite length_calculateOBV in H.
  assert (JS.at_val (calculateOBV closeData volumeData)
                    (Z.of_nat (length closeData) - 5) = Undefined) as Hprevious.
  { unfold JS.at_val, JS.nth_opt.
    destruct (Z.ltb_spec (Z.of_nat (length closeData) - 5) 0); [done | lia]. }
  rewrite Hprevious in H. cbn in H. done.
Qed.

Lemma get_negative data i : (i < 0)%Z -> get data i = NaN.
Proof.
  intros Hi. unfold get, JS.at_, JS.nth_opt.
  destruct (Z.ltb_spec i 0); [done | lia].
Qed.

Lemma ideal_breakout_history config closeData :
  ideal_breakout config closeData = true -> (2 <= length closeData)%nat.
Proof.
  intros H. destruct (le_lt_dec 2 (length closeData)) as [| Hshort]; [done |].
  exfalso. unfold ideal_breakout in H.
  rewrite (get_negative closeData (Z.of_nat (length closeData) - 2)) in H by lia.
  assert (forall x, (x / NaN)%J = NaN) as Hnan by (by intros []).
  rewrite Hnan in H. cbn in H. by destruct (Config.minBreakoutPercent config).
Qed.

Lemma consolidating_history closeData period threshold :
  isPriceConsolidating closeData period threshold = true ->
  (1 <= length closeData)%nat.
Proof.
  destruct closeData; [| cbn; lia].
  unfold isPriceConsolidating. destruct (_ <? _)%J; [done |].
  unfold JS.slice_from. rewrite drop_nil. cbn. done.
Qed.

Lemma score_signals_reported label config closeData volumeData rsiData bbData
  ema200 obvData macdData :
  In label (snd (score_signals config closeData volumeData rsiData bbData ema200
                               obvData macdData)) ->
  (label = "Price consolidation detected"%string
   /\ isPriceConsolidating closeData (Config.consolidationPeriod config)
                           (Config.consolidationThreshold config) = true)
  \/ (label = "RSI in optimal range"%string /\ rsi_in_range config rsiData = true)
  \/ (label = "Bollinger Band compression"%string /\ bollinger_compressed bbData = true)
  \/ (label = "Bollinger Band breakout"%string
      /\ detectBollingerBreakout closeData bbData = true)
  \/ (label = "Price above EMA200"%string
      /\ Config.ema200Required config = true
      /\ above_ema200 closeData ema200 = true)
  \/ (label = "Volume increasing"%string
      /\ isVolumeIncreasing volumeData (Config.volumeIncreaseThreshold config) = true)
  \/ (label = "Positive RSI divergence"%string
      /\ detectPositiveRSIDivergence closeData rsiData (Config.lookbackPeriod config)
         = true)
  \/ (label = "MACD bullish crossover"%string /\ macd_crossover macdData = true)
  \/ (label = "OBV accumulation"%string /\ obv_accumulation obvData = true)
  \/ (label = "Ideal breakout percentage"%string
      /\ ideal_breakout config closeData = true).
Proof.
  unfold score_signals. cbv zeta. intros H.
  apply In_check in H as [H | H]; [| tauto].
  apply In_check in H as [H | H]; [| tauto].
  apply In_check in H as [H | H]; [| tauto].
  apply In_check in H as [H | H]; [| tauto].
  apply In_check in H as [H | H]; [| tauto].
  destruct (Config.ema200Required config).
  - apply In_check in H as [H | H]; [| tauto].
    apply In_check in H as [H | H]; [| tauto].
    apply In_check in H as [H | H]; [| tauto].
    apply In_check in H as [H | H]; [| tauto].
    apply In_check in H as [H | H]; [| tauto].
    destruct H.
  - cbn [snd] in H.
    apply In_check in H as [H | H]; [| tauto].
    apply In_check in H as [H | H]; [| tauto].
    apply In_check in H as [H | H]; [| tauto].
    apply In_check in H as [H | H]; [| tauto].
    destruct H.
Qed.

(** X7.  A signal is reported only on a series that has the history its
    condition needs: fifteen candles for the RSI, the Bollinger period for
    the compression, ten for the Bollinger breakout, two hundred for the
    EMA200, thirty-five for the MACD crossover, twelve and the look-back
    period for the divergence, five for the OBV, two for the volume and the
    breakout percentage, and one for the consolidation. *)
Theorem signals_need_history
  (data : list Candle.t) (options : Options.t) (label : string) :
  In label (Analysis.signals (analyzeBreakout data options)) ->
  (min_history (merge_config options) label <= length data)%nat
  /\ (0 < signal_weight label)%Z.
Proof.
  unfold analyzeBreakout. cbn [Analysis.signals]. intros H.
  apply score_signals_reported in H.
  rewrite <- (length_map Candle.close data).
  destruct H as [[-> H] | [[-> H] | [[-> H] | [[-> H] | [[-> [_ H]] | [[-> H] |
                [[-> H] | [[-> H] | [[-> H] | [-> H]]]]]]]]]];
    (split; [| done]).
  - by apply consolidating_history in H.
  - by apply rsi_in_range_history in H.
  - by apply bollinger_compressed_history in H as [H _].
  - by apply bollinger_breakout_history in H.
  - by apply above_ema200_history in H.
  - apply volume_increasing_history in H. by rewrite length_map in *.
  - by apply divergence_history in H.
  - by apply macd_crossover_history in H.
  - by apply obv_accumulation_history in H.
  - by apply ideal_breakout_history in H.
Qed.

(** ** The levels and the two ratings of the analyzer *)

Lemma or_default_nat_positive v d : (1 <= d)%nat -> (1 <= or_default_nat v d)%nat.
Proof.
  intros Hd. unfold or_default_nat. destruct v as [n |]; [| done].
  destruct (Nat.eqb_spec n 0); lia.
Qed.

(** The last ATR value is a number exactly when the series has [period]
    candles. *)
Lemma last_atr_not_null highData lowData closeData period :
  (1 <= period)%nat ->
  (2 <= length highData)%nat ->
  length highData = length lowData -> length lowData = length closeData ->
  JS.not_null (last_val (calculateATR highData lowData closeData period))
  = (period <=? length highData)%nat
  /\ present (last_val (calculateATR highData lowData closeData period))
     = (period <=? length highData)%nat.
Proof.
  intros Hp Hn Hhl Hlc.
  destruct (Nat.leb_spec period (length highData)) as [Hle | Hlt].
  - destruct (calculateATR_warm_up highData lowData closeData period Hp)
      as (Hlen & _ & Hnum).
    specialize (Hlen Hle). specialize (Hnum Hhl Hlc Hn Hle).
    destruct (Hnum (length highData - 1)%nat ltac:(lia) ltac:(lia)) as [x Hx].
    pose proof (last_val_lookup (calculateATR highData lowData closeData period)
                                ltac:(lia)) as Hlast.
    rewrite Hlen, Hx in Hlast. injection Hlast as <-. done.
  - rewrite calculateATR_short_input by done.
    rewrite last_val_replicate_null.
    destruct (Nat.eqb_spec period 0); [lia | done].
Qed.

(** X8.  On a series of at least two candles, the analysis carries a
    suggested stop loss and take profit exactly when the series is a
    breakout candidate and has the candles of the ATR period; a series that
    is no candidate never carries them. *)
Theorem levels_only_for_candidates (data : list Candle.t) (options : Options.t) :
  (2 <= length data)%nat ->
  let analysis := analyzeBreakout data options in
  let levels :=
    Analysis.isBreakoutCandidate analysis
    && (Config.atrPeriod (merge_config options) <=? length data)%nat in
  present (Analysis.suggestedStopLoss analysis) = levels
  /\ present (Analysis.suggestedTakeProfit analysis) = levels
  /\ (levels = false ->
      Analysis.suggestedStopLoss analysis = Undefined
      /\ Analysis.suggestedTakeProfit analysis = Undefined).
Proof.
  intros Hn. cbv zeta. unfold analyzeBreakout.
  cbn [Analysis.isBreakoutCandidate Analysis.suggestedStopLoss
       Analysis.suggestedTakeProfit].
  destruct (last_atr_not_null
              (map Candle.high data) (map Candle.low data) (map Candle.close data)
              (Config.atrPeriod (merge_config options)))
    as [Hnull _].
  - apply or_default_nat_positive. lia.
  - by rewrite length_map.
  - by rewrite !length_map.
  - by rewrite !length_map.
  - rewrite Hnull, length_map.
    destruct (_ && _); [by repeat split | done].
Qed.

(** X9.  On a series of at least two candles, the profit potential and the
    risk level are "Unknown" exactly when the series has fewer than twenty
    candles or fewer than the ATR period. *)
Theorem ratings_unknown_on_short_history (data : list Candle.t) (options : Options.t) :
  (2 <= length data)%nat ->
  let analysis := analyzeBreakout data options in
  let short :=
    (length data <? 20)%nat
    || (length data <? Config.atrPeriod (merge_config options))%nat in
  (Analysis.profitPotential analysis = "Unknown"%string <-> short = true)
  /\ (Analysis.riskLevel analysis = "Unknown"%string <-> short = true).
Proof.
  intros Hn. cbv zeta. unfold analyzeBreakout.
  cbn [Analysis.profitPotential Analysis.riskLevel].
  destruct (last_atr_not_null
              (map Candle.high data) (map Candle.low data) (map Candle.close data)
              (Config.atrPeriod (merge_config options)))
    as [Hnull _].
  - apply or_default_nat_positive. lia.
  - by rewrite length_map.
  - by rewrite !length_map.
  - by rewrite !length_map.
  - unfold calculateProfitPotential, calculateRiskLevel.
    rewrite Hnull, !length_map.
    rewrite Nat.leb_antisym, negb_involutive.
    destruct (_ || _); [done |].
    split; split; try done;
      repeat match goal with
             | |- context [if ?c then _ else _] => destruct c
             end; done.
Qed.

(** ** The confirmation of the aggregator *)

(** X10.  A confirmed multi-timeframe breakout has the daily series among
    its candidates, with the hourly or the four-hour one beside it, and a
    rounded score of 75 to 100; the alignment score is then 4, 5 or 6. *)
Theorem confirmed_breakout_needs_the_daily_timeframe
  (hourlyData fourHourData dailyData : list Candle.t) (options : Options.t) :
  let mtf := multiTimeframeAnalysis hourlyData fourHourData dailyData options in
  MTF.isConfirmedBreakout mtf = true ->
  Analysis.isBreakoutCandidate (analyzeBreakout dailyData options) = true
  /\ (Analysis.isBreakoutCandidate (analyzeBreakout hourlyData options) = true
      \/ Analysis.isBreakoutCandidate (analyzeBreakout fourHourData options) = true)
  /\ (4 <= MTF.alignmentScore mtf <= 6)%Z
  /\ exists m, MTF.mtfScore mtf = JS.of_Z m /\ (75 <= m <= 100)%Z.
Proof.
  clear LocalTZA.
  cbv zeta. unfold multiTimeframeAnalysis.
  cbn [MTF.isConfirmedBreakout MTF.alignmentScore MTF.mtfScore].
  pose proof (analyze_score_range hourlyData options) as Hh.
  pose proof (analyze_score_range fourHourData options) as Hf.
  pose proof (analyze_score_range dailyData options) as Hd.
  set (h := Analysis.breakoutScore (analyzeBreakout hourlyData options)) in *.
  set (f := Analysis.breakoutScore (analyzeBreakout fourHourData options)) in *.
  set (d := Analysis.breakoutScore (analyzeBreakout dailyData options)) in *.
  set (w := inject_Z h * 0.2 + inject_Z f * 0.3 + inject_Z d * 0.5).
  assert (is_fin (JS.of_Z h * Fin 0.2 + JS.of_Z f * Fin 0.3 + JS.of_Z d * Fin 0.5)%J w)
    as Hw by (repeat first [apply add_is_fin | apply mul_is_fin | apply of_Z_is | apply Fin_is]).
  intros Hconfirmed. apply andb_prop in Hconfirmed as [Halign Hscore].
  apply Z.leb_le in Halign.
  unfold JS.ge in Hscore. rewrite (le_fin _ _ 75 w (Fin_is _) Hw) in Hscore.
  apply Qle_bool_iff in Hscore.
  rewrite (round_fin _ _ Hw).
  assert (inject_Z h <= 100 /\ inject_Z f <= 100 /\ inject_Z d <= 100)
    as (Hqh & Hqf & Hqd).
  { repeat split; change 100 with (inject_Z 100); rewrite <- Zle_Qle; lia. }
  assert (75 <= Qfloor (w + (1 # 2)) <= 100)%Z as Hfloor.
  { split.
    - change 75%Z with (Qfloor 75). apply Qfloor_resp_le. lra.
    - change 100%Z with (Qfloor (100 + (1 # 2))). apply Qfloor_resp_le. subst w. lra. }
  destruct (Analysis.isBreakoutCandidate (analyzeBreakout hourlyData options)),
    (Analysis.isBreakoutCandidate (analyzeBreakout fourHourData options)),
    (Analysis.isBreakoutCandidate (analyzeBreakout dailyData options));
    cbn in Halign; try lia;
    (split; [done |]; split; [tauto |]; split; [cbn; lia |]);
    by exists (Qfloor (w + (1 # 2))).
Qed.

(** ** The trades of the backtest *)

Lemma slice_nat {A} (l : list A) (s e : nat) :
  (s <= e)%nat -> (e <= length l)%nat ->
  JS.slice l (Z.of_nat s) (Z.of_nat e) = take (e - s) (drop s l).
Proof.
  intros Hse Hel. unfold JS.slice, JS.rel_index.
  destruct (Z.ltb_spec (Z.of_nat s) 0); [lia |].
  destruct (Z.ltb_spec (Z.of_nat e) 0); [lia |].
  by rewrite !Z.min_l, !Nat2Z.id by lia.
Qed.

(** The inner loop over the bars [a, a + 1, ...], the last of which is the
    bar of the time exit: the trade is closed, after at least one bar. *)
Lemma look_forward_closes stopLoss takeProfit :
  forall bars a exitPrice exitType barsHeld,
    bars <> [] ->
    exists exitPrice' exitType' barsHeld',
      look_forward (a + length bars - 1) stopLoss takeProfit
                   (zip (seq a (length bars)) bars) exitPrice exitType barsHeld
      = (exitPrice', exitType', barsHeld')
      /\ (barsHeld < barsHeld' <= barsHeld + length bars)%nat
      /\ ((exitType' = Some "Stop Loss"%string /\ exitPrice' = stopLoss)
          \/ (exitType' = Some "Take Profit"%string /\ exitPrice' = takeProfit)
          \/ (exitType' = Some "Time Exit"%string
              /\ barsHeld' = (barsHeld + length bars)%nat
              /\ exists bar, last bars = Some bar
                             /\ exitPrice' = Num (Candle.close bar))).
Proof.
  induction bars as [| bar bars IH]; intros a exitPrice exitType barsHeld Hbars;
    [done |].
  cbn [length seq zip zip_with look_forward].
  destruct (_ <=? _)%J.
  { eexists _, _, _. split; [done |]. split; [lia | by left]. }
  destruct (_ >=? _)%J.
  { eexists _, _, _. split; [done |]. split; [lia | right; by left]. }
  destruct bars as [| bar' bars].
  - cbn [length]. replace (a + 1 - 1)%nat with a by lia.
    rewrite Nat.eqb_refl. cbn.
    eexists _, _, _. split; [done |]. split; [lia |].
    right; right. split; [done |]. split; [lia |]. by exists bar.
  - destruct (Nat.eqb_spec a (a + S (length (bar' :: bars)) - 1)) as [Heq | _];
      [cbn in Heq; lia |].
    destruct (IH (S a) exitPrice exitType (S barsHeld) ltac:(done))
      as (e & ty & b & Hloop & Hb & Hexit).
    replace (a + S (length (bar' :: bars)) - 1)%nat
      with (S a + length (bar' :: bars) - 1)%nat by lia.
    rewrite Hloop. eexists _, _, _. split; [done |].
    split; [cbn [length] in *; lia |].
    destruct Hexit as [H | [H | (Hty & Hheld & c & Hlast & He)]];
      [by left | right; by left |].
    right; right. split; [done |]. split; [cbn [length] in *; lia |].
    exists c. split; [| done]. by rewrite last_cons, Hlast.
Qed.

Lemma simulate_bar_records historicalData options i bar tally tally' held :
  (200 <= i)%nat ->
  (i + 20 < length historicalData)%nat ->
  historicalData !! i = Some bar ->
  simulate_bar historicalData options i bar tally = (tally', held) ->
  (tally' = tally /\ held = 0%nat)
  \/ exists trade,
       tally_trades tally' = tally_trades tally ++ [trade]
       /\ recorded_trade historicalData trade
       /\ tally_totalTrades tally' = S (tally_totalTrades tally)
       /\ (tally_winningTrades tally' + tally_losingTrades tally')%nat
          = S (tally_winningTrades tally + tally_losingTrades tally).
Proof.
  intros Hi Hlen Hbar. unfold simulate_bar.
  destruct (Analysis.isBreakoutCandidate _); [| intros [= <- <-]; by left].
  rewrite Nat.min_l by lia. rewrite Nat.min_l by lia.
  rewrite slice_nat by lia.
  replace (i + 20 - (i + 1))%nat with 19%nat by lia.
  set (bars := take 19 (drop (i + 1) historicalData)).
  assert (length bars = 19%nat) as Hbars.
  { subst bars. rewrite length_take, length_drop. lia. }
  set (stopLoss := Analysis.suggestedStopLoss _).
  set (takeProfit := Analysis.suggestedTakeProfit _).
  destruct (look_forward_closes stopLoss takeProfit bars (i + 1) Null None 0)
    as (e & ty & b & Hloop & Hb & Hexit).
  { intros ->. done. }
  rewrite Hbars in Hloop, Hb, Hexit.
  replace (i + 1 + 19 - 1)%nat with (i + 19)%nat in Hloop by lia.
  rewrite Hloop. intros [= <- <-]. right. eexists. split; [done |].
  split.
  - unfold recorded_trade.
    cbn [Trade.entryBar Trade.barsHeld Trade.entryPrice Trade.date Trade.exitType
         Trade.exitPrice Trade.stopLoss Trade.takeProfit Trade.pnl].
    split; [done |]. split; [done |]. split; [lia |].
    split; [by exists bar |]. split; [done |].
    destruct Hexit as [H | [H | (Hty & Hheld & c & Hlast & He)]];
      [by left | right; by left |].
    right; right. split; [done |]. split; [lia |].
    exists c. split; [| done].
    rewrite last_lookup, Hbars in Hlast. subst bars.
    rewrite lookup_take_lt in Hlast by (cbn; lia).
    rewrite lookup_drop in Hlast.
    by replace (i + 19)%nat with (i + 1 + Nat.pred 19)%nat by (cbn; lia).
  - cbn [tally_totalTrades tally_winningTrades tally_losingTrades].
    split; [reflexivity |].
    match goal with |- context [if ?c then _ else _] => destruct c end; lia.
Qed.

(** An invariant that the body of the outer loop keeps holds of the tally
    that the loop returns. *)
Lemma backtest_loop_invariant historicalData options (Inv : nat -> Tally -> Prop) :
  (forall i bar tally tally' held,
      (i + 20 < length historicalData)%nat ->
      historicalData !! i = Some bar ->
      Inv i tally ->
      simulate_bar historicalData options i bar tally = (tally', held) ->
      Inv (i + held + 1)%nat tally') ->
  forall fuel i tally tally',
    Inv i tally ->
    backtest_loop historicalData options fuel i tally = Some tally' ->
    exists j, Inv j tally'.
Proof.
  intros Hstep. induction fuel as [| fuel IH]; intros i tally tally' Hinv Hloop.
  - cbn in Hloop. destruct (_ <? _)%Z; [done |]. injection Hloop as <-. by exists i.
  - cbn [backtest_loop] in Hloop.
    destruct (Z.ltb_spec (Z.of_nat i) (Z.of_nat (length historicalData) - 20))
      as [Hlt | Hge]; [| injection Hloop as <-; by exists i].
    destruct (historicalData !! i) as [bar |] eqn:Hbar; [| done].
    destruct (simulate_bar historicalData options i bar tally) as [tally1 held] eqn:Hsim.
    eapply IH; [| exact Hloop].
    eapply Hstep; [| exact Hbar | exact Hinv | exact Hsim]. lia.
Qed.

Lemma backtest_returns_results historicalData options :
  (250 <= length historicalData)%nat ->
  exists tally,
    backtest_loop historicalData options (length historicalData) 200 empty_tally
    = Some tally
    /\ backtestBreakoutStrategy historicalData options
       = Backtest.Results (statistics tally).
Proof.
  intros Hlong.
  destruct (backtest_loop_returns historicalData options (length historicalData)
              200 empty_tally) as (tally & Hloop & _);
    [lia | apply settled_empty |].
  exists tally. split; [exact Hloop |].
  unfold backtestBreakoutStrategy.
  destruct (Nat.ltb_spec (length historicalData) 250); [lia |].
  by rewrite Hloop.
Qed.

Lemma statistics_trades tally : Backtest.trades (statistics tally) = tally_trades tally.
Proof. unfold statistics. by destruct (0 <? _)%nat. Qed.

(** X11.  With at least 250 candles the backtest returns results, and
    every trade in them was entered at the close of a bar from 200 on with
    twenty bars after it, was held for one to nineteen bars, and was closed:
    at its stop loss, at its take profit, or after nineteen bars at the
    close of the nineteenth.  No trade is left open. *)
Theorem backtest_trades_are_closed
  (historicalData : list Candle.t) (options : Options.t) :
  (250 <= length historicalData)%nat ->
  exists results,
    backtestBreakoutStrategy historicalData options = Backtest.Results results
    /\ Forall (recorded_trade historicalData) (Backtest.trades results).
Proof.
  intros Hlong.
  destruct (backtest_returns_results historicalData options Hlong)
    as (tally & Hloop & Hresults).
  exists (statistics tally). split; [exact Hresults |].
  rewrite statistics_trades.
  destruct (backtest_loop_invariant historicalData options
              (fun i tally => (200 <= i)%nat
                              /\ Forall (recorded_trade historicalData)
                                        (tally_trades tally)))
    with (fuel := length historicalData) (i := 200%nat) (tally := empty_tally)
         (tally' := tally) as (j & _ & Hall); try done.
  intros i bar tally0 tally1 held Hi Hbar [Hfrom Hall] Hsim.
  split; [lia |].
  destruct (simulate_bar_records _ _ _ _ _ _ _ Hfrom Hi Hbar Hsim)
    as [[-> _] | (trade & -> & Htrade & _)]; [done |].
  apply Forall_app. split; [done | by constructor].
Qed.

Lemma winRate_range tally :
  counted tally ->
  exists r, Backtest.winRate (statistics tally) = Fin r /\ 0 <= r <= 100.
Proof.
  intros [_ Hsum]. unfold statistics.
  destruct (Nat.ltb_spec 0 (tally_totalTrades tally)) as [Hpos | _];
    cbn [Backtest.winRate]; [| exists 0; split; [done | lra]].
  set (w := tally_winningTrades tally) in *.
  set (t := tally_totalTrades tally) in *.
  assert (0 < inject_Z (Z.of_nat t)) as Ht by (apply period_positive; lia).
  assert (0 <= inject_Z (Z.of_nat w) <= inject_Z (Z.of_nat t)) as Hw.
  { split; [change 0 with (inject_Z 0) |]; rewrite <- Zle_Qle; lia. }
  assert (is_fin (JS.of_nat w / JS.of_nat t * Fin 100)%J
                 (inject_Z (Z.of_nat w) / inject_Z (Z.of_nat t) * 100)) as (r & -> & Hr).
  { apply mul_is_fin; [| apply Fin_is].
    apply div_is_fin; [apply of_Z_is | apply of_Z_is | lra]. }
  exists r. split; [done |]. rewrite Hr.
  assert (0 <= inject_Z (Z.of_nat w) / inject_Z (Z.of_nat t) <= 1) as Hq.
  { split.
    - apply Qle_shift_div_l; [done | lra].
    - apply Qle_shift_div_r; [done | lra]. }
  lra.
Qed.

(** X12.  With at least 250 candles the counters of the results agree with
    the list of trades: [totalTrades] is its length, every trade is counted
    as winning or as losing, and the win rate is a number between 0 and
    100. *)
Theorem backtest_counts_every_trade
  (historicalData : list Candle.t) (options : Options.t) :
  (250 <= length historicalData)%nat ->
  exists results,
    backtestBreakoutStrategy historicalData options = Backtest.Results results
    /\ Backtest.totalTrades results = length (Backtest.trades results)
    /\ (Backtest.winningTrades results + Backtest.losingTrades results)%nat
       = Backtest.totalTrades results
    /\ exists r, Backtest.winRate results = Fin r /\ 0 <= r <= 100.
Proof.
  intros Hlong.
  destruct (backtest_returns_results historicalData options Hlong)
    as (tally & Hloop & Hresults).
  exists (statistics tally). split; [exact Hresults |].
  destruct (backtest_loop_invariant historicalData options
              (fun i tally => (200 <= i)%nat /\ counted tally))
    with (fuel := length historicalData) (i := 200%nat) (tally := empty_tally)
         (tally' := tally) as (j & _ & Hcounted); try done.
  - intros i bar tally0 tally1 held Hi Hbar [Hfrom [Htotal Hsum]] Hsim.
    split; [lia |].
    destruct (simulate_bar_records _ _ _ _ _ _ _ Hfrom Hi Hbar Hsim)
      as [[-> _] | (trade & Htrades & _ & Htotal' & Hsum')]; [done |].
    split; [rewrite Htrades, length_app; cbn; lia | lia].
  - rewrite statistics_trades.
    split; [| split; [| by apply winRate_range]].
    + unfold statistics. destruct (0 <? _)%nat; apply Hcounted.
    + unfold statistics. destruct (0 <? _)%nat; apply Hcounted.
Qed.

(** ** The gates of the signal generator *)

(** What an emitted signal says of the run that emitted it. *)
Lemma generate_emitted clock coinData options s :
  generateBreakoutSignal clock coinData options = Returns (Signal.Emitted s) ->
  exists hourlyData fourHourData dailyData lastHourly,
    CoinData.hourlyData coinData = Some hourlyData
    /\ CoinData.fourHourData coinData = Some fourHourData
    /\ CoinData.dailyData coinData = Some dailyData
    /\ last_obj hourlyData = Some lastHourly
    /\ let config := signal_config options in
       let mtf :=
         multiTimeframeAnalysis hourlyData fourHourData dailyData
                                (analysis_options config) in
       let twentyDayHigh := JS.max_list (map Candle.high (JS.slice_from dailyData (-20))) in
       let twentyDayLow := JS.min_list (map Candle.low (JS.slice_from dailyData (-20))) in
       (Candle.close lastHourly >? SignalConfig.maxPrice config)%J = false
       /\ (MTF.mtfScore mtf >=? SignalConfig.minMTFScore config)%J = true
       /\ (JS.of_Z (MTF.alignmentScore mtf) >=? SignalConfig.minAlignmentScore config)%J
          = true
       /\ (JS.of_Z (MTF.dailyScore mtf) >=? SignalConfig.minDailyScore config)%J = true
       /\ (String.eqb (MTF.profitPotential mtf) "High"
           || String.eqb (MTF.profitPotential mtf) "Very High"
           || (String.eqb (MTF.profitPotential mtf) "Medium"
               && (MTF.mtfScore mtf >? Fin 85)%J)) = true
       /\ (Signal.potentialLossPercent s >? SignalConfig.maxStopLossPercent config)%J
          = false
       /\ ((twentyDayHigh - Candle.close lastHourly) / Candle.close lastHourly * Fin 100
           <? Fin 3)%J = false
       /\ ((twentyDayHigh - twentyDayLow) / twentyDayLow >? Fin 0.5)%J = false
       /\ Signal.entryPrice s = Candle.close lastHourly
       /\ Signal.confidence s = calculateConfidenceScore mtf
       /\ Signal.score (Signal.mtfAnalysis s) = MTF.mtfScore mtf
       /\ Signal.alignmentScore (Signal.mtfAnalysis s) = MTF.alignmentScore mtf
       /\ Signal.dailyScore (Signal.mtfAnalysis s) = MTF.dailyScore mtf
       /\ Signal.profitPotential s = MTF.profitPotential mtf
       /\ Signal.riskLevel s = MTF.riskLevel mtf
       /\ Signal.stopLoss s = MTF.suggestedStopLoss mtf
       /\ Signal.takeProfit s = MTF.suggestedTakeProfit mtf
       /\ Signal.potentialLossPercent s
          = ((Candle.close lastHourly - JS.to_num (MTF.suggestedStopLoss mtf))
             / Candle.close lastHourly * Fin 100)%J
       /\ Signal.generatedAt s = fst clock
       /\ Signal.expiresAt s = getExpirationTime (snd clock)
       /\ Signal.symbol s = CoinData.symbol coinData
       /\ Signal.signals s = MTF.combinedSignals mtf.
Proof.
  unfold generateBreakoutSignal.
  destruct (CoinData.hourlyData coinData) as [hourlyData |]; [| intros [=]].
  destruct (CoinData.fourHourData coinData) as [fourHourData |]; [| intros [=]].
  destruct (CoinData.dailyData coinData) as [dailyData |]; [| intros [=]].
  destruct (last_obj hourlyData) as [lastHourly |] eqn:Hlast; [| intros [=]].
  match goal with
  | |- (if ?c then _ else _) = _ -> _ => destruct c eqn:Hprice; [intros [=] |]
  end.
  set (mtf := multiTimeframeAnalysis hourlyData fourHourData dailyData _).
  match goal with
  | |- (if ?c then _ else _) = _ -> _ => destruct c eqn:Hvalid; [intros [=] |]
  end.
  match goal with
  | |- (if ?c then _ else _) = _ -> _ => destruct c eqn:Hstop; [intros [=] |]
  end.
  match goal with
  | |- (if ?c then _ else _) = _ -> _ => destruct c eqn:Hhigh; [intros [=] |]
  end.
  match goal with
  | |- (if ?c then _ else _) = _ -> _ => destruct c eqn:Hvolatility; [intros [=] |]
  end.
  match goal with
  | |- Returns (Signal.Emitted ?r) = _ -> _ => set (signal := r)
  end.
  intros Hs.
  assert (s = signal) as -> by congruence.
  clear Hs.
  exists hourlyData, fourHourData, dailyData, lastHourly.
  do 3 (split; [reflexivity |]). split; [exact Hlast |].
  cbv zeta. fold mtf.
  apply negb_false_iff in Hvalid.
  apply andb_true_iff in Hvalid as [Hvalid Hpotential].
  apply andb_true_iff in Hvalid as [Hvalid Hdaily].
  apply andb_true_iff in Hvalid as [Hscore Halign].
  split; [exact Hprice |]. split; [exact Hscore |]. split; [exact Halign |].
  split; [exact Hdaily |]. split; [exact Hpotential |]. split; [exact Hstop |].
  split; [exact Hhigh |]. split; [exact Hvolatility |].
  repeat split.
Qed.

(** The expiry in a time zone whose offset never changes: twenty-four
    hours of real time after the reading of the clock. *)
Lemma getExpirationTime_fixed_offset now :
  (forall t isUTC, LocalTZA t isUTC = LocalTZA 0 true) ->
  getExpirationTime now = (now + 86400000)%Z.
Proof.
  intros Hzone. unfold getExpirationTime, UTC, LocalTime.
  rewrite (Hzone now true), (Hzone _ false). lia.
Qed.

(** X13.  An emitted signal has passed every gate of the generator: the
    three series were there; its entry price, the close of the last hourly
    candle, is not above the maximum price; its multi-timeframe, alignment
    and daily scores reach their minimums; its profit potential is High or
    Very High, or Medium with a score above 85; its stop-loss distance is
    not above the maximum; the high of the last twenty daily candles is not
    within three percent of the entry price; and the range of those candles
    is not above half of their low.  It was generated at the first reading
    of the clock and expires at the instant whose local time is twenty-four
    hours after the local time of the second reading, which is twenty-four
    hours later where the offset of the time zone does not change. *)
Theorem emitted_signal_passed_the_gates
  (clock : Z * Z) (coinData : CoinData.t) (options : Options.t) (s : Signal.t) :
  generateBreakoutSignal clock coinData options = Returns (Signal.Emitted s) ->
  (exists hourlyData fourHourData dailyData lastHourly,
      CoinData.hourlyData coinData = Some hourlyData
      /\ CoinData.fourHourData coinData = Some fourHourData
      /\ CoinData.dailyData coinData = Some dailyData
      /\ last_obj hourlyData = Some lastHourly
      /\ Signal.entryPrice s = Candle.close lastHourly
      /\ let twentyDayHigh :=
           JS.max_list (map Candle.high (JS.slice_from dailyData (-20))) in
         let twentyDayLow :=
           JS.min_list (map Candle.low (JS.slice_from dailyData (-20))) in
         ((twentyDayHigh - Signal.entryPrice s) / Signal.entryPrice s * Fin 100
          <? Fin 3)%J = false
         /\ ((twentyDayHigh - twentyDayLow) / twentyDayLow >? Fin 0.5)%J = false)
  /\ (Signal.entryPrice s >? or_default (Options.maxPrice options) (Fin 1.0))%J = false
  /\ (Signal.score (Signal.mtfAnalysis s)
      >=? or_default (Options.minMTFScore options) (Fin 75))%J = true
  /\ (JS.of_Z (Signal.alignmentScore (Signal.mtfAnalysis s))
      >=? or_default (Options.minAlignmentScore options) (Fin 4))%J = true
  /\ (JS.of_Z (Signal.dailyScore (Signal.mtfAnalysis s))
      >=? or_default (Options.minDailyScore options) (Fin 65))%J = true
  /\ (Signal.profitPotential s = "High"%string
      \/ Signal.profitPotential s = "Very High"%string
      \/ (Signal.profitPotential s = "Medium"%string
          /\ (Signal.score (Signal.mtfAnalysis s) >? Fin 85)%J = true))
  /\ (Signal.potentialLossPercent s
      >? or_default (Options.maxStopLossPercent options) (Fin 5))%J = false
  /\ Signal.generatedAt s = fst clock
  /\ Signal.expiresAt s = UTC (LocalTime (snd clock) + 86400000)
  /\ ((forall t isUTC, LocalTZA t isUTC = LocalTZA 0 true) ->
      Signal.expiresAt s = (snd clock + 86400000)%Z).
Proof.
  intros Hs.
  destruct (generate_emitted _ _ _ _ Hs)
    as (hourlyData & fourHourData & dailyData & lastHourly & Hhourly & Hfour & Hday
        & Hlast & Hprice & Hscore & Halign & Hdaily & Hpotential & Hstop & Hhigh
        & Hvolatility & Hentry & _ & Hs1 & Hs2 & Hs3 & Hpp & _ & _ & _ & _ & Hat
        & Huntil & _).
  split.
  { exists hourlyData, fourHourData, dailyData, lastHourly.
    do 5 (split; [assumption |]). cbv zeta. rewrite Hentry. by split. }
  rewrite Hentry, Hs1, Hs2, Hs3, Hpp.
  split; [exact Hprice |]. split; [exact Hscore |]. split; [exact Halign |].
  split; [exact Hdaily |].
  split.
  { apply orb_true_iff in Hpotential as [Hpotential | Hmedium].
    - apply orb_true_iff in Hpotential as [Hhi | Hvery].
      + left. by apply String.eqb_eq.
      + right; left. by apply String.eqb_eq.
    - right; right. apply andb_true_iff in Hmedium as [Hmedium Hgt].
      split; [by apply String.eqb_eq | exact Hgt]. }
  split; [exact Hstop |]. split; [exact Hat |].
  split; [exact Huntil |].
  intros Hzone. rewrite Huntil. by apply getExpirationTime_fixed_offset.
Qed.

Lemma ge_of_Z z k :
  (JS.of_Z z >=? Fin (inject_Z k))%J = true -> (k <= z)%Z.
Proof.
  unfold JS.ge, JS.of_Z, JS.le. intros H. apply Qle_bool_iff in H.
  by rewrite <- Zle_Qle in H.
Qed.

(** The confidence of an aggregate whose score is at least 75, whose
    alignment is at least 4 and whose profit potential passed the gate. *)
Lemma confidence_at_least mtf m :
  MTF.mtfScore mtf = JS.of_Z m ->
  (75 <= m)%Z ->
  (4 <= MTF.alignmentScore mtf)%Z ->
  MTF.profitPotential mtf = "Very High"%string
  \/ MTF.profitPotential mtf = "High"%string
  \/ (85 < m)%Z ->
  exists c, calculateConfidenceScore mtf = Fin c /\ 8.5 <= c <= 10.
Proof.
  intros Hm Hscore Halign Hcase. unfold calculateConfidenceScore. rewrite Hm.
  assert (75 <= inject_Z m) as Hq75
    by (change 75 with (inject_Z 75); rewrite <- Zle_Qle; lia).
  set (b1 := if (6 <=? MTF.alignmentScore mtf)%Z then 1
             else if (4 <=? MTF.alignmentScore mtf)%Z then 0.5 else 0).
  set (b2 := if String.eqb (MTF.profitPotential mtf) "Very High" then 1
             else if String.eqb (MTF.profitPotential mtf) "High" then 0.5 else 0).
  assert (0.5 <= b1) as Hb1.
  { subst b1. destruct (6 <=? _)%Z; [lra |].
    destruct (Z.leb_spec 4 (MTF.alignmentScore mtf)); [lra | lia]. }
  assert (0 <= b2) as Hb2 by (subst b2; repeat destruct (String.eqb _ _); lra).
  assert (85 <= inject_Z m + 10 * b1 + 10 * b2) as Hlow.
  { destruct Hcase as [Hv | [Hh | H85]].
    - subst b2. rewrite Hv. cbn. lra.
    - subst b2. rewrite Hh. cbn. lra.
    - assert (86 <= inject_Z m)
        by (change 86 with (inject_Z 86); rewrite <- Zle_Qle; lia). lra. }
  match goal with
  | |- context [JS.round (?s * Fin 10)%J] =>
      assert (is_fin s (inject_Z m / 10 + b1 + b2)) as Hs
  end.
  { assert (is_fin (JS.of_Z m / Fin 10)%J (inject_Z m / 10)) as H0
      by (apply div_is_fin; [apply of_Z_is | apply Fin_is | lra]).
    subst b1 b2.
    destruct (6 <=? _)%Z; [| destruct (4 <=? _)%Z];
      (destruct (String.eqb _ "Very High"); [| destruct (String.eqb _ "High")]);
      (eapply is_fin_eq; [fin_value | lra]). }
  set (n := Qfloor ((inject_Z m / 10 + b1 + b2) * 10 + (1 # 2))).
  assert (85 <= n)%Z as Hn.
  { change 85%Z with (Qfloor 85). apply Qfloor_resp_le.
    assert ((inject_Z m / 10 + b1 + b2) * 10 == inject_Z m + 10 * b1 + 10 * b2) as ->
      by field.
    lra. }
  match goal with
  | |- context [(JS.round ?e / Fin 10)%J] =>
      assert (is_fin (JS.round e / Fin 10)%J (inject_Z n / 10)) as Hc
  end.
  { apply div_is_fin; [| apply Fin_is | lra].
    apply round_is_fin. apply mul_is_fin; [exact Hs | apply Fin_is]. }
  destruct Hc as (c & -> & Hc).
  assert (85 <= inject_Z n) as Hqn
    by (change 85 with (inject_Z 85); rewrite <- Zle_Qle; lia).
  rewrite min2_Fin.
  destruct (Qle_bool 10 c) eqn:E.
  - exists 10. split; [done | lra].
  - apply Qle_bool_false in E. exists c. split; [done |].
    rewrite Hc. split; [| rewrite <- Hc; lra].
    apply Qle_shift_div_l; lra.
Qed.

Lemma candidate_score data options :
  Analysis.isBreakoutCandidate (analyzeBreakout data options)
  = (70 <=? Analysis.breakoutScore (analyzeBreakout data options))%Z.
Proof. reflexivity. Qed.

(** The alignment score lies between 0 and 6, and from 4 on it includes the
    daily series, whose score is then at least 70. *)
Lemma alignment_and_daily_score hourlyData fourHourData dailyData options :
  let mtf := multiTimeframeAnalysis hourlyData fourHourData dailyData options in
  (0 <= MTF.alignmentScore mtf <= 6)%Z
  /\ (4 <= MTF.alignmentScore mtf -> 70 <= MTF.dailyScore mtf)%Z.
Proof.
  cbv zeta. unfold multiTimeframeAnalysis. cbn [MTF.alignmentScore MTF.dailyScore].
  rewrite (candidate_score dailyData).
  destruct (Z.leb_spec 70 (Analysis.breakoutScore (analyzeBreakout dailyData options)));
    destruct (Analysis.isBreakoutCandidate (analyzeBreakout hourlyData options));
    destruct (Analysis.isBreakoutCandidate (analyzeBreakout fourHourData options));
    lia.
Qed.

(** X14.  Under the default minimums of the multi-timeframe score (75) and
    of the alignment (4), an emitted signal has a confidence between 8.5
    and 10, a score between 75 and 100, an alignment of 4 to 6 and a daily
    score of at least 70.  Of the six tests of the default high-accuracy
    filter, those of the minimum confidence, of the multi-timeframe score
    and of the alignment therefore always pass on it; what remains are the
    tests of the success probability (at least 80), of the reward-to-risk
    ratio (at least 2.5) and of the risk level, and the last of these still
    reads the confidence: a signal of High risk passes only with a
    confidence above 8.5. *)
Theorem default_signal_is_confident
  (clock : Z * Z) (coinData : CoinData.t) (options : Options.t) (s : Signal.t) :
  generateBreakoutSignal clock coinData options = Returns (Signal.Emitted s) ->
  or_default (Options.minMTFScore options) (Fin 75) = Fin 75 ->
  or_default (Options.minAlignmentScore options) (Fin 4) = Fin 4 ->
  (exists c, Signal.confidence s = Fin c /\ 8.5 <= c <= 10)
  /\ (exists m, Signal.score (Signal.mtfAnalysis s) = JS.of_Z m /\ (75 <= m <= 100)%Z)
  /\ (4 <= Signal.alignmentScore (Signal.mtfAnalysis s) <= 6)%Z
  /\ (70 <= Signal.dailyScore (Signal.mtfAnalysis s))%Z
  /\ passes_filters (filter_config FilterOptions.empty) s
     = (Signal.successProbability s >=? Fin 80)%J
       && (Signal.riskRewardRatio s >=? Fin 2.5)%J
       && (String.eqb (Signal.riskLevel s) "Low"
           || String.eqb (Signal.riskLevel s) "Medium"
           || (String.eqb (Signal.riskLevel s) "High"
               && (Signal.confidence s >? Fin 8.5)%J)).
Proof.
  intros Hs HminScore HminAlign.
  destruct (generate_emitted _ _ _ _ Hs)
    as (hourlyData & fourHourData & dailyData & lastHourly & _ & _ & _ & _
        & _ & Hscore & Halign & _ & Hpotential & _ & _ & _
        & _ & Hconfidence & Hs1 & Hs2 & Hs3 & _).
  set (mtf := multiTimeframeAnalysis hourlyData fourHourData dailyData
                (analysis_options (signal_config options))) in *.
  destruct (mtf_score_value hourlyData fourHourData dailyData
              (analysis_options (signal_config options)))
    as (m & Hm & Hrange & _).
  fold mtf in Hm.
  change (SignalConfig.minMTFScore (signal_config options))
    with (or_default (Options.minMTFScore options) (Fin 75)) in Hscore.
  change (SignalConfig.minAlignmentScore (signal_config options))
    with (or_default (Options.minAlignmentScore options) (Fin 4)) in Halign.
  rewrite HminScore in Hscore. rewrite HminAlign in Halign.
  rewrite Hm in Hscore.
  apply (ge_of_Z m 75) in Hscore. apply (ge_of_Z _ 4) in Halign.
  destruct (alignment_and_daily_score hourlyData fourHourData dailyData
              (analysis_options (signal_config options))) as [[_ Hsix] Hdaily].
  fold mtf in Hsix, Hdaily.
  assert (exists c, Signal.confidence s = Fin c /\ 8.5 <= c <= 10) as Hc.
  { rewrite Hconfidence. apply (confidence_at_least mtf m Hm); [lia | lia |].
    apply orb_true_iff in Hpotential as [Hpotential | Hmedium].
    - apply orb_true_iff in Hpotential as [Hhigh | Hvery].
      + right; left. by apply String.eqb_eq.
      + left. by apply String.eqb_eq.
    - right; right. apply andb_true_iff in Hmedium as [_ Hgt].
      rewrite Hm in Hgt. unfold JS.gt in Hgt.
      rewrite (lt_fin _ _ 85 (inject_Z m) (Fin_is _) (of_Z_is _)) in Hgt.
      apply Qlt_bool_iff in Hgt. change 85 with (inject_Z 85) in Hgt.
      by rewrite <- Zlt_Qlt in Hgt. }
  split; [exact Hc |].
  split; [exists m; rewrite Hs1; split; [exact Hm | lia] |].
  split; [rewrite Hs2; lia |]. split; [rewrite Hs3; lia |].
  unfold passes_filters.
  change (Filters.minConfidence (filter_config FilterOptions.empty)) with (Fin 7.5).
  change (Filters.minSuccessProbability (filter_config FilterOptions.empty))
    with (Fin 80).
  change (Filters.minRiskRewardRatio (filter_config FilterOptions.empty))
    with (Fin 2.5).
  change (Filters.minMTFScore (filter_config FilterOptions.empty)) with (Fin 75).
  change (Filters.minAlignmentScore (filter_config FilterOptions.empty)) with (Fin 4).
  destruct Hc as (c & Hc & Hlow & _).
  assert ((Signal.confidence s >=? Fin 7.5)%J = true) as ->.
  { rewrite Hc. apply Qle_bool_iff. lra. }
  assert ((Signal.score (Signal.mtfAnalysis s) >=? Fin 75)%J = true) as ->.
  { rewrite Hs1, Hm. apply Qle_bool_iff. change 75 with (inject_Z 75).
    rewrite <- Zle_Qle. lia. }
  assert ((JS.of_Z (Signal.alignmentScore (Signal.mtfAnalysis s)) >=? Fin 4)%J = true)
    as ->.
  { rewrite Hs2. apply Qle_bool_iff. change 4 with (inject_Z 4).
    rewrite <- Zle_Qle. lia. }
  cbn [andb]. by rewrite !andb_true_r.
Qed.

(** ** The edges of the signal generator *)

Lemma last_obj_None {A} (l : list A) : last_obj l = None <-> l = [].
Proof.
  unfold last_obj, JS.nth_opt. destruct l as [| x l]; [done |].
  split; [| done]. cbn [length].
  destruct (Z.ltb_spec (Z.of_nat (S (length l)) - 1) 0); [lia |].
  intros Hnone. apply lookup_ge_None in Hnone. cbn in Hnone. lia.
Qed.

(** X15.  [generateBreakoutSignal] throws in one case only: the three
    timeframes are there and the hourly one is empty, the read of its last
    candle being a [TypeError].  When a timeframe is missing it returns the
    rejection "Missing required timeframe data", also for an empty hourly
    series. *)
Theorem generator_throws_only_on_empty_hourly_data
  (clock : Z * Z) (coinData : CoinData.t) (options : Options.t) :
  ((exists what, generateBreakoutSignal clock coinData options = Throws what)
   <-> CoinData.hourlyData coinData = Some []
       /\ CoinData.fourHourData coinData <> None
       /\ CoinData.dailyData coinData <> None)
  /\ (CoinData.hourlyData coinData = None
      \/ CoinData.fourHourData coinData = None
      \/ CoinData.dailyData coinData = None ->
      generateBreakoutSignal clock coinData options
      = Returns (Signal.Rejected Signal.MissingData)).
Proof.
  unfold generateBreakoutSignal.
  destruct (CoinData.hourlyData coinData) as [hourlyData |],
    (CoinData.fourHourData coinData) as [fourHourData |],
    (CoinData.dailyData coinData) as [dailyData |];
    try (split; [split; [intros [what H]; discriminate H | intros (H1 & H2 & H3); done]
                | intros _; reflexivity]).
  split; [| intros [H | [H | H]]; discriminate H].
  destruct (last_obj hourlyData) as [lastHourly |] eqn:Hlast.
  - split.
    + intros [what H]. exfalso. revert H.
      repeat match goal with
             | |- (if ?c then _ else _) = _ -> _ => destruct c
             end; intros H; discriminate H.
    + intros ([= ->] & _). discriminate Hlast.
  - apply last_obj_None in Hlast as ->. split; [done |].
    intros _. by eexists.
Qed.

(** X16.  The options [riskRewardRatio] and [minProfitPotential] are merged
    into the configuration and never read: whatever they are set to,
    [generateBreakoutSignal] returns the same result. *)
Theorem generator_ignores_two_options
  (clock : Z * Z) (coinData : CoinData.t) (options : Options.t)
  (ratio : jsval) (potential : option string) :
  generateBreakoutSignal clock coinData (set_option RiskRewardRatio ratio options)
  = generateBreakoutSignal clock coinData options
  /\ generateBreakoutSignal clock coinData (with_minProfitPotential potential options)
     = generateBreakoutSignal clock coinData options.
Proof.
  split.
  - unfold generateBreakoutSignal.
    change (analysis_options (signal_config (set_option RiskRewardRatio ratio options)))
      with (analysis_options (signal_config options)).
    change (SignalConfig.maxPrice
              (signal_config (set_option RiskRewardRatio ratio options)))
      with (SignalConfig.maxPrice (signal_config options)).
    change (SignalConfig.minMTFScore
              (signal_config (set_option RiskRewardRatio ratio options)))
      with (SignalConfig.minMTFScore (signal_config options)).
    change (SignalConfig.minAlignmentScore
              (signal_config (set_option RiskRewardRatio ratio options)))
      with (SignalConfig.minAlignmentScore (signal_config options)).
    change (SignalConfig.minDailyScore
              (signal_config (set_option RiskRewardRatio ratio options)))
      with (SignalConfig.minDailyScore (signal_config options)).
    change (SignalConfig.maxStopLossPercent
              (signal_config (set_option RiskRewardRatio ratio options)))
      with (SignalConfig.maxStopLossPercent (signal_config options)).
    reflexivity.
  - unfold generateBreakoutSignal.
    change (analysis_options (signal_config (with_minProfitPotential potential options)))
      with (analysis_options (signal_config options)).
    change (SignalConfig.maxPrice
              (signal_config (with_minProfitPotential potential options)))
      with (SignalConfig.maxPrice (signal_config options)).
    change (SignalConfig.minMTFScore
              (signal_config (with_minProfitPotential potential options)))
      with (SignalConfig.minMTFScore (signal_config options)).
    change (SignalConfig.minAlignmentScore
              (signal_config (with_minProfitPotential potential options)))
      with (SignalConfig.minAlignmentScore (signal_config options)).
    change (SignalConfig.minDailyScore
              (signal_config (with_minProfitPotential potential options)))
      with (SignalConfig.minDailyScore (signal_config options)).
    change (SignalConfig.maxStopLossPercent
              (signal_config (with_minProfitPotential potential options)))
      with (SignalConfig.maxStopLossPercent (signal_config options)).
    reflexivity.
Qed.

(** ** The candidates and the short inputs of the optimizer *)

Lemma code_range_ordered f : fst (code_range f) <= snd (code_range f).
Proof. destruct f; cbn; lra. Qed.

(** The clamp of a perturbed value lies within the bounds, unless the base
    value is [NaN]. *)
Lemma clamped_in_range range amount base r :
  fst range <= snd range ->
  base <> NaN ->
  exists v, clamped range amount base (Fin r) = Fin v /\ fst range <= v <= snd range.
Proof.
  intros Hrange Hbase. unfold clamped.
  assert (exists y, is_fin ((Fin r * Fin 2 - Fin 1) * Fin amount)%J y)
    as (y & a & -> & _) by (eexists; fin_value).
  destruct base as [b | | |]; [| | | done].
  - change (Fin b + Fin a)%J with (JS.fin (b + a)). unfold JS.fin.
    rewrite min2_Fin.
    destruct (Qle_bool (snd range) (Qred (b + a))) eqn:Ehi; rewrite max2_Fin.
    + destruct (Qle_bool (fst range) (snd range)) eqn:Elo.
      * exists (snd range). split; [done | lra].
      * apply Qle_bool_false in Elo. lra.
    + apply Qle_bool_false in Ehi.
      destruct (Qle_bool (fst range) (Qred (b + a))) eqn:Elo.
      * apply Qle_bool_iff in Elo. exists (Qred (b + a)). split; [done | lra].
      * exists (fst range). split; [done | lra].
  - change (JS.min2 (Fin (snd range)) (PInf + Fin a)%J) with (Fin (snd range)).
    rewrite max2_Fin.
    destruct (Qle_bool (fst range) (snd range)) eqn:Elo.
    + exists (snd range). split; [done | lra].
    + apply Qle_bool_false in Elo. lra.
  - exists (fst range). split; [done | lra].
Qed.

Lemma variations_length count baseParams :
  forall k,
    length (fst (variations count baseParams k)) = count
    /\ snd (variations count baseParams k) = (k + 9 * count)%nat.
Proof.
  induction count as [| count IH]; intros k; cbn [variations]; [cbn; lia |].
  pose proof (variation_next baseParams k) as Hnext.
  destruct (variation baseParams k) as [params k1]. cbn in Hnext. subst k1.
  destruct (IH (k + 9)%nat) as [Hlen Hk].
  destruct (variations count baseParams (k + 9)) as [rest k2].
  cbn in Hlen, Hk |- *. lia.
Qed.

(** X17.  With draws that are finite numbers and a base parameter that is
    not [NaN], each of the ten candidates of a generation has that
    parameter within the bounds of the source; a generation takes ninety
    draws. *)
Theorem candidates_lie_within_the_bounds
  (baseParams candidate : Params.t) (k j : nat) (f : param_field) :
  (forall n, exists r, random n = Fin r) ->
  param f baseParams <> NaN ->
  fst (generateParameterVariations baseParams k) !! j = Some candidate ->
  (exists v,
      param f candidate = Fin v
      /\ fst (code_range f) <= v <= snd (code_range f))
  /\ length (fst (generateParameterVariations baseParams k)) = 10%nat
  /\ snd (generateParameterVariations baseParams k) = (k + 90)%nat.
Proof.
  intros Hdraws Hbase Hj. unfold generateParameterVariations in *.
  destruct (variations_length 10 baseParams k) as [Hlen Hk].
  split; [| split; [exact Hlen | rewrite Hk; lia]].
  rewrite (variations_lookup _ _ _ _ _ Hj), variation_field.
  destruct (Hdraws (k + 9 * j + draw_index f)%nat) as [r ->].
  apply clamped_in_range; [apply code_range_ordered | exact Hbase].
Qed.

Lemma evaluate_short_data historicalData params :
  (length historicalData < 250)%nat ->
  evaluateParameters historicalData params = Fin 0
  /\ calculateWinRate historicalData params = Fin 0.
Proof.
  intros Hshort. unfold evaluateParameters, calculateWinRate, backtestBreakoutStrategy.
  by destruct (Nat.ltb_spec (length historicalData) 250); [| lia].
Qed.

Lemma optimize_loop_short_data historicalData generations :
  (length historicalData < 250)%nat ->
  forall params k,
    fst (optimize_loop historicalData generations (params, Fin 0) k) = (params, Fin 0).
Proof.
  intros Hshort. induction generations as [| generations IH]; intros params k; [done |].
  cbn [optimize_loop fst].
  destruct (generateParameterVariations params k) as [candidates k'].
  assert (foldl (consider historicalData) (params, Fin 0) candidates = (params, Fin 0))
    as ->; [| apply IH].
  induction candidates as [| candidate candidates IHc]; [done |].
  cbn [foldl]. unfold consider at 2.
  rewrite (proj1 (evaluate_short_data historicalData candidate Hshort)). exact IHc.
Qed.

(** X18.  On fewer than 250 candles every parameter set scores zero, so
    the optimizer returns the default-merged initial parameters with a
    score and a win rate of zero, whatever the number of generations and
    the draws. *)
Theorem optimizer_keeps_initial_on_short_data
  (historicalData : list Candle.t) (initialParams : Options.t) (generations k : nat) :
  (length historicalData < 250)%nat ->
  optimizeParameters historicalData initialParams generations k
  = {| Optimum.parameters := initial_params initialParams;
       Optimum.score := Fin 0;
       Optimum.winRate := Fin 0 |}.
Proof.
  intros Hshort. unfold optimizeParameters.
  rewrite (proj1 (evaluate_short_data historicalData _ Hshort)).
  pose proof (optimize_loop_short_data historicalData generations Hshort
                (initial_params initialParams) k) as Hloop.
  destruct (optimize_loop _ _ _ _) as [[bestParams bestScore] k'].
  cbn in Hloop. injection Hloop as -> ->.
  by rewrite (proj2 (evaluate_short_data historicalData _ Hshort)).
Qed.

(** ** The range of the RSI *)

Lemma price_changes_finite prices : Forall finite (price_changes (map Fin prices)).
Proof.
  apply Forall_lookup. intros i x Hx.
  assert (i < length prices)%nat as Hi.
  { apply lookup_lt_Some in Hx. by rewrite length_price_changes, length_map in Hx. }
  rewrite price_changes_lookup in Hx by (by rewrite length_map).
  injection Hx as <-.
  destruct (Nat.eqb_spec i 0) as [-> | Hpos]; [exists 0; apply Fin_is |].
  destruct (lookup_lt_is_Some_2 prices i Hi) as [q1 Hq1].
  destruct (lookup_lt_is_Some_2 prices (i - 1)) as [q0 Hq0]; [lia |].
  replace (Z.of_nat i - 1)%Z with (Z.of_nat (i - 1)) by lia.
  rewrite (get_map_Fin _ _ _ Hq1), (get_map_Fin _ _ _ Hq0).
  exists (q1 - q0). fin_value.
Qed.

Lemma gain_nonneg change :
  finite change -> finite_nonneg (if (change >? Fin 0)%J then change else Fin 0).
Proof.
  intros [d Hd]. unfold JS.gt.
  rewrite (lt_fin _ _ 0 d (Fin_is _) Hd).
  destruct (JS.Qlt_bool 0 d) eqn:E.
  - apply Qlt_bool_iff in E. exists d. split; [done | lra].
  - exists 0. split; [apply Fin_is | lra].
Qed.

Lemma loss_nonneg change :
  finite change -> finite_nonneg (if (change <? Fin 0)%J then JS.abs change else Fin 0).
Proof.
  intros [d Hd]. destruct (change <? Fin 0)%J.
  - exists (Qabs d). split; [by apply abs_is_fin | apply Qabs_nonneg].
  - exists 0. split; [apply Fin_is | lra].
Qed.

Lemma add_change_nonneg gainSum lossSum change :
  finite_nonneg gainSum -> finite_nonneg lossSum -> finite change ->
  finite_nonneg (fst (add_change (gainSum, lossSum) change))
  /\ finite_nonneg (snd (add_change (gainSum, lossSum) change)).
Proof.
  intros (G & HG & HG0) (L & HL & HL0) [d Hd]. unfold add_change, JS.gt.
  rewrite (lt_fin _ _ 0 d (Fin_is _) Hd).
  destruct (JS.Qlt_bool 0 d) eqn:E; cbn [fst snd].
  - apply Qlt_bool_iff in E.
    split; [exists (G + d); split; [fin_value | lra] | by exists L].
  - split; [by exists G |].
    exists (L + Qabs d). split; [fin_value |].
    pose proof (Qabs_nonneg d). lra.
Qed.

Lemma initial_sums_nonneg changes :
  Forall finite changes ->
  forall sums,
    finite_nonneg (fst sums) -> finite_nonneg (snd sums) ->
    finite_nonneg (fst (foldl add_change sums changes))
    /\ finite_nonneg (snd (foldl add_change sums changes)).
Proof.
  induction 1 as [| change changes Hchange _ IH]; intros [g l] Hg Hl; [done |].
  cbn [foldl]. destruct (add_change_nonneg g l change Hg Hl Hchange) as [Hg' Hl'].
  by apply IH.
Qed.

Lemma average_nonneg sum period :
  (1 <= period)%nat -> finite_nonneg sum -> finite_nonneg (sum / JS.of_nat period)%J.
Proof.
  intros Hp (S & HS & HS0). pose proof (period_positive period Hp) as Hpos.
  exists (S / inject_Z (Z.of_nat period)). split.
  - apply div_is_fin; [done | apply of_Z_is | lra].
  - apply Qle_shift_div_l; [done | lra].
Qed.

Lemma smooth_nonneg period avg cur :
  (1 <= period)%nat -> finite_nonneg avg -> finite_nonneg cur ->
  finite_nonneg ((avg * JS.of_Z (Z.of_nat period - 1) + cur) / JS.of_nat period)%J.
Proof.
  intros Hp (A & HA & HA0) (C & HC & HC0).
  pose proof (period_positive period Hp) as Hpos.
  eexists. split; [by apply smooth_is_fin |].
  assert (0 <= inject_Z (Z.of_nat period - 1)) as Hpred
    by (change 0 with (inject_Z 0); rewrite <- Zle_Qle; lia).
  apply Qle_shift_div_l; [done |]. rewrite Qmult_0_l.
  pose proof (Qmult_le_0_compat _ _ HA0 Hpred). lra.
Qed.

(** [100 - 100 / (1 + rs)] with [rs >= 0]. *)
Lemma rsi_of_range avgGain avgLoss :
  finite_nonneg avgGain -> finite_nonneg avgLoss ->
  exists v, rsi_of avgGain avgLoss = Fin v /\ 0 <= v <= 100.
Proof.
  intros (G & HG & HG0) (L & HL & HL0). unfold rsi_of.
  assert (exists D, is_fin (if (avgLoss === Fin 0)%J then Fin 0.001 else avgLoss) D
                    /\ 0 < D) as (D & HD & HD0).
  { rewrite (eq_fin _ _ L 0 HL (Fin_is _)).
    destruct (Qeq_bool L 0) eqn:E.
    - exists 0.001. split; [apply Fin_is | reflexivity].
    - exists L. split; [done |]. apply Qeq_bool_neq in E. lra. }
  assert (0 <= G / D) as Hrs by (apply Qle_shift_div_l; [done | lra]).
  assert (is_fin (Fin 100 - Fin 100 / (Fin 1 + avgGain / (if (avgLoss === Fin 0)%J
                                                         then Fin 0.001 else avgLoss)))%J
                 (100 - 100 / (1 + G / D))) as (v & -> & Hv).
  { apply sub_is_fin; [apply Fin_is |].
    apply div_is_fin; [apply Fin_is | | lra].
    apply add_is_fin; [apply Fin_is |].
    apply div_is_fin; [done | done | lra]. }
  exists v. split; [done |]. rewrite Hv.
  assert (0 < 100 / (1 + G / D) <= 100) as [Hlow Hhigh].
  { split.
    - apply Qlt_shift_div_l; lra.
    - apply Qle_shift_div_r; lra. }
  lra.
Qed.

Lemma rsi_loop_range period changes :
  (1 <= period)%nat ->
  Forall finite changes ->
  forall avgGain avgLoss,
    finite_nonneg avgGain -> finite_nonneg avgLoss ->
    Forall (fun v => exists x q, v = Num (Fin x) /\ x == q /\ 0 <= q <= 100)
           (rsi_loop period avgGain avgLoss changes).
Proof.
  intros Hp. induction 1 as [| change changes Hchange _ IH];
    intros avgGain avgLoss Hg Hl; cbn [rsi_loop]; [constructor |].
  pose proof (smooth_nonneg period _ _ Hp Hg (gain_nonneg change Hchange)) as Hg'.
  pose proof (smooth_nonneg period _ _ Hp Hl (loss_nonneg change Hchange)) as Hl'.
  constructor; [| by apply IH].
  destruct (rsi_of_range _ _ Hg' Hl') as (v & -> & Hv). by exists v, v.
Qed.

(** X19.  On prices of ordinary size every value of the RSI is a finite
    number between 0 and 100. *)
Theorem rsi_lies_between_0_and_100 (prices : list Q) (period i : nat) (r : num) :
  (1 <= period)%nat ->
  Forall ordinary prices ->
  calculateRSI (map Fin prices) period !! i = Some (Num r) ->
  exists v, r = Fin v /\ 0 <= v <= 100.
Proof.
  intros Hp _. unfold calculateRSI.
  destruct (_ <? _)%nat.
  { intros H. apply lookup_replicate in H as [H _]. discriminate H. }
  pose proof (price_changes_finite prices) as Hchanges.
  set (changes := price_changes (map Fin prices)) in *.
  destruct (initial_sums_nonneg (take period (drop 1 changes))
              ltac:(by apply Forall_take, Forall_drop) (Fin 0, Fin 0))
    as [Hg Hl]; [exists 0; split; [apply Fin_is | lra] .. |].
  unfold initial_sums.
  destruct (foldl add_change (Fin 0, Fin 0) (take period (drop 1 changes)))
    as [gainSum lossSum].
  cbn [fst snd] in Hg, Hl.
  pose proof (average_nonneg _ period Hp Hg) as Hg'.
  pose proof (average_nonneg _ period Hp Hl) as Hl'.
  intros H. apply list_elem_of_lookup_2 in H.
  apply elem_of_app in H as [H | H].
  { apply elem_of_replicate in H as [H _]. discriminate H. }
  apply elem_of_cons in H as [H | H].
  - injection H as ->. apply rsi_of_range; done.
  - pose proof (rsi_loop_range period (drop (period + 1) changes) Hp
                  ltac:(by apply Forall_drop) _ _ Hg' Hl') as Hloop.
    rewrite Forall_forall in Hloop.
    destruct (Hloop _ H) as (x & q & [= ->] & Hx & Hq).
    exists x. split; [done |]. rewrite Hx. exact Hq.
Qed.

(** ** The sign of the ATR *)

Lemma max_list_three a b c :
  finite a -> finite_nonneg b -> finite c -> finite_nonneg (JS.max_list [a; b; c]).
Proof.
  intros (A & a' & -> & _) (B & (b' & -> & Hb) & HB) (C & c' & -> & _).
  unfold JS.max_list. cbn [foldl].
  change (JS.max2 NInf (Fin a')) with (Fin a').
  rewrite max2_Fin.
  destruct (Qle_bool a' b') eqn:E1; rewrite max2_Fin.
  - destruct (Qle_bool b' c') eqn:E2.
    + apply Qle_bool_iff in E2. exists c'. split; [apply Fin_is | lra].
    + exists b'. split; [apply Fin_is | lra].
  - apply Qle_bool_false in E1.
    destruct (Qle_bool a' c') eqn:E2.
    + apply Qle_bool_iff in E2. exists c'. split; [apply Fin_is | lra].
    + exists a'. split; [apply Fin_is | lra].
Qed.

Lemma true_ranges_nonneg highs lows closes :
  length highs = length lows -> length lows = length closes ->
  (forall h l, highs !! 0%nat = Some h -> lows !! 0%nat = Some l -> l <= h) ->
  Forall finite_nonneg (true_ranges (map Fin highs) (map Fin lows) (map Fin closes)).
Proof.
  intros Hhl Hlc Hfirst. apply Forall_lookup. intros i x Hx.
  assert (i < length highs)%nat as Hi.
  { apply lookup_lt_Some in Hx. by rewrite length_true_ranges, length_map in Hx. }
  unfold true_ranges in Hx. rewrite length_map, lookup_map_seq in Hx by done.
  injection Hx as <-.
  destruct (lookup_lt_is_Some_2 highs i Hi) as [h Hh].
  destruct (lookup_lt_is_Some_2 lows i) as [l Hl]; [lia |].
  destruct (Nat.eqb_spec i 0) as [-> | Hpos].
  - change 0%Z with (Z.of_nat 0).
    rewrite (get_map_Fin _ _ _ Hh), (get_map_Fin _ _ _ Hl).
    exists (h - l). split; [fin_value |]. specialize (Hfirst _ _ Hh Hl). lra.
  - destruct (lookup_lt_is_Some_2 closes (i - 1)) as [c Hc]; [lia |].
    replace (Z.of_nat i - 1)%Z with (Z.of_nat (i - 1)) by lia.
    rewrite (get_map_Fin _ _ _ Hh), (get_map_Fin _ _ _ Hl), (get_map_Fin _ _ _ Hc).
    apply max_list_three.
    + exists (h - l). fin_value.
    + exists (Qabs (h - c)). split; [fin_value | apply Qabs_nonneg].
    + exists (Qabs (l - c)). fin_value.
Qed.

Lemma sum_nonneg l :
  Forall finite_nonneg l ->
  forall acc, finite_nonneg acc -> finite_nonneg (foldl JS.add acc l).
Proof.
  induction 1 as [| x l (X & HX & HX0) _ IH]; intros acc (A & HA & HA0); cbn [foldl].
  - by exists A.
  - apply IH. exists (A + X). split; [fin_value | lra].
Qed.

Lemma atr_loop_nonneg period trueRanges :
  (1 <= period)%nat ->
  Forall finite_nonneg trueRanges ->
  forall atr,
    finite_nonneg atr ->
    Forall (fun v => exists x, v = Num x /\ finite_nonneg x)
           (atr_loop period atr trueRanges).
Proof.
  intros Hp. induction 1 as [| tr rest Htr _ IH]; intros atr Hatr; cbn [atr_loop];
    [constructor |].
  pose proof (smooth_nonneg period _ _ Hp Hatr Htr) as Hnext.
  constructor; [by eexists | by apply IH].
Qed.

(** Every entry of the ATR series is [null] or a number that is not
    negative. *)
Lemma atr_values_nonneg highs lows closes period :
  (1 <= period)%nat ->
  (forall h l, highs !! 0%nat = Some h -> lows !! 0%nat = Some l -> l <= h) ->
  Forall (fun v => v = Null \/ exists x, v = Num x /\ finite_nonneg x)
         (calculateATR (map Fin highs) (map Fin lows) (map Fin closes) period).
Proof.
  intros Hp Hfirst. unfold calculateATR. rewrite !length_map.
  assert (forall n, Forall (fun v => v = Null \/ exists x, v = Num x /\ finite_nonneg x)
                           (replicate n Null)) as Hnull
    by (intros n; apply Forall_replicate; by left).
  destruct (Nat.ltb_spec (length highs) 2) as [Hshort | Htwo]; cbn [orb]; [done |].
  destruct (Nat.eqb_spec (length highs) (length lows)) as [Hhl | Hhl]; cbn [negb orb];
    [| done].
  destruct (Nat.eqb_spec (length lows) (length closes)) as [Hlc | Hlc]; cbn [negb];
    [| done].
  pose proof (true_ranges_nonneg highs lows closes Hhl Hlc Hfirst) as Hranges.
  set (trueRanges := true_ranges (map Fin highs) (map Fin lows) (map Fin closes)) in *.
  destruct (Nat.leb_spec period (length trueRanges)) as [Hle | Hgt]; [| done].
  rewrite assign_first_atr by done.
  change (JS.slice trueRanges 0 (Z.of_nat period))
    with (JS.slice trueRanges (Z.of_nat 0) (Z.of_nat period)).
  rewrite slice_nat by lia. rewrite Nat.sub_0_r, drop_0.
  assert (finite_nonneg (sum_list (take period trueRanges) / JS.of_nat period)%J)
    as Hatr.
  { apply average_nonneg; [done |]. apply sum_nonneg; [by apply Forall_take |].
    exists 0. split; [apply Fin_is | lra]. }
  apply Forall_app. split; [apply Forall_app; split |].
  - done.
  - constructor; [right; by eexists | constructor].
  - eapply Forall_impl;
      [apply (atr_loop_nonneg period (drop period trueRanges) Hp
                ltac:(by apply Forall_drop) _ Hatr) |].
    intros v Hv. by right.
Qed.

(** X20.  On candles of ordinary size whose first high is not below its
    low, every value of the ATR is a finite number that is not negative. *)
Theorem atr_is_never_negative
  (highs lows closes : list Q) (period i : nat) (a : num) :
  (1 <= period)%nat ->
  Forall ordinary highs -> Forall ordinary lows -> Forall ordinary closes ->
  (forall h l, highs !! 0%nat = Some h -> lows !! 0%nat = Some l -> l <= h) ->
  calculateATR (map Fin highs) (map Fin lows) (map Fin closes) period !! i
  = Some (Num a) ->
  exists v, a = Fin v /\ 0 <= v.
Proof.
  intros Hp _ _ _ Hfirst Hi.
  pose proof (atr_values_nonneg highs lows closes period Hp Hfirst) as Hall.
  rewrite Forall_lookup in Hall.
  destruct (Hall i _ Hi) as [[=] | (x & [= <-] & v & (q & -> & Hq) & Hv)].
  exists q. split; [done | lra].
Qed.

(** ** The order of the Bollinger bands *)

Lemma foldl_add_finite (F : nat -> num) indices :
  (forall j, j ∈ indices -> finite (F j)) ->
  forall acc, finite acc -> finite (foldl (fun sum j => (sum + F j)%J) acc indices).
Proof.
  induction indices as [| j indices IH]; intros HF acc [A HA]; cbn [foldl];
    [by exists A |].
  destruct (HF j ltac:(by left)) as [X HX].
  apply IH; [intros j' Hj'; apply HF; by right |].
  exists (A + X). fin_value.
Qed.

Lemma foldl_add_nonneg (F : nat -> num) indices :
  (forall j, j ∈ indices -> finite_nonneg (F j)) ->
  forall acc,
    finite_nonneg acc ->
    finite_nonneg (foldl (fun sum j => (sum + F j)%J) acc indices).
Proof.
  induction indices as [| j indices IH]; intros HF acc (A & HA & HA0); cbn [foldl];
    [by exists A |].
  destruct (HF j ltac:(by left)) as (X & HX & HX0).
  apply IH; [intros j' Hj'; apply HF; by right |].
  exists (A + X). split; [fin_value | lra].
Qed.

Lemma window_finite prices i period j :
  (period <= i + 1)%nat -> (i < length prices)%nat -> j ∈ seq 0 period ->
  finite (get (map Fin prices) (Z.of_nat i - Z.of_nat j)).
Proof.
  intros Hp Hi Hj. apply elem_of_seq in Hj.
  destruct (lookup_lt_is_Some_2 prices (i - j)) as [q Hq]; [lia |].
  replace (Z.of_nat i - Z.of_nat j)%Z with (Z.of_nat (i - j)) by lia.
  rewrite (get_map_Fin _ _ _ Hq). exists q. apply Fin_is.
Qed.

Lemma sma_finite prices period i :
  (1 <= period)%nat -> (period <= i + 1)%nat -> (i < length prices)%nat ->
  finite (JS.to_num (JS.at_val (calculateSMA (map Fin prices) period) (Z.of_nat i))).
Proof.
  intros Hp Hpi Hi.
  unfold calculateSMA, JS.at_val, JS.nth_opt. rewrite length_map.
  destruct (Nat.ltb_spec (length prices) period); [lia |].
  destruct (Z.ltb_spec (Z.of_nat i) 0); [lia |].
  rewrite Nat2Z.id, lookup_map_seq by done.
  destruct (Z.ltb_spec (Z.of_nat i) (Z.of_nat period - 1)); [lia |].
  cbn [JS.to_num].
  destruct (foldl_add_finite
              (fun j => get (map Fin prices) (Z.of_nat i - Z.of_nat j)) (seq 0 period)
              (fun j Hj => window_finite prices i period j Hpi Hi Hj) (Fin 0))
    as [S HS]; [exists 0; apply Fin_is |].
  pose proof (period_positive period Hp).
  exists (S / inject_Z (Z.of_nat period)).
  apply div_is_fin; [exact HS | apply of_Z_is | lra].
Qed.

Lemma square_nonneg d : finite d -> finite_nonneg (d * d)%J.
Proof.
  intros [q Hq]. exists (q * q). split; [fin_value |].
  destruct (Qlt_le_dec q 0) as [Hneg | Hpos].
  - assert (q * q == (- q) * (- q)) as -> by ring.
    apply Qmult_le_0_compat; lra.
  - by apply Qmult_le_0_compat.
Qed.

Lemma sqrt_nonneg x :
  (forall a, 0 <= a -> 0 <= sqrtQ a) ->
  finite_nonneg x -> finite_nonneg (sqrt x).
Proof.
  intros Hsqrt (X & (a & -> & Ha) & HX). unfold sqrt.
  destruct (JS.Qlt_bool a 0) eqn:E; [apply Qlt_bool_iff in E; lra |].
  exists (sqrtQ a). split; [apply fin_is | apply Hsqrt; lra].
Qed.

(** X21.  On prices of ordinary size, with a square root that is not
    negative, a Bollinger point before index [period - 1] has every field
    [null], and from there on its bands are finite numbers in the order
    lower <= middle <= upper. *)
Theorem bollinger_bands_are_ordered
  (prices : list Q) (period i : nat) (p : BollingerPoint) :
  (forall a, 0 <= a -> 0 <= sqrtQ a) ->
  (1 <= period)%nat ->
  Forall ordinary prices ->
  calculateBollingerBands (map Fin prices) period !! i = Some p ->
  ((i < period - 1)%nat /\ p = null_point)
  \/ ((period - 1 <= i)%nat
      /\ exists u m l,
           upper p = Num (Fin u) /\ middle p = Num (Fin m) /\ lower p = Num (Fin l)
           /\ l <= m <= u).
Proof.
  intros Hsqrt Hp _. unfold calculateBollingerBands. rewrite length_map.
  destruct (Nat.ltb_spec (length prices) period) as [Hshort | Hlong].
  { intros Hi. apply lookup_replicate in Hi as [-> Hi]. left. split; [lia | done]. }
  intros Hi.
  assert (i < length prices)%nat as Hlt.
  { apply lookup_lt_Some in Hi. by rewrite length_map, length_seq in Hi. }
  rewrite lookup_map_seq in Hi by done. injection Hi as <-.
  destruct (Z.ltb_spec (Z.of_nat i) (Z.of_nat period - 1)) as [Hwarm | Hfrom];
    [left; split; [lia | done] |].
  right. split; [lia |].
  destruct (sma_finite prices period i Hp ltac:(lia) Hlt) as (M & m & Hm & HM).
  set (sma_i := JS.to_num _) in *.
  match goal with
  | |- context [sqrt (?sum / _)%J] => assert (finite_nonneg sum) as Hsum
  end.
  { apply (foldl_add_nonneg
             (fun j => ((get (map Fin prices) (Z.of_nat i - Z.of_nat j) - sma_i)
                        * (get (map Fin prices) (Z.of_nat i - Z.of_nat j) - sma_i))%J));
      [| exists 0; split; [apply Fin_is | lra]].
    intros j Hj. apply square_nonneg.
    destruct (window_finite prices i period j ltac:(lia) Hlt Hj) as [q Hq].
    exists (q - M). apply sub_is_fin; [exact Hq |]. rewrite Hm. by exists m. }
  match goal with
  | |- context [sqrt ?var] =>
      assert (finite_nonneg (sqrt var)) as (D & (d & Hstd & Hd) & HD0)
  end.
  { apply sqrt_nonneg; [done |]. by apply average_nonneg. }
  rewrite Hstd, Hm.
  eexists _, m, _.
  split; [reflexivity |]. split; [reflexivity |]. split; [reflexivity |].
  assert (Qred (m + Qred (2 * d)) == m + 2 * D) as Hu
    by (rewrite !Qred_correct; lra).
  assert (Qred (m + Qred (- Qred (2 * d))) == m - 2 * D) as Hl
    by (rewrite !Qred_correct; lra).
  lra.
Qed.

(** ** The warm-up of the MACD *)

(** A series of the warm-up shape is its nulls followed by its numbers. *)
Lemma shape_split (l : list jsval) :
  forall boundary,
    (boundary <= length l)%nat ->
    null_before l boundary -> number_from l boundary ->
    exists numbers,
      l = replicate boundary Null ++ map Num numbers
      /\ length numbers = (length l - boundary)%nat.
Proof.
  induction l as [| v l IH]; intros boundary Hlen Hnull Hnum.
  - exists []. cbn in Hlen. by replace boundary with 0%nat by lia.
  - destruct boundary as [| boundary].
    + destruct (IH 0%nat ltac:(lia)) as (numbers & Hl & Hn).
      * intros i Hi. lia.
      * intros i _ Hi. apply (Hnum (S i)); [lia | cbn; lia].
      * destruct (Hnum 0%nat ltac:(lia) ltac:(cbn; lia)) as [x Hx].
        cbn in Hx. injection Hx as ->.
        exists (x :: numbers). cbn in Hl |- *. split; [by rewrite Hl at 1 | lia].
    + destruct (IH boundary ltac:(cbn in Hlen; lia)) as (numbers & Hl & Hn).
      * intros i Hi Hi'. apply (Hnull (S i)); [lia | cbn; lia].
      * intros i Hi Hi'. apply (Hnum (S i)); [lia | cbn; lia].
      * pose proof (Hnull 0%nat ltac:(lia) ltac:(cbn; lia)) as Hv.
        cbn in Hv. injection Hv as ->.
        exists numbers. cbn. split; [by rewrite Hl at 1 | done].
Qed.

Lemma valid_values_split boundary numbers :
  valid_values (replicate boundary Null ++ map Num numbers) = numbers.
Proof.
  unfold valid_values. rewrite omap_app.
  assert (omap (fun v => match v with Num x => Some x | _ => None end)
               (replicate boundary Null) = []) as ->.
  { induction boundary as [| boundary IH]; [done | exact IH]. }
  cbn [app]. induction numbers as [| x numbers IH]; [done |].
  cbn. by rewrite IH.
Qed.

Lemma series_lookup (l : list jsval) boundary i :
  (i < length l)%nat -> null_before l boundary -> number_from l boundary ->
  ((i < boundary)%nat /\ l !! i = Some Null)
  \/ ((boundary <= i)%nat /\ exists x, l !! i = Some (Num x)).
Proof.
  intros Hi Hnull Hnum. destruct (le_lt_dec boundary i).
  - right. split; [done | by apply Hnum].
  - left. split; [done | by apply Hnull].
Qed.

(** The MACD line: the difference of the two averages from index 25 on. *)
Lemma macd_line_shape data :
  (26 <= length data)%nat ->
  let macdLine :=
    zip_with (fun fast slow =>
                if negb (JS.not_null fast) || negb (JS.not_null slow) then Null
                else Num (JS.to_num fast - JS.to_num slow)%J)
             (ema_values data 12) (ema_values data 26) in
  length macdLine = length data
  /\ null_before macdLine 25 /\ number_from macdLine 25.
Proof.
  intros Hn macdLine.
  destruct (ema_values_warm_up data 12 ltac:(lia)) as (Hlf & Hnf & Hxf).
  destruct (ema_values_warm_up data 26 ltac:(lia)) as (Hls & Hns & Hxs).
  specialize (Hxf ltac:(lia)). specialize (Hxs ltac:(lia)).
  assert (length macdLine = length data) as Hlen.
  { subst macdLine. rewrite length_zip_with. lia. }
  split; [exact Hlen |].
  assert (forall i, (i < length data)%nat ->
                    exists fast slow,
                      ema_values data 12 !! i = Some fast
                      /\ ema_values data 26 !! i = Some slow
                      /\ macdLine !! i
                         = Some (if negb (JS.not_null fast) || negb (JS.not_null slow)
                                 then Null
                                 else Num (JS.to_num fast - JS.to_num slow)%J))
    as Hlookup.
  { intros i Hi.
    destruct (lookup_lt_is_Some_2 (ema_values data 12) i) as [fast Hfast]; [lia |].
    destruct (lookup_lt_is_Some_2 (ema_values data 26) i) as [slow Hslow]; [lia |].
    exists fast, slow. split; [done |]. split; [done |].
    subst macdLine. by rewrite lookup_zip_with, Hfast, Hslow. }
  split.
  - intros i Hi Hi'. rewrite Hlen in Hi'.
    destruct (Hlookup i Hi') as (fast & slow & _ & Hslow & ->).
    rewrite (Hns i ltac:(lia) ltac:(lia)) in Hslow. injection Hslow as <-.
    by rewrite orb_true_r.
  - intros i Hi Hi'. rewrite Hlen in Hi'.
    destruct (Hlookup i Hi') as (fast & slow & Hfast & Hslow & ->).
    destruct (Hxf i ltac:(lia) ltac:(lia)) as [x Hx].
    destruct (Hxs i ltac:(lia) ltac:(lia)) as [y Hy].
    rewrite Hx in Hfast. rewrite Hy in Hslow.
    injection Hfast as <-. injection Hslow as <-. by eexists.
Qed.

(** The signal line: nine-period average of the MACD values, from index 33
    on. *)
Lemma signal_line_shape numbers :
  (9 <= length numbers)%nat ->
  let signalLine := replicate 25 Null ++ ema_values numbers 9 in
  length signalLine = (25 + length numbers)%nat
  /\ null_before signalLine 33 /\ number_from signalLine 33.
Proof.
  intros Hn signalLine.
  destruct (ema_values_warm_up numbers 9 ltac:(lia)) as (Hl & Hnull & Hnum).
  specialize (Hnum Hn).
  assert (length signalLine = (25 + length numbers)%nat) as Hlen
    by (subst signalLine; rewrite length_app, length_replicate; lia).
  split; [exact Hlen |]. split.
  - intros i Hi Hi'. subst signalLine. destruct (le_lt_dec 25 i).
    + rewrite lookup_app_r by (rewrite length_replicate; lia).
      rewrite length_replicate. apply Hnull; lia.
    + rewrite lookup_app_l by (rewrite length_replicate; lia).
      by apply lookup_replicate_2.
  - intros i Hi Hi'. subst signalLine.
    rewrite lookup_app_r by (rewrite length_replicate; lia).
    rewrite length_replicate. apply Hnum; lia.
Qed.

(** X22.  The MACD series has the length of its input.  On fewer than 35
    points every entry is the null point; otherwise the entries before
    index 33 are null points and each entry from 33 on holds three
    numbers, the histogram being the MACD value minus the signal. *)
Theorem macd_warm_up (data : list num) (i : nat) (p : MACDPoint) :
  calculateMACD data !! i = Some p ->
  length (calculateMACD data) = length data
  /\ (((length data < 35)%nat \/ (i < 33)%nat) /\ p = null_macd
      \/ ((35 <= length data)%nat /\ (33 <= i)%nat
          /\ exists m s,
               macd p = Num m /\ signal p = Num s /\ histogram p = Num (m - s)%J)).
Proof.
  unfold calculateMACD. cbv zeta.
  change (Nat.max 12 26 + 9)%nat with 35%nat.
  destruct (Nat.ltb_spec (length data) 35) as [Hshort | Hlong].
  { intros Hi. apply lookup_replicate in Hi as [-> Hi].
    split; [by rewrite length_replicate |]. left. split; [by left | done]. }
  destruct (macd_line_shape data ltac:(lia)) as (Hlen & Hnull & Hnum).
  set (macdLine := zip_with _ (ema_values data 12) (ema_values data 26)) in *.
  destruct (shape_split macdLine 25 ltac:(lia) Hnull Hnum) as (numbers & Hline & Hn).
  assert (valid_values macdLine = numbers) as ->
    by (rewrite Hline; apply valid_values_split).
  destruct (Nat.leb_spec 9 (length numbers)) as [Hnine | Hfew]; [| lia].
  replace (length macdLine - length numbers)%nat with 25%nat by lia.
  destruct (signal_line_shape numbers Hnine) as (Hslen & Hsnull & Hsnum).
  set (signalLine := replicate 25 Null ++ ema_values numbers 9) in *.
  intros Hi. split; [rewrite length_zip_with; lia |].
  apply lookup_zip_with_Some in Hi as (m & s & -> & Hm & Hs).
  assert (i < length data)%nat as Hlt by (apply lookup_lt_Some in Hm; lia).
  destruct (series_lookup macdLine 25 i ltac:(lia) Hnull Hnum)
    as [[Hi25 Hm'] | [Hi25 [x Hm']]];
    rewrite Hm' in Hm; injection Hm as <-.
  { left. split; [right; lia | done]. }
  destruct (series_lookup signalLine 33 i ltac:(lia) Hsnull Hsnum)
    as [[Hi33 Hs'] | [Hi33 [y Hs']]];
    rewrite Hs' in Hs; injection Hs as <-.
  { left. split; [right; lia | done]. }
  right. split; [done |]. split; [done |]. by exists x, y.
Qed.

(** ** The four-hour series and the EMA200 *)

(** X23.  A four-hour series converted from fewer than 800 hourly candles
    has fewer than 200 candles, so its analysis never reports the signal
    "Price above EMA200". *)
Theorem four_hour_analysis_never_reports_ema200
  (hourlyData : list Candle.t) (options : Options.t) :
  (length hourlyData < 800)%nat ->
  (length (convertHourlyToFourHour hourlyData) < 200)%nat
  /\ ~ In "Price above EMA200"%string
          (Analysis.signals
             (analyzeBreakout (convertHourlyToFourHour hourlyData) options)).
Proof.
  intros Hlen.
  assert (length (convertHourlyToFourHour hourlyData) < 200)%nat as Hshort.
  { rewrite (convert_length_bound (length hourlyData)) by done.
    apply Nat.Div0.div_lt_upper_bound. lia. }
  split; [exact Hshort |].
  unfold analyzeBreakout. cbn [Analysis.signals]. intros H.
  apply score_signals_reported in H.
  destruct H as [[H _] | [[H _] | [[H _] | [[H _] | [[_ [_ H]] | [[H _] |
                [[H _] | [[H _] | [[H _] | [H _]]]]]]]]]]; try discriminate H.
  apply above_ema200_history in H. rewrite length_map in H. lia.
Qed.

(** ** The size of the OBV *)

Lemma obv_loop_bound :
  forall closes volumes obv prev O A j v,
    is_fin obv O -> - A <= O <= A ->
    Forall (fun q => 0 <= q) volumes ->
    obv_loop obv prev (zip (map Fin closes) (map Fin volumes)) !! j = Some v ->
    exists x,
      v = Num (Fin x)
      /\ - (A + Qsum (take (S j) volumes)) <= x <= A + Qsum (take (S j) volumes).
Proof.
  induction closes as [| c closes IH]; intros volumes obv prev O A j v HO HA Hvol Hj;
    [done |].
  destruct volumes as [| q volumes]; [done |].
  apply Forall_cons in Hvol as [Hq Hvol].
  cbn [map zip zip_with obv_loop] in Hj.
  set (obv' := if (Fin c >? prev)%J then (obv + Fin q)%J
               else if (Fin c <? prev)%J then (obv - Fin q)%J else obv) in *.
  assert (exists O', is_fin obv' O' /\ - (A + q) <= O' <= A + q) as (O' & HO' & HA').
  { subst obv'. destruct (Fin c >? prev)%J; [| destruct (Fin c <? prev)%J].
    - exists (O + q). split; [fin_value | lra].
    - exists (O - q). split; [fin_value | lra].
    - exists O. split; [done | lra]. }
  destruct j as [| j].
  - cbn in Hj. injection Hj as <-.
    destruct HO' as (x & -> & Hx). exists x. split; [done |].
    change (Qsum (take 1 (q :: volumes))) with (q + Qsum (take 0 volumes)).
    rewrite take_0, Hx. cbn [Qsum foldr]. lra.
  - cbn [lookup list_lookup] in Hj.
    destruct (IH volumes obv' (Fin c) O' (A + q) j v HO' HA' Hvol Hj)
      as (x & -> & Hx).
    exists x. split; [done |].
    change (Qsum (take (S (S j)) (q :: volumes)))
      with (q + Qsum (take (S j) volumes)).
    lra.
Qed.

(** The sum of a list as the source sums it, from zero and from the left. *)
Lemma sum_list_value l : forall acc A,
  is_fin acc A -> is_fin (foldl JS.add acc (map Fin l)) (A + Qsum l).
Proof.
  induction l as [| q l IH]; intros acc A HA; cbn [map foldl Qsum foldr].
  - eapply is_fin_eq; [exact HA | ring].
  - eapply is_fin_eq; [apply (IH _ (A + q)); fin_value |].
    change (foldr Qplus 0 l) with (Qsum l). ring.
Qed.

(** In the exact arithmetic of the model, the OBV lies between minus and
    plus the sum of the volumes up to its index. *)
Lemma obv_within_the_volume (closes volumes : list Q) (i : nat) (v : jsval) :
  Forall (fun q => 0 <= q) volumes ->
  calculateOBV (map Fin closes) (map Fin volumes) !! i = Some v ->
  (length closes <> length volumes /\ v = Null)
  \/ (length closes = length volumes
      /\ exists x,
           v = Num (Fin x)
           /\ - Qsum (take (S i) volumes) <= x <= Qsum (take (S i) volumes)).
Proof.
  intros Hvol. unfold calculateOBV. rewrite !length_map.
  destruct (Nat.eqb_spec (length closes) (length volumes)) as [Hlen | Hlen];
    cbn [negb orb].
  2: { intros Hi. apply lookup_replicate in Hi as [-> _]. by left. }
  destruct (Nat.eqb_spec (length closes) 0) as [Hzero | Hpos].
  { intros Hi. apply lookup_replicate in Hi as [_ Hi]. lia. }
  destruct closes as [| c closes], volumes as [| q volumes]; try done.
  apply Forall_cons in Hvol as [Hq Hvol].
  cbn [map]. intros Hi. right. split; [done |].
  destruct i as [| i].
  - cbn in Hi. injection Hi as <-. exists q. split; [done |].
    change (Qsum (take 1 (q :: volumes))) with (q + Qsum (take 0 volumes)).
    rewrite take_0. cbn [Qsum foldr]. lra.
  - cbn [lookup list_lookup] in Hi.
    destruct (obv_loop_bound closes volumes (Fin q) (Fin c) q q i v
                (Fin_is q) ltac:(lra) Hvol Hi) as (x & -> & Hx).
    exists x. split; [done |].
    change (Qsum (take (S (S i)) (q :: volumes)))
      with (q + Qsum (take (S i) volumes)).
    lra.
Qed.

(** X24.  The OBV of series of different lengths is all [null].  On
    finite closes and finite volumes that are not negative, each value is
    a number between minus and plus the volume traded up to its index, that
    volume being summed from the left as the source adds it up. *)
Theorem obv_is_bounded_by_the_volume
  (closes volumes : list Q) (i : nat) (v : jsval) :
  Forall (fun q => 0 <= q) volumes ->
  calculateOBV (map Fin closes) (map Fin volumes) !! i = Some v ->
  (length closes <> length volumes /\ v = Null)
  \/ (length closes = length volumes
      /\ exists x,
           v = Num x
           /\ let traded := sum_list (take (S i) (map Fin volumes)) in
              (x <=? traded)%J = true /\ (JS.neg traded <=? x)%J = true).
Proof.
  intros Hvol Hi.
  destruct (obv_within_the_volume closes volumes i v Hvol Hi)
    as [Hnull | (Hlen & x & -> & Hlow & Hhigh)]; [by left |].
  right. split; [exact Hlen |]. exists (Fin x). split; [done |]. cbv zeta.
  pose proof (sum_list_value (take (S i) volumes) (Fin 0) 0 (Fin_is 0)) as Htraded.
  rewrite <- fmap_take. unfold sum_list.
  change (Fin <$> take (S i) volumes) with (map Fin (take (S i) volumes)).
  set (traded := foldl JS.add (Fin 0) (map Fin (take (S i) volumes))) in *.
  split.
  - rewrite (le_fin _ _ x _ (Fin_is x) Htraded). apply Qle_bool_iff. lra.
  - rewrite (neg_fin _ _ Htraded).
    rewrite (le_fin _ _ (- (0 + Qsum (take (S i) volumes))) x (fin_is _) (Fin_is x)).
    apply Qle_bool_iff. lra.
Qed.

(** ** The moving averages between the prices *)

Lemma foldl_add_between (F : nat -> num) lo hi indices :
  (forall j, j ∈ indices -> between lo hi (F j)) ->
  forall acc A,
    is_fin acc A ->
    exists S,
      is_fin (foldl (fun sum j => (sum + F j)%J) acc indices) S
      /\ A + inject_Z (Z.of_nat (length indices)) * lo <= S
         <= A + inject_Z (Z.of_nat (length indices)) * hi.
Proof.
  induction indices as [| j indices IH]; intros HF acc A HA; cbn [foldl length].
  - exists A. split; [done |]. change (inject_Z (Z.of_nat 0)) with 0. lra.
  - destruct (HF j ltac:(by left)) as (X & HX & HXr).
    destruct (IH ltac:(intros j' Hj'; apply HF; by right) (acc + F j)%J (A + X)
                 ltac:(fin_value)) as (S & HS & HSr).
    exists S. split; [done |].
    rewrite Nat2Z.inj_succ, <- Z.add_1_r, inject_Z_plus.
    change (inject_Z 1) with 1. lra.
Qed.

Lemma sum_list_between lo hi l :
  Forall (between lo hi) l ->
  forall acc A,
    is_fin acc A ->
    exists S,
      is_fin (foldl JS.add acc l) S
      /\ A + inject_Z (Z.of_nat (length l)) * lo <= S
         <= A + inject_Z (Z.of_nat (length l)) * hi.
Proof.
  induction 1 as [| x l (X & HX & HXr) _ IH]; intros acc A HA; cbn [foldl length].
  - exists A. split; [done |]. change (inject_Z (Z.of_nat 0)) with 0. lra.
  - destruct (IH (acc + x)%J (A + X) ltac:(fin_value)) as (S & HS & HSr).
    exists S. split; [done |].
    rewrite Nat2Z.inj_succ, <- Z.add_1_r, inject_Z_plus.
    change (inject_Z 1) with 1. lra.
Qed.

(** The mean of [period] numbers between two bounds lies between them. *)
Lemma mean_between lo hi sum S period :
  (1 <= period)%nat ->
  is_fin sum S ->
  inject_Z (Z.of_nat period) * lo <= S <= inject_Z (Z.of_nat period) * hi ->
  between lo hi (sum / JS.of_nat period)%J.
Proof.
  intros Hp HS HSr. pose proof (period_positive period Hp) as Hpos.
  exists (S / inject_Z (Z.of_nat period)). split.
  - apply div_is_fin; [done | apply of_Z_is | lra].
  - split.
    + apply Qle_shift_div_l; [done | lra].
    + apply Qle_shift_div_r; [done | lra].
Qed.

Lemma prices_between lo hi prices :
  Forall (fun q => lo <= q <= hi) prices -> Forall (between lo hi) (map Fin prices).
Proof.
  intros H. apply Forall_fmap. eapply Forall_impl; [exact H |].
  intros q Hq. exists q. split; [apply Fin_is | exact Hq].
Qed.

Lemma ema_loop_between lo hi multiplier M rest :
  is_fin multiplier M -> 0 <= M <= 1 ->
  Forall (between lo hi) rest ->
  forall ema,
    between lo hi ema ->
    Forall (fun v => exists x, v = Num x /\ between lo hi x)
           (ema_loop multiplier ema rest).
Proof.
  intros HM HMr. induction 1 as [| x rest (X & HX & HXr) _ IH];
    intros ema (E & HE & HEr); cbn [ema_loop]; [constructor |].
  assert (between lo hi ((x - ema) * multiplier + ema)%J) as Hnext.
  { exists ((X - E) * M + E). split; [fin_value |].
    assert (0 <= M * (X - lo)) by (apply Qmult_le_0_compat; lra).
    assert (0 <= (1 - M) * (E - lo)) by (apply Qmult_le_0_compat; lra).
    assert (0 <= M * (hi - X)) by (apply Qmult_le_0_compat; lra).
    assert (0 <= (1 - M) * (hi - E)) by (apply Qmult_le_0_compat; lra).
    lra. }
  constructor; [by eexists | by apply IH].
Qed.

(** In the exact arithmetic of the model the moving averages of prices
    between two bounds lie between them. *)
Lemma moving_averages_between
  (prices : list Q) (period : nat) (lo hi : Q) :
  (1 <= period)%nat ->
  Forall (fun q => lo <= q <= hi) prices ->
  (forall i x,
      calculateSMA (map Fin prices) period !! i = Some (Num x) ->
      exists q, x = Fin q /\ lo <= q <= hi)
  /\ exists ema,
       calculateEMA (map Fin prices) period = Returns ema
       /\ forall i x,
            ema !! i = Some (Num x) -> exists q, x = Fin q /\ lo <= q <= hi.
Proof.
  intros Hp Hprices.
  pose proof (prices_between lo hi prices Hprices) as Hdata.
  assert (forall x, between lo hi x -> exists q, x = Fin q /\ lo <= q <= hi) as Hfin.
  { intros x (X & (q & -> & Hq) & HX). exists q. split; [done |]. rewrite Hq. exact HX. }
  split.
  - intros i x. unfold calculateSMA. rewrite length_map.
    destruct (Nat.ltb_spec (length prices) period) as [Hshort | Hlong].
    { intros Hi. apply lookup_replicate in Hi as [Hi _]. discriminate Hi. }
    intros Hi.
    assert (i < length prices)%nat as Hlt.
    { apply lookup_lt_Some in Hi. by rewrite length_map, length_seq in Hi. }
    rewrite lookup_map_seq in Hi by done.
    destruct (Z.ltb_spec (Z.of_nat i) (Z.of_nat period - 1)) as [| Hfrom];
      [discriminate Hi |].
    injection Hi as <-. apply Hfin.
    destruct (foldl_add_between
                (fun j => get (map Fin prices) (Z.of_nat i - Z.of_nat j)) lo hi
                (seq 0 period)) with (acc := Fin 0) (A := 0)
      as (S & HS & HSr); [| apply Fin_is |].
    + intros j Hj. apply elem_of_seq in Hj.
      destruct (lookup_lt_is_Some_2 prices (i - j)) as [q Hq]; [lia |].
      replace (Z.of_nat i - Z.of_nat j)%Z with (Z.of_nat (i - j)) by lia.
      rewrite (get_map_Fin _ _ _ Hq). exists q. split; [apply Fin_is |].
      rewrite Forall_lookup in Hprices. by eapply Hprices.
    + rewrite length_seq in HSr.
      apply (mean_between lo hi _ S period Hp HS). lra.
  - exists (ema_values (map Fin prices) period).
    split; [apply calculateEMA_returns; lia |].
    intros i x. unfold ema_values. rewrite length_map.
    destruct (Nat.ltb_spec (length prices) period) as [Hshort | Hlong].
    { intros Hi. apply lookup_replicate in Hi as [Hi _]. discriminate Hi. }
    change (JS.slice (map Fin prices) 0 (Z.of_nat period))
      with (JS.slice (map Fin prices) (Z.of_nat 0) (Z.of_nat period)).
    rewrite slice_nat by (rewrite ?length_map; lia).
    rewrite Nat.sub_0_r, drop_0.
    assert (between lo hi (sum_list (take period (map Fin prices)) / JS.of_nat period)%J)
      as Hseed.
    { destruct (sum_list_between lo hi (take period (map Fin prices))
                  ltac:(by apply Forall_take) (Fin 0) 0 (Fin_is 0))
        as (S & HS & HSr).
      rewrite length_take, length_map in HSr.
      replace (period `min` length prices)%nat with period in HSr by lia.
      apply (mean_between lo hi _ S period Hp HS). lra. }
    assert (exists M, is_fin (Fin 2 / JS.of_nat (period + 1))%J M /\ 0 <= M <= 1)
      as (M & HM & HMr).
    { pose proof (period_positive (period + 1) ltac:(lia)) as Hpos.
      assert (2 <= inject_Z (Z.of_nat (period + 1))) as Htwo
        by (change 2 with (inject_Z 2); rewrite <- Zle_Qle; lia).
      exists (2 / inject_Z (Z.of_nat (period + 1))). split.
      - apply div_is_fin; [apply Fin_is | apply of_Z_is | lra].
      - split.
        + apply Qle_shift_div_l; [done | lra].
        + apply Qle_shift_div_r; [done | lra]. }
    pose proof (ema_loop_between lo hi _ M (drop period (map Fin prices)) HM HMr
                  ltac:(by apply Forall_drop) _ Hseed) as Hloop.
    intros Hi. apply list_elem_of_lookup_2 in Hi.
    apply elem_of_app in Hi as [Hi | Hi].
    { apply elem_of_replicate in Hi as [Hi _]. discriminate Hi. }
    apply elem_of_cons in Hi as [Hi | Hi].
    + injection Hi as ->. by apply Hfin.
    + rewrite Forall_forall in Hloop.
      destruct (Hloop _ Hi) as (y & [= <-] & Hy). by apply Hfin.
Qed.

Lemma ordinary_price_positive q : ordinary_price q -> 0 < q.
Proof.
  intros [Hlow _]. assert (0 < 10 ^ (-100)) by reflexivity. lra.
Qed.

(** X25.  On prices between two positive bounds of ordinary size, and for a
    period of at most a million, every value of the simple moving average
    and of the exponential moving average lies between the bounds, up to a
    margin of one part in a billion of the upper bound: the room that the
    rounding of the source takes. *)
Theorem moving_averages_stay_within_the_prices
  (prices : list Q) (period : nat) (lo hi : Q) :
  (1 <= period)%nat -> (Z.of_nat period <= 1000000)%Z ->
  ordinary_price lo -> ordinary_price hi ->
  Forall (fun q => lo <= q <= hi) prices ->
  (forall i x,
      calculateSMA (map Fin prices) period !! i = Some (Num x) ->
      exists q, x = Fin q /\ lo - margin * hi <= q <= hi + margin * hi)
  /\ exists ema,
       calculateEMA (map Fin prices) period = Returns ema
       /\ forall i x,
            ema !! i = Some (Num x) ->
            exists q, x = Fin q /\ lo - margin * hi <= q <= hi + margin * hi.
Proof.
  intros Hp _ _ Hhi Hprices.
  apply ordinary_price_positive in Hhi.
  assert (0 <= margin * hi) as Hroom
    by (apply Qmult_le_0_compat; [discriminate | lra]).
  destruct (moving_averages_between prices period lo hi Hp Hprices)
    as (Hsma & ema & Hema & Hvalues).
  split.
  - intros i x Hi. destruct (Hsma i x Hi) as (q & -> & Hq).
    exists q. split; [done | lra].
  - exists ema. split; [exact Hema |].
    intros i x Hi. destruct (Hvalues i x Hi) as (q & -> & Hq).
    exists q. split; [done | lra].
Qed.

(** ** The consolidation test *)

Lemma foldl_max2_Fin w :
  forall a,
    exists m,
      foldl JS.max2 (Fin a) (map Fin w) = Fin m
      /\ (m = a \/ In m w) /\ a <= m /\ Forall (fun q => q <= m) w.
Proof.
  induction w as [| q w IH]; intros a; cbn [map foldl].
  - exists a. split; [done |]. split; [by left |]. split; [lra | constructor].
  - rewrite max2_Fin. destruct (Qle_bool a q) eqn:E.
    + apply Qle_bool_iff in E. destruct (IH q) as (m & -> & Hin & Hle & Hall).
      exists m. split; [done |]. split; [right; destruct Hin; [left | right]; done |].
      split; [lra |]. constructor; [lra | done].
    + apply Qle_bool_false in E. destruct (IH a) as (m & -> & Hin & Hle & Hall).
      exists m. split; [done |]. split; [destruct Hin; [by left | right; by right] |].
      split; [lra |]. constructor; [lra | done].
Qed.

Lemma foldl_min2_Fin w :
  forall a,
    exists m,
      foldl JS.min2 (Fin a) (map Fin w) = Fin m
      /\ (m = a \/ In m w) /\ m <= a /\ Forall (fun q => m <= q) w.
Proof.
  induction w as [| q w IH]; intros a; cbn [map foldl].
  - exists a. split; [done |]. split; [by left |]. split; [lra | constructor].
  - rewrite min2_Fin. destruct (Qle_bool a q) eqn:E.
    + apply Qle_bool_iff in E. destruct (IH a) as (m & -> & Hin & Hle & Hall).
      exists m. split; [done |]. split; [destruct Hin; [by left | right; by right] |].
      split; [lra |]. constructor; [lra | done].
    + apply Qle_bool_false in E. destruct (IH q) as (m & -> & Hin & Hle & Hall).
      exists m. split; [done |]. split; [right; destruct Hin; [left | right]; done |].
      split; [lra |]. constructor; [lra | done].
Qed.

(** The highest and the lowest of a window that is not empty. *)
Lemma max_list_Fin w :
  w <> [] ->
  exists hi, JS.max_list (map Fin w) = Fin hi /\ In hi w /\ Forall (fun q => q <= hi) w.
Proof.
  destruct w as [| q w]; [done |]. intros _.
  unfold JS.max_list. cbn [map foldl]. change (JS.max2 NInf (Fin q)) with (Fin q).
  destruct (foldl_max2_Fin w q) as (m & -> & Hin & Hle & Hall).
  exists m. split; [done |]. split; [destruct Hin; [left | right]; done |].
  by constructor.
Qed.

Lemma min_list_Fin w :
  w <> [] ->
  exists lo, JS.min_list (map Fin w) = Fin lo /\ In lo w /\ Forall (fun q => lo <= q) w.
Proof.
  destruct w as [| q w]; [done |]. intros _.
  unfold JS.min_list. cbn [map foldl]. change (JS.min2 PInf (Fin q)) with (Fin q).
  destruct (foldl_min2_Fin w q) as (m & -> & Hin & Hle & Hall).
  exists m. split; [done |]. split; [destruct Hin; [left | right]; done |].
  by constructor.
Qed.

(** In the exact arithmetic of the model, on positive prices and for a
    whole period [k >= 1], the consolidation test holds exactly when the
    series has [k] prices and each of its last [k] prices lies within the
    fraction [t] of the highest of them. *)
Lemma consolidation_exact (prices : list Q) (k : nat) (t : Q) :
  (1 <= k)%nat ->
  Forall (fun q => 0 < q) prices ->
  isPriceConsolidating (map Fin prices) (JS.of_nat k) (Fin t) = true
  <-> (k <= length prices)%nat
      /\ exists hi,
           In hi (drop (length prices - k) prices)
           /\ Forall (fun q => q <= hi /\ hi - q <= t * hi)
                     (drop (length prices - k) prices).
Proof.
  intros Hk Hpos. unfold isPriceConsolidating. rewrite length_map.
  unfold JS.of_nat at 1 2, JS.of_Z. cbn [JS.lt].
  destruct (JS.Qlt_bool (inject_Z (Z.of_nat (length prices))) (inject_Z (Z.of_nat k)))
    eqn:Eguard.
  { apply Qlt_bool_iff in Eguard. rewrite <- Zlt_Qlt in Eguard.
    split; [done | intros [Hlen _]; lia]. }
  apply Qlt_bool_false in Eguard. rewrite <- Zle_Qle in Eguard.
  assert (JS.trunc (length prices) (JS.of_nat k) = Z.of_nat k) as ->.
  { unfold JS.trunc, JS.of_nat, JS.of_Z.
    assert (JS.Qlt_bool (inject_Z (Z.of_nat k)) 0 = false) as ->.
    { apply Qlt_bool_false. change 0 with (inject_Z 0). rewrite <- Zle_Qle. lia. }
    apply Qfloor_Z. }
  assert (JS.slice_from (map Fin prices) (- Z.of_nat k)
          = map Fin (drop (length prices - k) prices)) as ->.
  { unfold JS.slice_from, JS.rel_index. rewrite length_map.
    destruct (Z.ltb_spec (- Z.of_nat k) 0); [| lia].
    replace (Z.to_nat (Z.max (Z.of_nat (length prices) + - Z.of_nat k) 0))
      with (length prices - k)%nat by lia.
    symmetry. apply fmap_drop. }
  set (window := drop (length prices - k) prices).
  assert (window <> []) as Hwindow.
  { intros Hnil. apply (f_equal length) in Hnil. subst window.
    rewrite length_drop in Hnil. cbn in Hnil. lia. }
  assert (Forall (fun q => 0 < q) window) as Hwpos by (by apply Forall_drop).
  destruct (max_list_Fin window Hwindow) as (hi & -> & Hhi & Hmax).
  destruct (min_list_Fin window Hwindow) as (lo & -> & Hlo & Hmin).
  assert (0 < hi) as Hhipos by (rewrite List.Forall_forall in Hwpos; by apply Hwpos).
  assert (lo <= hi) as Hlohi by (rewrite List.Forall_forall in Hmax; by apply Hmax).
  rewrite (le_fin _ _ ((hi - lo) / hi) t)
    by (first [apply div_is_fin; [fin_value | apply Fin_is | lra] | apply Fin_is]).
  rewrite Qle_bool_iff.
  assert ((hi - lo) / hi <= t <-> hi - lo <= t * hi) as ->.
  { split; intros H.
    - assert (hi - lo == (hi - lo) / hi * hi) as -> by (field; lra).
      apply Qmult_le_compat_r; [done | lra].
    - by apply Qle_shift_div_r. }
  rewrite List.Forall_forall in Hmax, Hmin.
  split.
  - intros H. split; [lia |]. exists hi. split; [done |].
    apply List.Forall_forall. intros q Hq.
    specialize (Hmax q Hq). specialize (Hmin q Hq). cbn beta in Hmax, Hmin.
    split; lra.
  - intros (_ & hi' & Hin & Hall). rewrite List.Forall_forall in Hall.
    destruct (Hall hi Hhi) as [Hle _]. destruct (Hall lo Hlo) as [_ Hnear].
    specialize (Hmax hi' Hin). cbn beta in Hmax.
    assert (hi' == hi) as Heq by lra.
    assert (t * hi' == t * hi) as Hscaled by (by rewrite Heq).
    lra.
Qed.

(** X26.  On positive prices of ordinary size and for a whole period
    [k >= 1]: when the consolidation test holds, the series has [k] prices
    and each of its last [k] prices lies within the fraction [t] of the
    highest of them, up to the margin; and when the series has [k] prices
    and each of its last [k] lies within that fraction less the margin, the
    test holds.  The margin of one part in a billion is the room that the
    rounding of the source takes. *)
Theorem consolidation_keeps_prices_near_the_high (prices : list Q) (k : nat) (t : Q) :
  (1 <= k)%nat ->
  Forall ordinary_price prices ->
  let window := drop (length prices - k) prices in
  (isPriceConsolidating (map Fin prices) (JS.of_nat k) (Fin t) = true ->
   (k <= length prices)%nat
   /\ exists hi,
        In hi window
        /\ Forall (fun q => q <= hi /\ hi - q <= (t + margin) * hi) window)
  /\ ((k <= length prices)%nat ->
      (exists hi,
          In hi window
          /\ Forall (fun q => q <= hi /\ hi - q <= (t - margin) * hi) window) ->
      isPriceConsolidating (map Fin prices) (JS.of_nat k) (Fin t) = true).
Proof.
  intros Hk Hsize. cbv zeta.
  assert (Forall (fun q => 0 < q) prices) as Hpos
    by (eapply Forall_impl; [exact Hsize | apply ordinary_price_positive]).
  pose proof (consolidation_exact prices k t Hk Hpos) as Hexact.
  assert (forall hi, In hi (drop (length prices - k) prices) -> 0 <= margin * hi)
    as Hroom.
  { intros hi Hin. apply Qmult_le_0_compat; [discriminate |].
    apply list_elem_of_In, list_elem_of_lookup_1 in Hin as [i Hi].
    rewrite lookup_drop in Hi. rewrite Forall_lookup in Hpos.
    specialize (Hpos _ hi Hi). cbn beta in Hpos. lra. }
  split.
  - intros Htest. destruct (proj1 Hexact Htest) as (Hlen & hi & Hin & Hall).
    split; [exact Hlen |]. exists hi. split; [exact Hin |].
    specialize (Hroom hi Hin).
    eapply List.Forall_impl; [| exact Hall]. intros q [Hle Hnear]. split; [exact Hle | lra].
  - intros Hlen (hi & Hin & Hall). apply (proj2 Hexact).
    split; [exact Hlen |]. exists hi. split; [exact Hin |].
    specialize (Hroom hi Hin).
    eapply List.Forall_impl; [| exact Hall]. intros q [Hle Hnear]. split; [exact Hle | lra].
Qed.

(** ** The reward and the risk of the suggested levels *)

(** In the exact arithmetic of the model, [Math.round(x * 10000) / 10000]
    of a finite number is within half a unit of the fourth decimal of it. *)
Lemma round4_near x q :
  is_fin x q ->
  exists r, round4 x = Fin r /\ - (1 # 20000) <= r - q <= 1 # 20000.
Proof.
  intros Hx. unfold round4.
  assert (is_fin (JS.round (x * Fin 10000) / Fin 10000)%J
                 (inject_Z (Qfloor (q * 10000 + (1 # 2))) / 10000))
    as (r & -> & Hr).
  { apply div_is_fin; [| apply Fin_is | lra].
    apply round_is_fin. apply mul_is_fin; [exact Hx | apply Fin_is]. }
  exists r. split; [done |]. rewrite Hr.
  pose proof (Qfloor_le (q * 10000 + (1 # 2))) as Hlow.
  pose proof (Qlt_floor (q * 10000 + (1 # 2))) as Hhigh.
  rewrite inject_Z_plus in Hhigh. change (inject_Z 1) with 1 in Hhigh.
  set (z := inject_Z (Qfloor (q * 10000 + (1 # 2)))) in *.
  assert (z / 10000 - q == (z - q * 10000) / 10000) as -> by field.
  split.
  - apply Qle_shift_div_l; [reflexivity | lra].
  - apply Qle_shift_div_r; [reflexivity | lra].
Qed.

(** X27.  When the analysis suggests a stop loss on a last close of at
    most a million, it suggests a take profit too, at three times the
    distance of the stop from the close, to within one unit of the fourth
    decimal: half a unit for the rounding to four decimals, and the rest
    for the rounding of the source's arithmetic, which can tip a tie.  The
    [riskRewardRatio] option plays no part. *)
Theorem take_profit_is_three_times_the_risk
  (data : list Candle.t) (options : Options.t) (p s : Q) :
  last_num (map Candle.close data) = Fin p ->
  Analysis.suggestedStopLoss (analyzeBreakout data options) = Num (Fin s) ->
  Qabs p <= 1000000 -> Qabs s <= 1000000 ->
  exists tp,
    Analysis.suggestedTakeProfit (analyzeBreakout data options) = Num (Fin tp)
    /\ - (1 # 10000) <= tp - (p + 3 * (p - s)) <= 1 # 10000.
Proof.
  intros Hprice Hstop _ _. revert Hstop. unfold analyzeBreakout.
  cbn [Analysis.suggestedStopLoss Analysis.suggestedTakeProfit].
  rewrite Hprice.
  match goal with
  | |- (if ?levels then _ else _) = _ -> _ => destruct levels; [| intros [=]]
  end.
  set (stop := round4 (Fin p - _)%J).
  intros Hstop. assert (stop = Fin s) as -> by congruence. clear Hstop.
  destruct (round4_near (Fin p + (Fin p - Fin s) * Fin 3)%J (p + (p - s) * 3)
              ltac:(fin_value)) as (tp & -> & Htp).
  exists tp. split; [done |]. lra.
Qed.

(** ** The range of the fitness score *)













(** ** The win rate that the optimizer reports *)

Lemma backtest_tally_counted historicalData options tally :
  backtest_loop historicalData options (length historicalData) 200 empty_tally
  = Some tally ->
  counted tally.
Proof.
  intros Hloop.
  destruct (backtest_loop_invariant historicalData options
              (fun i tally => (200 <= i)%nat /\ counted tally))
    with (fuel := length historicalData) (i := 200%nat) (tally := empty_tally)
         (tally' := tally) as (j & _ & Hcounted); try done.
  intros i bar tally0 tally1 held Hi Hbar [Hfrom [Htotal Hsum]] Hsim.
  split; [lia |].
  destruct (simulate_bar_records _ _ _ _ _ _ _ Hfrom Hi Hbar Hsim)
    as [[-> _] | (trade & Htrades & _ & Htotal' & Hsum')]; [done |].
  split; [rewrite Htrades, length_app; cbn; lia | lia].
Qed.

Lemma calculateWinRate_range historicalData params :
  exists r, calculateWinRate historicalData params = Fin r /\ 0 <= r <= 100.
Proof.
  unfold calculateWinRate.
  destruct (le_lt_dec 250 (length historicalData)) as [Hlong | Hshort].
  - destruct (backtest_returns_results historicalData (Params.options params) Hlong)
      as (tally & Hloop & ->).
    destruct (_ =? _)%nat; [exists 0; split; [done | lra] |].
    apply winRate_range. by eapply backtest_tally_counted.
  - unfold backtestBreakoutStrategy.
    destruct (Nat.ltb_spec (length historicalData) 250); [| lia].
    exists 0. split; [done | lra].
Qed.

(** X29.  The win rate that [optimizeParameters] reports is that of the
    backtest under the parameters it returns: zero on fewer than 250
    candles, zero when that backtest records no trade, and otherwise its
    winning trades over its trades, times one hundred.  It is a finite
    number between 0 and 100, whatever the candles, the initial parameters,
    the number of generations and the draws. *)
Theorem optimizer_reports_a_win_rate
  (historicalData : list Candle.t) (initialParams : Options.t) (generations k : nat) :
  let best := optimizeParameters historicalData initialParams generations k in
  ((length historicalData < 250)%nat -> Optimum.winRate best = Fin 0)
  /\ ((250 <= length historicalData)%nat ->
      exists results,
        backtestBreakoutStrategy historicalData
                                 (Params.options (Optimum.parameters best))
        = Backtest.Results results
        /\ (Backtest.winningTrades results <= Backtest.totalTrades results)%nat
        /\ Optimum.winRate best
           = if (Backtest.totalTrades results =? 0)%nat then Fin 0
             else (JS.of_nat (Backtest.winningTrades results)
                   / JS.of_nat (Backtest.totalTrades results) * Fin 100)%J)
  /\ exists r, Optimum.winRate best = Fin r /\ 0 <= r <= 100.
Proof.
  cbv zeta. unfold optimizeParameters.
  destruct (optimize_loop _ _ _ _) as [[bestParams bestScore] k'].
  cbn [Optimum.winRate Optimum.parameters].
  split; [| split; [| apply calculateWinRate_range]].
  - intros Hshort. unfold calculateWinRate, backtestBreakoutStrategy.
    by destruct (Nat.ltb_spec (length historicalData) 250); [| lia].
  - intros Hlong. unfold calculateWinRate.
    destruct (backtest_returns_results historicalData (Params.options bestParams) Hlong)
      as (tally & Hloop & ->).
    exists (statistics tally). split; [done |].
    destruct (backtest_tally_counted _ _ _ Hloop) as [_ Hsum].
    unfold statistics.
    destruct (Nat.ltb_spec 0 (tally_totalTrades tally)) as [Hpos | Hnone];
      cbn [Backtest.winningTrades Backtest.totalTrades Backtest.winRate].
    + split; [lia |]. by destruct (Nat.eqb_spec (tally_totalTrades tally) 0); [lia |].
    + split; [lia |].
      by destruct (Nat.eqb_spec (tally_totalTrades tally) 0); [| lia].
Qed.

End Screener.

(** * The theorems at sample inputs *)

Lemma sqrt_approx_nonneg a : 0 <= a -> 0 <= sqrt_approx a.
Proof.
  intros _. unfold sqrt_approx.
  apply Qle_shift_div_l; [reflexivity |].
  rewrite Qmult_0_l. change 0 with (inject_Z 0). rewrite <- Zle_Qle.
  apply Z.sqrt_nonneg.
Qed.

(** The backtest of [trading_series] under the default parameters: eleven
    trades, ten closed at their take profit and the last at its stop loss;
    and the fitness score and the win rate that the optimizer computes from
    it. *)
Lemma trading_series_backtest :
  exists tally,
    backtest_loop sqrt_approx trading_series default_options (length trading_series)
                  200 empty_tally = Some tally
    /\ backtestBreakoutStrategy sqrt_approx trading_series default_options
       = Backtest.Results (statistics tally)
    /\ map trade_summary (tally_trades tally)
       = [(200, 1, Some "Take Profit"); (202, 1, Some "Take Profit");
          (204, 3, Some "Take Profit"); (208, 3, Some "Take Profit");
          (212, 3, Some "Take Profit"); (216, 3, Some "Take Profit");
          (220, 3, Some "Take Profit"); (224, 3, Some "Take Profit");
          (228, 3, Some "Take Profit"); (232, 3, Some "Take Profit");
          (236, 1, Some "Stop Loss")]%string%nat
    /\ Backtest.totalTrades (statistics tally) = 11%nat
    /\ Backtest.winningTrades (statistics tally) = 10%nat
    /\ Backtest.losingTrades (statistics tally) = 1%nat
    /\ Backtest.winRate (statistics tally) = (JS.of_nat 10 / JS.of_nat 11 * Fin 100)%J
    /\ (exists v,
          evaluateParameters sqrt_approx trading_series (initial_params Options.empty)
          = Fin v /\ 81 < v < 83)
    /\ calculateWinRate sqrt_approx trading_series (initial_params Options.empty)
       = (JS.of_nat 10 / JS.of_nat 11 * Fin 100)%J.
Proof.
  eassert (backtest_loop sqrt_approx trading_series default_options
                         (length trading_series) 200 empty_tally = Some _) as Hloop
    by (vm_compute; reflexivity).
  assert ((length trading_series <? 250)%nat = false) as Hlong by reflexivity.
  eexists. split; [exact Hloop |].
  split; [unfold backtestBreakoutStrategy; by rewrite Hlong, Hloop |].
  split; [reflexivity |]. split; [reflexivity |]. split; [reflexivity |].
  split; [reflexivity |]. split; [vm_compute; reflexivity |].
  split.
  - unfold evaluateParameters, backtestBreakoutStrategy.
    change (Params.options (initial_params Options.empty)) with default_options.
    rewrite Hlong, Hloop. vm_compute. eexists. split; [reflexivity |].
    split; reflexivity.
  - unfold calculateWinRate, backtestBreakoutStrategy.
    change (Params.options (initial_params Options.empty)) with default_options.
    rewrite Hlong, Hloop. vm_compute. reflexivity.
Qed.



(** C1 at the series 1, ..., 7 and the period 2: the simple moving average
    holds [1.5] at index 1, an index before the period. *)
Lemma sma_holds_a_number_before_period :
  ~ warm_up_as_stated
      (calculateSMA [Fin 1; Fin 2; Fin 3; Fin 4; Fin 5; Fin 6; Fin 7] 2) 7 2.
Proof.
  intros (_ & Hnull & _).
  specialize (Hnull 1%nat ltac:(lia) ltac:(vm_compute; lia)).
  vm_compute in Hnull. discriminate Hnull.
Qed.

Lemma indicator_warm_up_witness :
  (1 <= 2)%nat
  /\ length (calculateSMA [Fin 1; Fin 2; Fin 3; Fin 4; Fin 5; Fin 6; Fin 7] 2) = 7%nat
  /\ null_before (calculateSMA [Fin 1; Fin 2; Fin 3; Fin 4; Fin 5; Fin 6; Fin 7] 2) 1
  /\ number_from (calculateSMA [Fin 1; Fin 2; Fin 3; Fin 4; Fin 5; Fin 6; Fin 7] 2) 1.
Proof.
  split; [lia |].
  destruct (indicator_warm_up
              [Fin 1; Fin 2; Fin 3; Fin 4; Fin 5; Fin 6; Fin 7]
              [Fin 1; Fin 2; Fin 3; Fin 4; Fin 5; Fin 6; Fin 7]
              [Fin 1; Fin 2; Fin 3; Fin 4; Fin 5; Fin 6; Fin 7]
              [Fin 1; Fin 2; Fin 3; Fin 4; Fin 5; Fin 6; Fin 7]
              2 ltac:(lia)) as ((Hlen & Hnull & Hnum) & _).
  split; [exact Hlen |]. split; [exact Hnull |].
  apply Hnum. cbn. lia.
Defined.

(** C2 at the trading series, whose backtest records eleven trades: each is
    entered after the one before it was closed. *)
Lemma backtest_trades_never_overlap_witness :
  (250 <= length trading_series)%nat
  /\ exists tally,
       backtest_loop sqrt_approx trading_series default_options
                     (length trading_series) 200 empty_tally = Some tally
       /\ backtestBreakoutStrategy sqrt_approx trading_series default_options
          = Backtest.Results (statistics tally)
       /\ no_overlap (Backtest.trades (statistics tally))
       /\ map trade_summary (Backtest.trades (statistics tally))
          = [(200, 1, Some "Take Profit"); (202, 1, Some "Take Profit");
          (204, 3, Some "Take Profit"); (208, 3, Some "Take Profit");
          (212, 3, Some "Take Profit"); (216, 3, Some "Take Profit");
          (220, 3, Some "Take Profit"); (224, 3, Some "Take Profit");
          (228, 3, Some "Take Profit"); (232, 3, Some "Take Profit");
          (236, 1, Some "Stop Loss")]%string%nat.
Proof.
  assert (250 <= length trading_series)%nat as Hlen by (vm_compute; lia).
  split; [exact Hlen |].
  destruct (backtest_trades_never_overlap sqrt_approx trading_series default_options
              Hlen) as (tally & Hloop & Hresults & Hdisjoint).
  destruct trading_series_backtest as (tally' & Hloop' & _ & Htrades & _).
  assert (tally' = tally) as -> by congruence.
  exists tally. split; [exact Hloop |]. split; [exact Hresults |].
  split; [exact Hdisjoint |].
  rewrite statistics_trades. exact Htrades.
Defined.

(** C4 at the empty series. *)
Lemma backtest_short_input_is_error_witness :
  (length (@nil Candle.t) < 250)%nat
  /\ backtestBreakoutStrategy sqrt_approx [] Options.empty
     = Backtest.Error "Not enough historical data for backtest".
Proof.
  assert (length (@nil Candle.t) < 250)%nat as Hlen by (cbn; lia).
  split; [exact Hlen |].
  exact (proj1 (backtest_short_input_is_error sqrt_approx [] Options.empty Hlen)).
Defined.

(** C3 at a daily series that is a candidate, beside four-hour and hourly
    series that are not: the daily analysis suggests a stop of [0.095], and
    the aggregate has none. *)
Lemma daily_levels_are_not_used :
  ~ levels_as_stated
      (analyzeBreakout sqrt_approx quiet_series sample_options)
      (analyzeBreakout sqrt_approx quiet_series sample_options)
      (analyzeBreakout sqrt_approx short_breakout_series sample_options)
      (multiTimeframeAnalysis sqrt_approx quiet_series quiet_series
                              short_breakout_series sample_options).
Proof.
  intros (_ & _ & Hstop & _).
  vm_compute in Hstop. discriminate Hstop.
Qed.

(** C5 at the prices 1, ..., 16 and the factor 2: at index 14 the RSI is
    [100000 / 1001], and [200000 / 2001] for the doubled series. *)
Lemma rsi_of_a_rising_series_depends_on_scale :
  calculateRSI (scaled (Fin 2) (map Fin rising_prices)) 14
  <> calculateRSI (map Fin rising_prices) 14
  /\ calculateRSI (map Fin rising_prices) 14 !! 14%nat = Some (Num (Fin (100000 # 1001)))
  /\ calculateRSI (scaled (Fin 2) (map Fin rising_prices)) 14 !! 14%nat
     = Some (Num (Fin (200000 # 2001))).
Proof.
  split; [| split; reflexivity].
  intros H. vm_compute in H. discriminate H.
Qed.

(** C5 at the dipping prices, which fall at the third, doubled. *)
Lemma rsi_invariant_under_binary_scaling_witness :
  binary_factor 2
  /\ (2 <= 14)%nat
  /\ (length dipping_prices <= 500)%nat
  /\ Forall binary_price dipping_prices
  /\ calculateRSI (scaled (Fin 2) (map Fin dipping_prices)) 14
     = calculateRSI (map Fin dipping_prices) 14.
Proof.
  assert (binary_factor 2) as Hk by (exists 1%Z; split; [lia | reflexivity]).
  assert (2 <= 14)%nat as Hp by lia.
  assert (length dipping_prices <= 500)%nat as Hlen by (cbn; lia).
  assert (Forall binary_price dipping_prices) as Hsize
    by (repeat (constructor; [right; split; discriminate |]); constructor).
  split; [exact Hk |]. split; [exact Hp |]. split; [exact Hlen |].
  split; [exact Hsize |].
  apply (proj2 (rsi_invariant_under_binary_scaling dipping_prices 2 14) Hk Hp Hlen Hsize).
  exists 2%nat, 11, 9. repeat split; try reflexivity; lia.
Defined.

(** C6 at a consolidation period of 4 and a draw of [0.25]: the candidate
    has the period 4, and the range of section 6 would give [3.5]. *)
Lemma consolidation_period_is_clamped_at_four :
  fst (generateParameterVariations quarter_draws sample_params 0) !! 0%nat
  = Some (fst (variation quarter_draws sample_params 0))
  /\ param PConsolidationPeriod (fst (variation quarter_draws sample_params 0)) = Fin 4
  /\ clamped (spec_range PConsolidationPeriod) (amount PConsolidationPeriod)
             (param PConsolidationPeriod sample_params) (quarter_draws 0)
     = Fin (7 # 2)
  /\ param PConsolidationPeriod (fst (variation quarter_draws sample_params 0))
     <> clamped (spec_range PConsolidationPeriod) (amount PConsolidationPeriod)
                (param PConsolidationPeriod sample_params) (quarter_draws 0).
Proof.
  split; [reflexivity |]. split; [reflexivity |]. split; [reflexivity |].
  intros H. vm_compute in H. discriminate H.
Qed.

Lemma perturbation_clamps_to_source_ranges_witness :
  fst (generateParameterVariations quarter_draws sample_params 0) !! 0%nat
  = Some (fst (variation quarter_draws sample_params 0))
  /\ param PRsiLowerThreshold (fst (variation quarter_draws sample_params 0))
     = clamped (code_range PRsiLowerThreshold) (amount PRsiLowerThreshold)
               (param PRsiLowerThreshold sample_params)
               (quarter_draws (0 + 9 * 0 + draw_index PRsiLowerThreshold)).
Proof.
  assert (fst (generateParameterVariations quarter_draws sample_params 0) !! 0%nat
          = Some (fst (variation quarter_draws sample_params 0))) as Hlookup
    by reflexivity.
  split; [exact Hlookup |].
  exact (proj1 (perturbation_clamps_to_source_ranges quarter_draws sample_params _ 0 0
                  PRsiLowerThreshold Hlookup)).
Defined.

(** C7 at a coin whose three timeframes hold the breakout series: the
    signal is emitted with a confidence of 10 and a success probability of
    92. *)
Lemma emitted_signal_scores_in_range_witness :
  exists s,
    generateBreakoutSignal sqrt_approx utc_zone (0, 0)%Z sample_coin sample_options
    = Returns (Signal.Emitted s)
    /\ Signal.confidence s = Fin 10
    /\ Signal.successProbability s = Fin 92
    /\ (exists c, Signal.confidence s = Fin c /\ 1 <= c <= 10)
    /\ (exists z, Signal.successProbability s = JS.of_Z z /\ (60 <= z <= 95)%Z).
Proof.
  eexists. split; [vm_compute; reflexivity |].
  split; [reflexivity |]. split; [reflexivity |].
  apply (emitted_signal_scores_in_range sqrt_approx utc_zone (0, 0)%Z sample_coin sample_options).
  vm_compute. reflexivity.
Defined.

(** C9 at the coin whose three timeframes hold the breakout series, whose
    last hourly close is 0.103: with [maxPrice: 0] the signal is emitted, as
    it is with the option omitted. *)
Lemma zero_option_behaves_as_omitted_witness :
  exists s,
    generateBreakoutSignal sqrt_approx utc_zone (0, 0)%Z sample_coin
                           (set_option MaxPrice (Num (Fin 0)) sample_options)
    = Returns (Signal.Emitted s)
    /\ generateBreakoutSignal sqrt_approx utc_zone (0, 0)%Z sample_coin
                              (set_option MaxPrice Undefined sample_options)
       = Returns (Signal.Emitted s)
    /\ Signal.entryPrice s = Fin 0.103
    /\ (Signal.entryPrice s >? Fin 1.0)%J = false.
Proof.
  assert (exists s,
             generateBreakoutSignal sqrt_approx utc_zone (0, 0)%Z sample_coin
                                    (set_option MaxPrice (Num (Fin 0)) sample_options)
             = Returns (Signal.Emitted s)
             /\ Signal.entryPrice s = Fin 0.103
             /\ (Signal.entryPrice s >? Fin 1.0)%J = false) as (s & Hs & Hentry & Hgate)
    by (eexists; split; [vm_compute; reflexivity | split; reflexivity]).
  exists s. split; [exact Hs |]. split; [| split; [exact Hentry | exact Hgate]].
  rewrite <- Hs. symmetry.
  exact (proj1 (zero_option_behaves_as_omitted sqrt_approx utc_zone (0, 0)%Z sample_coin
                  [] sample_options MaxPrice)).
Defined.

(** C8 at 250 flat candles of close 1. *)
Lemma flat_series_is_no_candidate_witness :
  (forall a, 0 <= a -> 0 <= sqrt_approx a)
  /\ 0 < 1
  /\ (220 <= length flat_series)%nat
  /\ flat 1 flat_series
  /\ Analysis.isBreakoutCandidate (analyzeBreakout sqrt_approx flat_series Options.empty)
     = false.
Proof.
  assert (0 < 1) as Hc by reflexivity.
  assert (220 <= length flat_series)%nat as Hlen by (vm_compute; lia).
  assert (flat 1 flat_series) as Hflat by (apply Forall_replicate; repeat split).
  split; [exact sqrt_approx_nonneg |]. split; [exact Hc |].
  split; [exact Hlen |]. split; [exact Hflat |].
  exact (flat_series_is_no_candidate sqrt_approx flat_series 1
           sqrt_approx_nonneg Hc Hlen Hflat).
Defined.

(** X3 at four signals and the default thresholds: the signal of medium
    risk and the signal of high risk with a confidence of 9 are kept. *)
Lemma filtered_signal_meets_thresholds_witness :
  filterSignalsForHighAccuracy sample_signals FilterOptions.empty
  = [sample_signal "Medium" 8 85; sample_signal "High" 9 85]
  /\ In (sample_signal "High" 9 85)
        (filterSignalsForHighAccuracy sample_signals FilterOptions.empty)
  /\ (Signal.riskLevel (sample_signal "High" 9 85) = "Low"%string
      \/ Signal.riskLevel (sample_signal "High" 9 85) = "Medium"%string
      \/ (Signal.riskLevel (sample_signal "High" 9 85) = "High"%string
          /\ (Signal.confidence (sample_signal "High" 9 85) >? Fin 8.5)%J = true)).
Proof.
  split; [reflexivity |].
  assert (In (sample_signal "High" 9 85)
             (filterSignalsForHighAccuracy sample_signals FilterOptions.empty)) as Hin
    by (right; left; reflexivity).
  split; [exact Hin |].
  apply (filtered_signal_meets_thresholds sample_signals FilterOptions.empty _ Hin).
Defined.

(** X4 at the twenty-four candles of the breakout series: six four-hour
    candles, the second made of the hourly candles 4 to 7. *)
Lemma four_hour_candles_group_by_four_witness :
  breakout_series !! 4%nat = Some (sample_bar 4 100 1000)
  /\ breakout_series !! 5%nat = Some (sample_bar 5 101 1000)
  /\ breakout_series !! 6%nat = Some (sample_bar 6 100 1000)
  /\ breakout_series !! 7%nat = Some (sample_bar 7 101 1000)
  /\ length (convertHourlyToFourHour breakout_series) = 6%nat
  /\ convertHourlyToFourHour breakout_series !! 1%nat
     = Some (four_hour_candle (sample_bar 4 100 1000) (sample_bar 5 101 1000)
                              (sample_bar 6 100 1000) (sample_bar 7 101 1000)).
Proof.
  assert (breakout_series !! (4 * 1)%nat = Some (sample_bar 4 100 1000)) as H0
    by reflexivity.
  assert (breakout_series !! (4 * 1 + 1)%nat = Some (sample_bar 5 101 1000)) as H1
    by reflexivity.
  assert (breakout_series !! (4 * 1 + 2)%nat = Some (sample_bar 6 100 1000)) as H2
    by reflexivity.
  assert (breakout_series !! (4 * 1 + 3)%nat = Some (sample_bar 7 101 1000)) as H3
    by reflexivity.
  split; [exact H0 |]. split; [exact H1 |]. split; [exact H2 |]. split; [exact H3 |].
  exact (four_hour_candles_group_by_four breakout_series 1 _ _ _ _ H0 H1 H2 H3).
Defined.

(** X5 at the same four candles. *)
Lemma four_hour_candle_spans_its_hours_witness :
  (Candle.high (sample_bar 5 101 1000)
   <=? Candle.high (four_hour_candle (sample_bar 4 100 1000) (sample_bar 5 101 1000)
                                     (sample_bar 6 100 1000) (sample_bar 7 101 1000)))%J
  = true
  /\ (Candle.low (four_hour_candle (sample_bar 4 100 1000) (sample_bar 5 101 1000)
                                   (sample_bar 6 100 1000) (sample_bar 7 101 1000))
      <=? Candle.low (sample_bar 5 101 1000))%J
     = true.
Proof.
  apply (four_hour_candle_spans_its_hours
           (sample_bar 4 100 1000) (sample_bar 5 101 1000)
           (sample_bar 6 100 1000) (sample_bar 7 101 1000)).
  - repeat constructor; discriminate.
  - right; left; reflexivity.
Defined.

(** X7 at the breakout series of twenty-four candles, which reports the
    Bollinger compression, a signal that needs the twenty candles of the
    default Bollinger period. *)
Lemma signals_need_history_witness :
  In "Bollinger Band compression"%string
     (Analysis.signals (analyzeBreakout sqrt_approx breakout_series sample_options))
  /\ (min_history (merge_config sample_options) "Bollinger Band compression"
      <= length breakout_series)%nat
  /\ (0 < signal_weight "Bollinger Band compression")%Z.
Proof.
  assert (In "Bollinger Band compression"%string
             (Analysis.signals
                (analyzeBreakout sqrt_approx breakout_series sample_options))) as Hin
    by (vm_compute; right; right; left; reflexivity).
  split; [exact Hin |].
  exact (signals_need_history sqrt_approx breakout_series sample_options _ Hin).
Defined.

(** X8 and X9 at the sixteen candles of the short breakout series, a
    candidate with the fourteen candles of the default ATR period but not
    the twenty that the ratings need. *)
Lemma levels_only_for_candidates_witness :
  (2 <= length short_breakout_series)%nat
  /\ present (Analysis.suggestedStopLoss
                (analyzeBreakout sqrt_approx short_breakout_series sample_options))
     = true
  /\ present (Analysis.suggestedTakeProfit
                (analyzeBreakout sqrt_approx short_breakout_series sample_options))
     = true.
Proof.
  assert (2 <= length short_breakout_series)%nat as Hlen by (vm_compute; lia).
  split; [exact Hlen |].
  destruct (levels_only_for_candidates sqrt_approx short_breakout_series sample_options
              Hlen) as (Hstop & Htarget & _).
  split; [rewrite Hstop | rewrite Htarget]; vm_compute; reflexivity.
Defined.

Lemma ratings_unknown_on_short_history_witness :
  (2 <= length short_breakout_series)%nat
  /\ Analysis.profitPotential
       (analyzeBreakout sqrt_approx short_breakout_series sample_options)
     = "Unknown"%string
  /\ Analysis.riskLevel
       (analyzeBreakout sqrt_approx short_breakout_series sample_options)
     = "Unknown"%string.
Proof.
  assert (2 <= length short_breakout_series)%nat as Hlen by (vm_compute; lia).
  split; [exact Hlen |].
  destruct (ratings_unknown_on_short_history sqrt_approx short_breakout_series
              sample_options Hlen) as [[_ Hpotential] [_ Hrisk]].
  split; [apply Hpotential | apply Hrisk]; reflexivity.
Defined.

(** X10 at three copies of the breakout series. *)
Lemma confirmed_breakout_needs_the_daily_timeframe_witness :
  MTF.isConfirmedBreakout
    (multiTimeframeAnalysis sqrt_approx breakout_series breakout_series breakout_series
                            sample_options) = true
  /\ Analysis.isBreakoutCandidate
       (analyzeBreakout sqrt_approx breakout_series sample_options) = true.
Proof.
  assert (MTF.isConfirmedBreakout
            (multiTimeframeAnalysis sqrt_approx breakout_series breakout_series
                                    breakout_series sample_options) = true)
    as Hconfirmed by (vm_compute; reflexivity).
  split; [exact Hconfirmed |].
  exact (proj1 (confirmed_breakout_needs_the_daily_timeframe
                  sqrt_approx breakout_series breakout_series breakout_series
                  sample_options Hconfirmed)).
Defined.

(** X11 and X12 at the trading series: eleven trades, ten of them won. *)
Lemma backtest_trades_are_closed_witness :
  (250 <= length trading_series)%nat
  /\ exists results,
       backtestBreakoutStrategy sqrt_approx trading_series default_options
       = Backtest.Results results
       /\ Forall (recorded_trade trading_series) (Backtest.trades results)
       /\ map trade_summary (Backtest.trades results)
          = [(200, 1, Some "Take Profit"); (202, 1, Some "Take Profit");
          (204, 3, Some "Take Profit"); (208, 3, Some "Take Profit");
          (212, 3, Some "Take Profit"); (216, 3, Some "Take Profit");
          (220, 3, Some "Take Profit"); (224, 3, Some "Take Profit");
          (228, 3, Some "Take Profit"); (232, 3, Some "Take Profit");
          (236, 1, Some "Stop Loss")]%string%nat.
Proof.
  assert (250 <= length trading_series)%nat as Hlen by (vm_compute; lia).
  split; [exact Hlen |].
  destruct (backtest_trades_are_closed sqrt_approx trading_series default_options Hlen)
    as (results & Hresults & Hclosed).
  destruct trading_series_backtest as (tally & _ & Hresults' & Htrades & _).
  assert (results = statistics tally) as Hsame by congruence.
  exists results. split; [exact Hresults |]. split; [exact Hclosed |].
  rewrite Hsame, statistics_trades. exact Htrades.
Defined.

Lemma backtest_counts_every_trade_witness :
  (250 <= length trading_series)%nat
  /\ exists results,
       backtestBreakoutStrategy sqrt_approx trading_series default_options
       = Backtest.Results results
       /\ Backtest.totalTrades results = length (Backtest.trades results)
       /\ (Backtest.winningTrades results + Backtest.losingTrades results)%nat
          = Backtest.totalTrades results
       /\ (exists r, Backtest.winRate results = Fin r /\ 0 <= r <= 100)
       /\ Backtest.totalTrades results = 11%nat
       /\ Backtest.winningTrades results = 10%nat
       /\ Backtest.losingTrades results = 1%nat
       /\ Backtest.winRate results = (JS.of_nat 10 / JS.of_nat 11 * Fin 100)%J.
Proof.
  assert (250 <= length trading_series)%nat as Hlen by (vm_compute; lia).
  split; [exact Hlen |].
  destruct (backtest_counts_every_trade sqrt_approx trading_series default_options Hlen)
    as (results & Hresults & Htotal & Hsum & Hrate).
  destruct trading_series_backtest
    as (tally & _ & Hresults' & _ & Hn & Hw & Hl & Hr & _).
  assert (results = statistics tally) as Hsame by congruence.
  exists results. split; [exact Hresults |]. split; [exact Htotal |].
  split; [exact Hsum |]. split; [exact Hrate |].
  rewrite Hsame. by repeat split.
Defined.

(** X13 at the coin whose three timeframes hold the breakout series, read
    at noon UTC of 9 March 2024 in the Eastern time zone: the offset
    changes within the next day, and the signal expires twenty-three hours
    after the reading. *)
Lemma emitted_signal_passed_the_gates_witness :
  exists s,
    generateBreakoutSignal sqrt_approx eastern_zone
                           (1709985600000, 1709985600000)%Z sample_coin sample_options
    = Returns (Signal.Emitted s)
    /\ (Signal.entryPrice s >? or_default (Options.maxPrice sample_options) (Fin 1.0))%J
       = false
    /\ Signal.expiresAt s = (1709985600000 + 23 * 3600 * 1000)%Z.
Proof.
  assert (exists s,
             generateBreakoutSignal sqrt_approx eastern_zone
                                    (1709985600000, 1709985600000)%Z
                                    sample_coin sample_options
             = Returns (Signal.Emitted s)) as [s Hs]
    by (eexists; vm_compute; reflexivity).
  exists s. split; [exact Hs |].
  destruct (emitted_signal_passed_the_gates sqrt_approx eastern_zone _ _ _ s Hs)
    as (_ & Hprice & _ & _ & _ & _ & _ & _ & Huntil & _).
  split; [exact Hprice |]. rewrite Huntil. reflexivity.
Defined.

(** X14 at the same coin. *)
Lemma default_signal_is_confident_witness :
  exists s,
    generateBreakoutSignal sqrt_approx utc_zone (0, 0)%Z sample_coin sample_options
    = Returns (Signal.Emitted s)
    /\ or_default (Options.minMTFScore sample_options) (Fin 75) = Fin 75
    /\ or_default (Options.minAlignmentScore sample_options) (Fin 4) = Fin 4
    /\ (exists c, Signal.confidence s = Fin c /\ 8.5 <= c <= 10)
    /\ (70 <= Signal.dailyScore (Signal.mtfAnalysis s))%Z.
Proof.
  assert (exists s,
             generateBreakoutSignal sqrt_approx utc_zone (0, 0)%Z sample_coin sample_options
             = Returns (Signal.Emitted s)) as [s Hs]
    by (eexists; vm_compute; reflexivity).
  assert (or_default (Options.minMTFScore sample_options) (Fin 75) = Fin 75) as Hscore
    by reflexivity.
  assert (or_default (Options.minAlignmentScore sample_options) (Fin 4) = Fin 4)
    as Halign by reflexivity.
  exists s. split; [exact Hs |]. split; [exact Hscore |]. split; [exact Halign |].
  destruct (default_signal_is_confident sqrt_approx _ _ _ _ s Hs Hscore Halign)
    as (Hc & _ & _ & Hdaily & _).
  split; [exact Hc | exact Hdaily].
Defined.

(** X15 at a coin with an empty hourly series. *)
Lemma generator_throws_only_on_empty_hourly_data_witness :
  CoinData.hourlyData empty_hourly_coin = Some []
  /\ exists what,
       generateBreakoutSignal sqrt_approx utc_zone (0, 0)%Z empty_hourly_coin Options.empty
       = Throws what.
Proof.
  split; [reflexivity |].
  apply (proj1 (generator_throws_only_on_empty_hourly_data
                  sqrt_approx utc_zone (0, 0)%Z empty_hourly_coin Options.empty)).
  split; [reflexivity |]. split; discriminate.
Defined.

(** X17 at the sample parameters and draws of [0.25]. *)
Lemma candidates_lie_within_the_bounds_witness :
  (forall n, exists r, quarter_draws n = Fin r)
  /\ param PRsiLowerThreshold sample_params <> NaN
  /\ fst (generateParameterVariations quarter_draws sample_params 0) !! 3%nat
     = Some (fst (variation quarter_draws sample_params 27))
  /\ exists v,
       param PRsiLowerThreshold (fst (variation quarter_draws sample_params 27)) = Fin v
       /\ fst (code_range PRsiLowerThreshold) <= v <= snd (code_range PRsiLowerThreshold).
Proof.
  assert (forall n, exists r, quarter_draws n = Fin r) as Hdraws
    by (intros n; by exists 0.25).
  assert (param PRsiLowerThreshold sample_params <> NaN) as Hbase by discriminate.
  assert (fst (generateParameterVariations quarter_draws sample_params 0) !! 3%nat
          = Some (fst (variation quarter_draws sample_params 27))) as Hlookup
    by reflexivity.
  split; [exact Hdraws |]. split; [exact Hbase |]. split; [exact Hlookup |].
  exact (proj1 (candidates_lie_within_the_bounds quarter_draws sample_params _ 0 3
                  PRsiLowerThreshold Hdraws Hbase Hlookup)).
Defined.

(** X18 at the twenty-four candles of the breakout series. *)
Lemma optimizer_keeps_initial_on_short_data_witness :
  (length breakout_series < 250)%nat
  /\ optimizeParameters sqrt_approx quarter_draws breakout_series Options.empty 5 0
     = {| Optimum.parameters := initial_params Options.empty;
          Optimum.score := Fin 0;
          Optimum.winRate := Fin 0 |}.
Proof.
  assert (length breakout_series < 250)%nat as Hshort by (vm_compute; lia).
  split; [exact Hshort |].
  exact (optimizer_keeps_initial_on_short_data
           sqrt_approx quarter_draws breakout_series Options.empty 5 0 Hshort).
Defined.

(** X19 at the dipping prices and the period 14. *)
Lemma rsi_lies_between_0_and_100_witness :
  (1 <= 14)%nat
  /\ Forall ordinary dipping_prices
  /\ exists r,
       calculateRSI (map Fin dipping_prices) 14 !! 15%nat = Some (Num r)
       /\ exists v, r = Fin v /\ 0 <= v <= 100.
Proof.
  assert (1 <= 14)%nat as Hp by lia.
  assert (Forall ordinary dipping_prices) as Hsize
    by (repeat constructor; discriminate).
  assert (exists r, calculateRSI (map Fin dipping_prices) 14 !! 15%nat = Some (Num r))
    as [r Hr] by (eexists; vm_compute; reflexivity).
  split; [exact Hp |]. split; [exact Hsize |]. exists r. split; [exact Hr |].
  exact (rsi_lies_between_0_and_100 dipping_prices 14 15 r Hp Hsize Hr).
Defined.

(** X20 at three candles and the period 2. *)
Lemma atr_is_never_negative_witness :
  (1 <= 2)%nat
  /\ Forall ordinary [3; 4; 5] /\ Forall ordinary [1; 2; 4] /\ Forall ordinary [2; 3; 5]
  /\ (forall h l, [3; 4; 5] !! 0%nat = Some h -> [1; 2; 4] !! 0%nat = Some l -> l <= h)
  /\ exists a,
       calculateATR (map Fin [3; 4; 5]) (map Fin [1; 2; 4]) (map Fin [2; 3; 5]) 2
         !! 2%nat = Some (Num a)
       /\ exists v, a = Fin v /\ 0 <= v.
Proof.
  assert (1 <= 2)%nat as Hp by lia.
  assert (forall h l : Q,
             [3; 4; 5] !! 0%nat = Some h -> [1; 2; 4] !! 0%nat = Some l -> l <= h)
    as Hfirst.
  { intros h l [= <-] [= <-]. discriminate. }
  assert (exists a,
             calculateATR (map Fin [3; 4; 5]) (map Fin [1; 2; 4]) (map Fin [2; 3; 5]) 2
               !! 2%nat = Some (Num a)) as [a Ha]
    by (eexists; vm_compute; reflexivity).
  assert (Forall ordinary [3; 4; 5]) as Hhighs by (repeat constructor; discriminate).
  assert (Forall ordinary [1; 2; 4]) as Hlows by (repeat constructor; discriminate).
  assert (Forall ordinary [2; 3; 5]) as Hcloses by (repeat constructor; discriminate).
  split; [exact Hp |]. split; [exact Hhighs |]. split; [exact Hlows |].
  split; [exact Hcloses |]. split; [exact Hfirst |]. exists a. split; [exact Ha |].
  exact (atr_is_never_negative [3; 4; 5] [1; 2; 4] [2; 3; 5] 2 2 a Hp
           Hhighs Hlows Hcloses Hfirst Ha).
Defined.

(** X21 at the prices 1, 2, 3, 4 and the period 2. *)
Lemma bollinger_bands_are_ordered_witness :
  (forall a, 0 <= a -> 0 <= sqrt_approx a)
  /\ (1 <= 2)%nat
  /\ Forall ordinary [1; 2; 3; 4]
  /\ exists p,
       calculateBollingerBands sqrt_approx (map Fin [1; 2; 3; 4]) 2 !! 2%nat = Some p
       /\ (((2 < 2 - 1)%nat /\ p = null_point)
           \/ ((2 - 1 <= 2)%nat
               /\ exists u m l,
                    upper p = Num (Fin u) /\ middle p = Num (Fin m)
                    /\ lower p = Num (Fin l)
                    /\ l <= m <= u)).
Proof.
  assert (1 <= 2)%nat as Hp by lia.
  assert (exists p,
             calculateBollingerBands sqrt_approx (map Fin [1; 2; 3; 4]) 2 !! 2%nat
             = Some p) as [p Hp2]
    by (eexists; vm_compute; reflexivity).
  assert (Forall ordinary [1; 2; 3; 4]) as Hsize by (repeat constructor; discriminate).
  split; [exact sqrt_approx_nonneg |]. split; [exact Hp |]. split; [exact Hsize |].
  exists p. split; [exact Hp2 |].
  exact (bollinger_bands_are_ordered sqrt_approx [1; 2; 3; 4] 2 2 p
           sqrt_approx_nonneg Hp Hsize Hp2).
Defined.

(** X22 at the prices 1, ..., 36 and the index 34. *)
Lemma macd_warm_up_witness :
  exists p,
    calculateMACD thirty_six_prices !! 34%nat = Some p
    /\ length (calculateMACD thirty_six_prices) = length thirty_six_prices
    /\ (((length thirty_six_prices < 35)%nat \/ (34 < 33)%nat) /\ p = null_macd
        \/ ((35 <= length thirty_six_prices)%nat /\ (33 <= 34)%nat
            /\ exists m s,
                 macd p = Num m /\ signal p = Num s /\ histogram p = Num (m - s)%J)).
Proof.
  assert (exists p, calculateMACD thirty_six_prices !! 34%nat = Some p) as [p Hp]
    by (eexists; vm_compute; reflexivity).
  exists p. split; [exact Hp |].
  exact (macd_warm_up thirty_six_prices 34 p Hp).
Defined.

(** X23 at the twenty-four candles of the breakout series. *)
Lemma four_hour_analysis_never_reports_ema200_witness :
  (length breakout_series < 800)%nat
  /\ (length (convertHourlyToFourHour breakout_series) < 200)%nat
  /\ ~ In "Price above EMA200"%string
          (Analysis.signals
             (analyzeBreakout sqrt_approx (convertHourlyToFourHour breakout_series)
                              Options.empty)).
Proof.
  assert (length breakout_series < 800)%nat as Hlen by (vm_compute; lia).
  split; [exact Hlen |].
  exact (four_hour_analysis_never_reports_ema200 sqrt_approx breakout_series
           Options.empty Hlen).
Defined.

(** X24 at three closes that rise and fall. *)
Lemma obv_is_bounded_by_the_volume_witness :
  Forall (fun q => 0 <= q) [10; 20; 30]
  /\ calculateOBV (map Fin [1; 2; 1]) (map Fin [10; 20; 30]) !! 2%nat
     = Some (Num (Fin 0))
  /\ ((length [1; 2; 1] <> length [10; 20; 30] /\ Num (Fin 0) = Null)
      \/ (length [1; 2; 1] = length [10; 20; 30]
          /\ exists x,
               Num (Fin 0) = Num x
               /\ let traded := sum_list (take 3 (map Fin [10; 20; 30])) in
                  (x <=? traded)%J = true /\ (JS.neg traded <=? x)%J = true)).
Proof.
  assert (Forall (fun q => 0 <= q) [10; 20; 30]) as Hvol
    by (repeat constructor; discriminate).
  assert (calculateOBV (map Fin [1; 2; 1]) (map Fin [10; 20; 30]) !! 2%nat
          = Some (Num (Fin 0))) as Hobv by reflexivity.
  split; [exact Hvol |]. split; [exact Hobv |].
  exact (obv_is_bounded_by_the_volume [1; 2; 1] [10; 20; 30] 2 _ Hvol Hobv).
Defined.

(** X25 at the dipping prices, which lie between 9 and 24, and the period
    3. *)
Lemma moving_averages_stay_within_the_prices_witness :
  (1 <= 3)%nat
  /\ (Z.of_nat 3 <= 1000000)%Z
  /\ ordinary_price 9 /\ ordinary_price 24
  /\ Forall (fun q => 9 <= q <= 24) dipping_prices
  /\ calculateSMA (map Fin dipping_prices) 3 !! 2%nat = Some (Num (Fin 10))
  /\ exists q, Fin 10 = Fin q /\ 9 - margin * 24 <= q <= 24 + margin * 24.
Proof.
  assert (1 <= 3)%nat as Hp by lia.
  assert (Z.of_nat 3 <= 1000000)%Z as Hmax by lia.
  assert (ordinary_price 9) as Hlo by (split; discriminate).
  assert (ordinary_price 24) as Hhi by (split; discriminate).
  assert (Forall (fun q => 9 <= q <= 24) dipping_prices) as Hprices
    by (repeat constructor; discriminate).
  assert (calculateSMA (map Fin dipping_prices) 3 !! 2%nat = Some (Num (Fin 10)))
    as Hsma by reflexivity.
  split; [exact Hp |]. split; [exact Hmax |]. split; [exact Hlo |].
  split; [exact Hhi |]. split; [exact Hprices |]. split; [exact Hsma |].
  exact (proj1 (moving_averages_stay_within_the_prices dipping_prices 3 9 24
                  Hp Hmax Hlo Hhi Hprices) 2%nat (Fin 10) Hsma).
Defined.

(** X26 at seven closes between 10 and 11, a period of six and a threshold
    of 0.15: the range of the last six is a tenth of the highest, one
    eleventh. *)
Lemma consolidation_keeps_prices_near_the_high_witness :
  (1 <= 6)%nat
  /\ Forall ordinary_price [10; 11; 10; 11; 10; 11; 10]
  /\ isPriceConsolidating (map Fin [10; 11; 10; 11; 10; 11; 10]) (JS.of_nat 6) (Fin 0.15)
     = true
  /\ (6 <= length [10; 11; 10; 11; 10; 11; 10])%nat
  /\ exists hi,
       In hi [11; 10; 11; 10; 11; 10]
       /\ Forall (fun q => q <= hi /\ hi - q <= (0.15 + margin) * hi)
                 [11; 10; 11; 10; 11; 10].
Proof.
  assert (1 <= 6)%nat as Hk by lia.
  assert (Forall ordinary_price [10; 11; 10; 11; 10; 11; 10]) as Hsize
    by (repeat constructor; discriminate).
  assert (isPriceConsolidating (map Fin [10; 11; 10; 11; 10; 11; 10])
                               (JS.of_nat 6) (Fin 0.15) = true) as Htest
    by reflexivity.
  split; [exact Hk |]. split; [exact Hsize |]. split; [exact Htest |].
  exact (proj1 (consolidation_keeps_prices_near_the_high
                  [10; 11; 10; 11; 10; 11; 10] 6 0.15 Hk Hsize) Htest).
Defined.

(** X27 at the short breakout series, whose last close is 0.103 and whose
    suggested stop is 0.095. *)
Lemma take_profit_is_three_times_the_risk_witness :
  last_num (map Candle.close short_breakout_series) = Fin (inject_Z 103 / 1000)
  /\ Analysis.suggestedStopLoss
       (analyzeBreakout sqrt_approx short_breakout_series sample_options)
     = Num (Fin (19 # 200))
  /\ Qabs (inject_Z 103 / 1000) <= 1000000
  /\ Qabs (19 # 200) <= 1000000
  /\ exists tp,
       Analysis.suggestedTakeProfit
         (analyzeBreakout sqrt_approx short_breakout_series sample_options)
       = Num (Fin tp)
       /\ - (1 # 10000) <= tp - (inject_Z 103 / 1000 + 3 * (inject_Z 103 / 1000 - (19 # 200)))
          <= 1 # 10000.
Proof.
  assert (last_num (map Candle.close short_breakout_series)
          = Fin (inject_Z 103 / 1000)) as Hprice by reflexivity.
  assert (Analysis.suggestedStopLoss
            (analyzeBreakout sqrt_approx short_breakout_series sample_options)
          = Num (Fin (19 # 200))) as Hstop by (vm_compute; reflexivity).
  assert (Qabs (inject_Z 103 / 1000) <= 1000000) as Hp by discriminate.
  assert (Qabs (19 # 200) <= 1000000) as Hs by discriminate.
  split; [exact Hprice |]. split; [exact Hstop |]. split; [exact Hp |].
  split; [exact Hs |].
  exact (take_profit_is_three_times_the_risk sqrt_approx short_breakout_series
           sample_options _ _ Hprice Hstop Hp Hs).
Defined.


(** X29 at the trading series without a generation of candidates: the
    optimizer returns the default parameters, whose backtest wins ten of
    its eleven trades. *)
Lemma optimizer_reports_a_win_rate_witness :
  let best := optimizeParameters sqrt_approx quarter_draws trading_series
                                 Options.empty 0 0 in
  Optimum.parameters best = initial_params Options.empty
  /\ Optimum.winRate best = (JS.of_nat 10 / JS.of_nat 11 * Fin 100)%J
  /\ exists r, Optimum.winRate best = Fin r /\ 0 <= r <= 100 /\ 90 < r < 91.
Proof.
  cbv zeta.
  assert (250 <= length trading_series)%nat as Hlen by (vm_compute; lia).
  destruct (optimizer_reports_a_win_rate sqrt_approx quarter_draws trading_series
              Options.empty 0 0) as (_ & Hrate & r & Hr & Hrange).
  destruct (Hrate Hlen) as (results & Hresults & _ & Hvalue).
  change (Optimum.parameters
            (optimizeParameters sqrt_approx quarter_draws trading_series Options.empty 0 0))
    with (initial_params Options.empty) in Hresults.
  change (Params.options (initial_params Options.empty)) with default_options in Hresults.
  destruct trading_series_backtest as (tally & _ & Hresults' & _ & Hn & Hw & _).
  assert (results = statistics tally) as Hsame by congruence.
  rewrite Hsame, Hn, Hw in Hvalue. cbn [Nat.eqb] in Hvalue.
  split; [reflexivity |]. split; [exact Hvalue |].
  exists r. split; [exact Hr |]. split; [exact Hrange |].
  rewrite Hvalue in Hr. injection Hr as <-. split; reflexivity.
Defined.
